(** * render_all_lite: data merge, template rendering and asset copy

    A shallow embedding of [render_all_lite.py].  The script is modelled as a
    program in a small monad that threads the working directory (a tree of
    files), may raise a Python exception, and records every step it takes
    (printed lines, tracebacks, directory scans, file reads and writes) in a
    trace.

    Modelling conventions:
    - a path is a Python [str]; the file system splits it at ['/'];
    - a file's content is either the text of a well-formed JSON/YAML document,
      given by the value it denotes, or any other text;
    - numbers are integers (float literals are outside the model) and a
      character of a string is one [ascii];
    - an exception is known by its class; the text [str(e)] is schematic;
    - the working directory is a tree of plain files and directories:
      symbolic links, permissions and changes made by other processes are
      outside the model, so an operation fails only for a reason the tree
      shows (a missing entry, a file where a directory is needed, a
      directory where a file is needed, an entry that exists already);
    - the Jinja environment is a parameter of the development. *)

From Stdlib Require Import String Ascii List ZArith Bool Arith Lia Permutation.
Import ListNotations.
Set Warnings "-register-all".
Open Scope list_scope.
Open Scope string_scope.

(** ** Python [str] operations *)

Module Str.

(** [s.startswith(pre)] *)
Definition startswith (s pre : string) : bool := String.prefix pre s.

(** [s.endswith(suf)]: some suffix of [s] is [suf]. *)
Fixpoint endswith (s suf : string) : bool :=
  String.eqb s suf ||
  match s with
  | EmptyString => false
  | String _ s' => endswith s' suf
  end.

(** [s.endswith((suf1, suf2, ...))] *)
Definition endswith_any (s : string) (sufs : list string) : bool :=
  existsb (endswith s) sufs.

(** [sub in s] *)
Fixpoint contains (sub s : string) : bool :=
  String.prefix sub s ||
  match s with
  | EmptyString => false
  | String _ s' => contains sub s'
  end.

(** [s.replace(old, new)] for a non-empty [old]: the occurrences are taken
    left to right and do not overlap.  [skip] counts the characters of a
    matched occurrence that are still to be dropped. *)
Fixpoint replace_from (old new : string) (skip : nat) (s : string) : string :=
  match s with
  | EmptyString => EmptyString
  | String c s' =>
      match skip with
      | S k => replace_from old new k s'
      | O =>
          if String.prefix old s
          then new ++ replace_from old new (String.length old - 1) s'
          else String c (replace_from old new 0 s')
      end
  end.

(** [s.replace("", new)] puts [new] around every character. *)
Fixpoint interleave (new s : string) : string :=
  match s with
  | EmptyString => EmptyString
  | String c s' => String c (new ++ interleave new s')
  end.

Definition replace (s old new : string) : string :=
  match old with
  | EmptyString => new ++ interleave new s
  | String _ _ => replace_from old new 0 s
  end.

(** [s.split(sep)] for a one-character separator. *)
Fixpoint split (sep : ascii) (s : string) : list string :=
  match s with
  | EmptyString => [EmptyString]
  | String c s' =>
      if Ascii.eqb c sep then EmptyString :: split sep s'
      else match split sep s' with
           | [] => [String c EmptyString]
           | h :: t => String c h :: t
           end
  end.

(** [sep.join(parts)] *)
Fixpoint join (sep : string) (parts : list string) : string :=
  match parts with
  | [] => EmptyString
  | [p] => p
  | p :: rest => p ++ sep ++ join sep rest
  end.

Definition is_empty (s : string) : bool :=
  match s with EmptyString => true | _ => false end.

(** [s.rstrip('/')] *)
Fixpoint rstrip_slash (s : string) : string :=
  match s with
  | EmptyString => EmptyString
  | String c s' =>
      let r := rstrip_slash s' in
      if is_empty r && Ascii.eqb c "/" then EmptyString else String c r
  end.

End Str.

(** ** [os.path] *)

Module Path.

(** The components the file system sees: empty components (doubled or
    trailing slashes) are skipped. *)
Definition components (p : string) : list string :=
  filter (fun c => negb (Str.is_empty c)) (Str.split "/" p).

(** [os.path.join(a, b)] *)
Definition join (a b : string) : string :=
  if Str.startswith b "/" then b
  else if Str.is_empty a || Str.endswith a "/" then a ++ b
  else a ++ "/" ++ b.

(** [os.path.dirname(p)]: everything up to the last slash, without trailing
    slashes unless it consists of slashes only. *)
Definition dirname (p : string) : string :=
  match rev (Str.split "/" p) with
  | [] | [_] => EmptyString
  | _ :: front =>
      let head := Str.join "/" (rev front) ++ "/" in
      if Str.is_empty (Str.rstrip_slash head) then head
      else Str.rstrip_slash head
  end.

(** [os.path.basename(p)] *)
Definition basename (p : string) : string :=
  last (Str.split "/" p) EmptyString.

Fixpoint drop_common (p start : list string) : list string * list string :=
  match p, start with
  | a :: p', b :: start' =>
      if String.eqb a b then drop_common p' start' else (p, start)
  | _, _ => (p, start)
  end.

(** [os.path.relpath(p, start)] for relative paths without ['.'] and ['..']
    components: climb out of what is left of [start], then descend. *)
Definition relpath (p start : string) : string :=
  let '(rest, up) := drop_common (components p) (components start) in
  match (map (fun _ => "..") up ++ rest)%list with
  | [] => "."
  | l => Str.join "/" l
  end.

End Path.

(** ** [fnmatch] patterns *)

Module Fnmatch.

Inductive tok : Type :=
| Star
| Any
| Lit (c : ascii)
| Class (cs : list ascii).

(** Translation of a shell pattern: [*], [?], a character set [[...]]
    (without ranges and negation, which the script does not use), or a
    literal character. *)
Fixpoint translate (pat : string) (cls : option (list ascii)) : list tok :=
  match pat with
  | EmptyString => []
  | String c pat' =>
      match cls with
      | Some acc =>
          if Ascii.eqb c "]" then Class (rev acc) :: translate pat' None
          else translate pat' (Some (c :: acc))
      | None =>
          if Ascii.eqb c "*" then Star :: translate pat' None
          else if Ascii.eqb c "?" then Any :: translate pat' None
          else if Ascii.eqb c "[" then translate pat' (Some [])
          else Lit c :: translate pat' None
      end
  end.

(** The whole name has to match. *)
Fixpoint matches (p : list tok) : string -> bool :=
  match p with
  | [] => fun s => Str.is_empty s
  | Star :: p' =>
      fix star (s : string) : bool :=
        matches p' s ||
        match s with
        | EmptyString => false
        | String _ s' => star s'
        end
  | Any :: p' =>
      fun s => match s with
               | EmptyString => false
               | String _ s' => matches p' s'
               end
  | Lit c :: p' =>
      fun s => match s with
               | EmptyString => false
               | String d s' => Ascii.eqb c d && matches p' s'
               end
  | Class cs :: p' =>
      fun s => match s with
               | EmptyString => false
               | String d s' => existsb (Ascii.eqb d) cs && matches p' s'
               end
  end.

(** [fnmatch.fnmatch(name, pat)] on POSIX (no case normalisation). *)
Definition fnmatch (name pat : string) : bool :=
  matches (translate pat None) name.

End Fnmatch.

(** ** Python values and [dict] *)

(** What [json.load] and [yaml.safe_load] return.  A [VDict] lists its items
    in insertion order; its keys are hashable and pairwise different. *)
Inductive value : Type :=
| VNone
| VBool (b : bool)
| VInt (z : Z)
| VStr (s : string)
| VList (items : list value)
| VDict (items : list (value * value)).

Definition dict : Type := list (value * value).

(** Exceptions, by class. *)
Inductive exn : Type :=
| FileNotFoundError (path : string)
| IsADirectoryError (path : string)
| NotADirectoryError (path : string)
| FileExistsError (path : string)
| SameFileError (path : string)
| DecodeError (path : string)
| TypeError (msg : string)
| ValueError (msg : string)
| TemplateError (msg : string)
| RuntimeError (msg : string).

(** [str(e)] *)
Definition exn_str (e : exn) : string :=
  match e with
  | FileNotFoundError p => "[Errno 2] No such file or directory: '" ++ p ++ "'"
  | IsADirectoryError p => "[Errno 21] Is a directory: '" ++ p ++ "'"
  | NotADirectoryError p => "[Errno 20] Not a directory: '" ++ p ++ "'"
  | FileExistsError p => "[Errno 17] File exists: '" ++ p ++ "'"
  | SameFileError p => "'" ++ p ++ "' and '" ++ p ++ "' are the same file"
  | DecodeError p => "could not parse " ++ p
  | TypeError m => m
  | ValueError m => m
  | TemplateError m => m
  | RuntimeError m => m
  end.

(** [isinstance(e, jinja2.TemplateError)] *)
Definition is_template_error (e : exn) : bool :=
  match e with TemplateError _ => true | _ => false end.

Inductive result (A : Type) : Type :=
| Ok (a : A)
| Raise (e : exn).
Arguments Ok {A} a.
Arguments Raise {A} e.

Module Py.

(** Keys up to Python equality: [True == 1] and [False == 0]. *)
Inductive hkey : Type :=
| KNone
| KInt (z : Z)
| KStr (s : string).

(** [hash(k)] succeeds on scalars only. *)
Definition key_norm (k : value) : option hkey :=
  match k with
  | VNone => Some KNone
  | VBool b => Some (KInt (if b then 1 else 0))
  | VInt z => Some (KInt z)
  | VStr s => Some (KStr s)
  | VList _ | VDict _ => None
  end.

Definition hkey_eqb (a b : hkey) : bool :=
  match a, b with
  | KNone, KNone => true
  | KInt x, KInt y => Z.eqb x y
  | KStr x, KStr y => String.eqb x y
  | _, _ => false
  end.

Definition key_eqb (a b : value) : bool :=
  match key_norm a, key_norm b with
  | Some x, Some y => hkey_eqb x y
  | _, _ => false
  end.

Definition hashable (k : value) : bool :=
  match key_norm k with Some _ => true | None => false end.

(** [d.get(k)] *)
Fixpoint dict_get (k : value) (d : dict) : option value :=
  match d with
  | [] => None
  | (k', v) :: d' => if key_eqb k k' then Some v else dict_get k d'
  end.

(** [d[k] = v] for a hashable [k]: an existing key keeps its place and its
    key object, a new key goes to the end. *)
Fixpoint dict_set (d : dict) (k v : value) : dict :=
  match d with
  | [] => [(k, v)]
  | (k', v') :: d' =>
      if key_eqb k k' then (k', v) :: d' else (k', v') :: dict_set d' k v
  end.

(** One element of an update sequence: it has to be an iterable of exactly
    two elements.  Iterating a string yields its characters, iterating a dict
    yields its keys. *)
Definition as_pair (item : value) : result (value * value) :=
  match item with
  | VList [a; b] => Ok (a, b)
  | VStr (String a (String b EmptyString)) =>
      Ok (VStr (String a EmptyString), VStr (String b EmptyString))
  | VDict [(a, _); (b, _)] => Ok (a, b)
  | VList _ | VStr _ | VDict _ =>
      Raise (ValueError "dictionary update sequence element has the wrong length")
  | VNone | VBool _ | VInt _ =>
      Raise (TypeError "cannot convert dictionary update sequence element to a sequence")
  end.

(** Insertion of a sequence of candidate pairs, one at a time; the first
    failure stops the update and leaves the earlier insertions in place. *)
Fixpoint insert_seq (d : dict) (items : list (result (value * value)))
  : dict * option exn :=
  match items with
  | [] => (d, None)
  | Raise e :: _ => (d, Some e)
  | Ok (k, v) :: rest =>
      if hashable k then insert_seq (dict_set d k v) rest
      else (d, Some (TypeError "unhashable type"))
  end.

(** The candidate pairs of [d.update(other)]. *)
Definition update_seq (other : value) : list (result (value * value)) :=
  match other with
  | VDict kvs => map Ok kvs
  | VList items => map as_pair items
  | VStr s =>
      match s with
      | EmptyString => []
      | String _ _ =>
          [Raise (ValueError "dictionary update sequence element #0 has length 1; 2 is required")]
      end
  | VNone | VBool _ | VInt _ => [Raise (TypeError "object is not iterable")]
  end.

(** [d.update(other)]: the dict afterwards, and the exception if one was
    raised. *)
Definition dict_update (d : dict) (other : value) : dict * option exn :=
  insert_seq d (update_seq other).

End Py.

(** ** The file system *)

(** A file holds a well-formed JSON or YAML document, given by the value it
    denotes, or any other text (a template, a page, malformed data). *)
Inductive content : Type :=
| Doc (v : value)
| Raw (text : string).

Inductive node : Type :=
| File (c : content)
| Dir (entries : list (string * node)).

(** The entries of the working directory, in the order the file system
    enumerates them. *)
Definition tree : Type := list (string * node).

Module Fs.

Fixpoint lookup (name : string) (es : tree) : option node :=
  match es with
  | [] => None
  | (n, x) :: es' => if String.eqb name n then Some x else lookup name es'
  end.

Fixpoint walk (n : node) (comps : list string) : option node :=
  match comps with
  | [] => Some n
  | c :: cs =>
      match n with
      | File _ => None
      | Dir es =>
          match lookup c es with
          | Some child => walk child cs
          | None => None
          end
      end
  end.

Definition resolve (cwd : tree) (p : string) : option node :=
  walk (Dir cwd) (Path.components p).

Fixpoint set_entry (name : string) (x : node) (es : tree) : tree :=
  match es with
  | [] => [(name, x)]
  | (n, y) :: es' =>
      if String.eqb name n then (n, x) :: es'
      else (n, y) :: set_entry name x es'
  end.

Fixpoint del_entry (name : string) (es : tree) : tree :=
  match es with
  | [] => []
  | (n, y) :: es' =>
      if String.eqb name n then es' else (n, y) :: del_entry name es'
  end.

(** Create or replace the entry at [comps]; its parent has to be an existing
    directory. *)
Fixpoint put (comps : list string) (x : node) (n : node) : option node :=
  match comps, n with
  | [], _ => None
  | _, File _ => None
  | [c], Dir es => Some (Dir (set_entry c x es))
  | c :: cs, Dir es =>
      match lookup c es with
      | Some child =>
          match put cs x child with
          | Some child' => Some (Dir (set_entry c child' es))
          | None => None
          end
      | None => None
      end
  end.

Fixpoint del (comps : list string) (n : node) : option node :=
  match comps, n with
  | [], _ => None
  | _, File _ => None
  | [c], Dir es => Some (Dir (del_entry c es))
  | c :: cs, Dir es =>
      match lookup c es with
      | Some child =>
          match del cs child with
          | Some child' => Some (Dir (set_entry c child' es))
          | None => None
          end
      | None => None
      end
  end.

(** Create the directories along [comps] that are missing; a file on the way
    is an error. *)
Fixpoint mkdirs (comps : list string) (n : node) : option node :=
  match comps, n with
  | [], _ => Some n
  | _ :: _, File _ => None
  | c :: cs, Dir es =>
      let child := match lookup c es with
                   | Some child => child
                   | None => Dir []
                   end in
      match mkdirs cs child with
      | Some child' => Some (Dir (set_entry c child' es))
      | None => None
      end
  end.

(** Some proper prefix of [comps] leads to a file. *)
Fixpoint through_file (comps : list string) (n : node) : bool :=
  match comps, n with
  | [], _ => false
  | _ :: _, File _ => true
  | c :: cs, Dir es =>
      match lookup c es with
      | Some child => through_file cs child
      | None => false
      end
  end.

(** [os.listdir]; the scan of [glob] yields nothing for what is not a
    directory. *)
Definition listdir (cwd : tree) (p : string) : list string :=
  match resolve cwd p with
  | Some (Dir es) => map fst es
  | _ => []
  end.

End Fs.

(** ** [glob] *)

Module Glob.

Definition ishidden (name : string) : bool := Str.startswith name ".".

(** [_glob1]: the names of a listing that match [pat]; hidden names only
    match a pattern that is hidden itself. *)
Definition glob1 (names : list string) (pat : string) : list string :=
  filter (fun n => Fnmatch.fnmatch n pat)
         (if ishidden pat then names
          else filter (fun n => negb (ishidden n)) names).

(** The matches of [pat] in the directory [n] and, below them, in each of its
    directories that is not hidden, in the order of [_rlistdir]. *)
Fixpoint rglob (pat : string) (prefix : string) (n : node) : list string :=
  match n with
  | File _ => []
  | Dir es =>
      (map (Path.join prefix) (glob1 (map fst es) pat) ++
       flat_map (fun e : string * node =>
                   let (name, child) := e in
                   if ishidden name then []
                   else rglob pat (Path.join prefix name) child) es)%list
  end.

(** [glob.glob(pathname, recursive=...)] for the two shapes of pattern the
    script uses, [dir/pat] and [dir/**/pat]. *)
Definition glob (cwd : tree) (pathname : string) (recursive : bool)
  : list string :=
  match Str.split "/" pathname with
  | [dir; pat] => map (Path.join dir) (glob1 (Fs.listdir cwd dir) pat)
  | [dir; "**"; pat] =>
      if recursive then
        match Fs.resolve cwd dir with
        | Some n => rglob pat (Path.join dir "") n
        | None => []
        end
      else []
  | _ => []
  end.

End Glob.

(** ** The monad of the script *)

(** The steps of a run that the outside sees: a line on standard output, a
    traceback on standard error, a [glob] call, and the calls that read or
    change the file system or ask the environment for a rendering. *)
Inductive event : Type :=
| Print (line : string)
| Traceback (e : exn)
| Scan (pathname : string) (recursive : bool)
| OpenRead (path : string)
| Makedirs (path : string)
| Remove (path : string)
| Copy (src dst : string)
| Write (path text : string)
| Render (name : string) (data : dict).

(** What a computation leaves: its value or its exception, the working
    directory afterwards, and the steps it took. *)
Record outcome (A : Type) : Type := Outcome {
  res : result A;
  fs_after : tree;
  trace : list event
}.
Arguments Outcome {A} res fs_after trace.
Arguments res {A} o.
Arguments fs_after {A} o.
Arguments trace {A} o.

Definition M (A : Type) : Type := tree -> outcome A.

Definition ret {A} (a : A) : M A := fun fs => Outcome (Ok a) fs [].

Definition bind {A B} (m : M A) (k : A -> M B) : M B :=
  fun fs =>
    let o := m fs in
    match res o with
    | Ok a =>
        let o' := k a (fs_after o) in
        Outcome (res o') (fs_after o') (trace o ++ trace o')%list
    | Raise e => Outcome (Raise e) (fs_after o) (trace o)
    end.

Notation "x <- m ;; k" := (bind m (fun x => k))
  (at level 61, m at next level, right associativity).
Notation "m ;; k" := (bind m (fun _ => k))
  (at level 61, right associativity).

Definition raise {A} (e : exn) : M A := fun fs => Outcome (Raise e) fs [].

Definition lift {A} (r : result A) : M A := fun fs => Outcome r fs [].

(** The body of a [try]: its exception, if any, becomes a value. *)
Definition try_ {A} (m : M A) : M (result A) :=
  fun fs => let o := m fs in Outcome (Ok (res o)) (fs_after o) (trace o).

Definition emit (e : event) : M unit := fun fs => Outcome (Ok tt) fs [e].

Definition when (b : bool) (m : M unit) : M unit := if b then m else ret tt.

Fixpoint for_each {A} (l : list A) (body : A -> M unit) : M unit :=
  match l with
  | [] => ret tt
  | x :: l' => body x ;; for_each l' body
  end.

Fixpoint for_fold {A S} (l : list A) (s : S) (body : A -> S -> M S) : M S :=
  match l with
  | [] => ret s
  | x :: l' => s' <- body x s ;; for_fold l' s' body
  end.

(** *** Primitives *)

Definition print (line : string) : M unit := emit (Print line).

(** [traceback.print_exc()] *)
Definition print_exc (e : exn) : M unit := emit (Traceback e).

Definition glob (pathname : string) (recursive : bool) : M (list string) :=
  emit (Scan pathname recursive) ;;
  fun fs => Outcome (Ok (Glob.glob fs pathname recursive)) fs [].

(** [os.path.exists] *)
Definition path_exists (p : string) : M bool :=
  fun fs => Outcome (Ok (match Fs.resolve fs p with
                         | Some _ => true
                         | None => false
                         end)) fs [].

(** [open(p, "r")] and reading the content. *)
Definition open_read (p : string) : M content :=
  emit (OpenRead p) ;;
  fun fs =>
    match Fs.resolve fs p with
    | Some (File c) => Outcome (Ok c) fs []
    | Some (Dir _) => Outcome (Raise (IsADirectoryError p)) fs []
    | None => Outcome (Raise (FileNotFoundError p)) fs []
    end.

(** The directory at which [os.makedirs(name)] stops: it splits [name] into
    head and tail, and first makes the head while that does not exist. *)
Fixpoint unmade (fuel : nat) (fs : tree) (name : string) : string :=
  match fuel with
  | O => name
  | S k =>
      let cut := if Str.is_empty (Path.basename name)
                 then Path.dirname name else name in
      let head := Path.dirname cut in
      let tail := Path.basename cut in
      if negb (Str.is_empty head) && negb (Str.is_empty tail)
         && match Fs.resolve fs head with Some _ => false | None => true end
      then unmade k fs head
      else name
  end.

(** [os.makedirs(p)]: the missing directories along [p] are made; a file on
    the way stops it at the first directory that cannot be made. *)
Definition makedirs (p : string) : M unit :=
  emit (Makedirs p) ;;
  fun fs =>
    match Fs.resolve fs p with
    | Some _ => Outcome (Raise (FileExistsError p)) fs []
    | None =>
        match Path.components p with
        | [] => Outcome (Raise (FileNotFoundError p)) fs []
        | comps =>
            match Fs.mkdirs comps (Dir fs) with
            | Some (Dir fs') => Outcome (Ok tt) fs' []
            | _ =>
                Outcome (Raise (NotADirectoryError
                                  (unmade (String.length p) fs p))) fs []
            end
        end
    end.

(** [os.remove(p)] *)
Definition remove (p : string) : M unit :=
  emit (Remove p) ;;
  fun fs =>
    match Fs.resolve fs p with
    | Some (File _) =>
        match Fs.del (Path.components p) (Dir fs) with
        | Some (Dir fs') => Outcome (Ok tt) fs' []
        | _ => Outcome (Raise (FileNotFoundError p)) fs []
        end
    | Some (Dir _) => Outcome (Raise (IsADirectoryError p)) fs []
    | None => Outcome (Raise (FileNotFoundError p)) fs []
    end.

(** Creating or overwriting the file at [p]: a missing directory on the way
    is [ENOENT], a file on the way is [ENOTDIR]. *)
Definition store (p : string) (c : content) : M unit :=
  fun fs =>
    match Fs.resolve fs p with
    | Some (Dir _) => Outcome (Raise (IsADirectoryError p)) fs []
    | _ =>
        match Fs.put (Path.components p) (File c) (Dir fs) with
        | Some (Dir fs') => Outcome (Ok tt) fs' []
        | _ =>
            Outcome (Raise (if Fs.through_file (Path.components p) (Dir fs)
                            then NotADirectoryError p
                            else FileNotFoundError p)) fs []
        end
    end.

Definition same_file (fs : tree) (a b : string) : bool :=
  match Fs.resolve fs a with
  | Some _ =>
      if list_eq_dec string_dec (Path.components a) (Path.components b)
      then true else false
  | None => false
  end.

(** [shutil.copy(src, dst)] *)
Definition copy (src dst : string) : M unit :=
  emit (Copy src dst) ;;
  fun fs =>
    let dst' := match Fs.resolve fs dst with
                | Some (Dir _) => Path.join dst (Path.basename src)
                | _ => dst
                end in
    if same_file fs src dst' then Outcome (Raise (SameFileError src)) fs []
    else
      match Fs.resolve fs src with
      | Some (File c) => store dst' c fs
      | Some (Dir _) => Outcome (Raise (IsADirectoryError src)) fs []
      | None => Outcome (Raise (FileNotFoundError src)) fs []
      end.

(** [with open(p, 'w') as out: out.write(text)] *)
Definition open_write (p text : string) : M unit :=
  emit (Write p text) ;; store p (Raw text).

(** [json.load] and [yaml.safe_load] on the content of the file at [p]. *)
Definition json_load (p : string) (c : content) : result value :=
  match c with
  | Doc v => Ok v
  | Raw _ => Raise (DecodeError p)
  end.

Definition yaml_safe_load (p : string) (c : content) : result value :=
  match c with
  | Doc v => Ok v
  | Raw _ => Raise (DecodeError p)
  end.

(** ** The script *)

(** The argument of [render_all]: [None], a path, or a list of paths. *)
Inductive trigger : Type :=
| TNone
| TStr (path : string)
| TList (paths : list string).

(** [bool(trigger_file)] *)
Definition truthy (t : trigger) : bool :=
  match t with
  | TNone => false
  | TStr s => negb (Str.is_empty s)
  | TList l => match l with [] => false | _ => true end
  end.

(** [trigger_file[0]] for a list, the path itself otherwise. *)
Definition first_path (t : trigger) : string :=
  match t with
  | TNone => EmptyString
  | TStr s => s
  | TList l => hd EmptyString l
  end.

(** [str(trigger_file)] as an f-string shows it, for paths without quotes
    and escapes. *)
Definition trigger_str (t : trigger) : string :=
  match t with
  | TNone => "None"
  | TStr s => s
  | TList l => "[" ++ Str.join ", " (map (fun s => "'" ++ s ++ "'") l) ++ "]"
  end.

Definition json_pattern : string := "data/*.[jJ][sS][oO][nN]".
Definition yaml_pattern : string := "data/*.[yY][aA][mM][lL]".
Definition html_pattern : string := "templates/**/*.html".
Definition template_pattern : string := "templates/**/*.*".

(** The body of one iteration of a loop of [load_data]: [data] is the dict
    being filled, and comes back changed by whatever the update managed to
    insert. *)
Definition load_file (load : string -> content -> result value)
    (path : string) (data : dict) : M dict :=
  r <- try_ (c <- open_read path ;; lift (load path c)) ;;
  let failed (e : exn) (data' : dict) : M dict :=
    print ("Error loading data from " ++ path ++ ": " ++ exn_str e) ;;
    print_exc e ;;
    ret data' in
  match r with
  | Raise e => failed e data
  | Ok v =>
      match Py.dict_update data v with
      | (data', Some e) => failed e data'
      | (data', None) =>
          print ("Loaded data from " ++ path) ;;
          ret data'
      end
  end.

Definition load_data : M dict :=
  json_files <- glob json_pattern false ;;
  data <- for_fold json_files [] (load_file json_load) ;;
  yaml_files <- glob yaml_pattern false ;;
  for_fold yaml_files data (load_file yaml_safe_load).

(** The destination of a page of the template tree. *)
Definition destination (html_file : string) : string :=
  Path.join "site" (Path.relpath html_file "templates").

Definition copy_one (html_file : string) : M unit :=
  let destination := destination html_file in
  r <- try_ (
    let outdir := Path.dirname destination in
    ex <- path_exists outdir ;;
    when (negb ex) (makedirs outdir) ;;
    ex' <- path_exists destination ;;
    when ex' (remove destination) ;;
    copy html_file destination ;;
    print ("Copied " ++ html_file ++ " to " ++ destination)) ;;
  match r with
  | Ok _ => ret tt
  | Raise e =>
      print ("Error copying " ++ html_file ++ " to " ++ destination ++ ": "
             ++ exn_str e) ;;
      print_exc e
  end.

Definition copy_html_files : M unit :=
  ex <- path_exists "site" ;;
  when (negb ex) (makedirs "site") ;;
  html_files <- glob html_pattern true ;;
  for_each html_files copy_one.

(** The name of the output file of a template. *)
Definition outname (template_path : string) : string :=
  Path.join "site"
    (Str.replace
       (Str.replace
          (Str.replace
             (Str.replace (Path.relpath template_path "templates")
                ".html.j2" ".html")
             ".j2" ".html")
          ".html.jinja" ".html")
       ".jinja" ".html").

(** The filter of the list comprehension of [render_all_templates]. *)
Definition is_template (f : string) : bool :=
  Str.endswith_any f [".j2"; ".jinja"] && negb (Str.contains "partials" f).

Definition template_files (fs : tree) : list string :=
  filter is_template (Glob.glob fs template_pattern true).

Section Script.

(** [env.get_template(name).render(data)], for the environment over the
    [templates] directory of the working directory. *)
Variable jinja : tree -> string -> dict -> result string.

Definition get_and_render (name : string) (data : dict) : M string :=
  emit (Render name data) ;;
  fun fs => Outcome (jinja fs name data) fs [].

Definition render_one (data : dict) (template_path : string) : M unit :=
  r <- try_ (
    output <- get_and_render (Path.relpath template_path "templates") data ;;
    let outname := outname template_path in
    let outdir := Path.dirname outname in
    ex <- path_exists outdir ;;
    when (negb ex) (makedirs outdir) ;;
    open_write outname output ;;
    print ("Rendered " ++ template_path ++ " to " ++ outname)) ;;
  match r with
  | Ok _ => ret tt
  | Raise e =>
      (if is_template_error e
       then print ("Error rendering " ++ template_path ++ ": " ++ exn_str e)
       else print ("Unexpected error rendering " ++ template_path ++ ": "
                   ++ exn_str e)) ;;
      print_exc e
  end.

(** [render_all_templates] from the creation of [site] on. *)
Definition render_templates (data : dict) : M unit :=
  ex <- path_exists "site" ;;
  when (negb ex) (makedirs "site") ;;
  all <- glob template_pattern true ;;
  for_each (filter is_template all) (render_one data).

Definition render_all_templates (data : dict) (trigger_file : trigger)
  : M unit :=
  if truthy trigger_file then
    let trigger_file := first_path trigger_file in
    print (">>> Rebuild triggered by change in: " ++ trigger_file) ;;
    if Str.endswith trigger_file ".html" then copy_html_files
    else render_templates data
  else render_templates data.

Definition render_all (trigger_file : trigger) : M unit :=
  print ("Calling render_all with trigger_file: " ++ trigger_str trigger_file) ;;
  data <- load_data ;;
  render_all_templates data trigger_file.

End Script.

(** The observers of [__main__]: the watched path and its [recursive] flag. *)
Definition observer_schedule : list (string * bool) :=
  [("templates/", true); ("data/", true)].

(** [ChangeHandler]: all three handlers rebuild for a file below a watched
    directory. *)
Definition relevant (src_path : string) (is_directory : bool) : bool :=
  negb is_directory &&
  (Str.startswith src_path "templates/" || Str.startswith src_path "data/").

(** ** Closed forms used to state the properties of [load_data] *)

(** What opening and parsing the file at [path] gives. *)
Definition read_value (load : string -> content -> result value)
    (fs : tree) (path : string) : result value :=
  match Fs.resolve fs path with
  | Some (File c) => load path c
  | Some (Dir _) => Raise (IsADirectoryError path)
  | None => Raise (FileNotFoundError path)
  end.

(** The pairs an update inserts before it completes or fails. *)
Fixpoint inserted (items : list (result (value * value)))
  : list (value * value) :=
  match items with
  | Ok (k, v) :: rest => if Py.hashable k then (k, v) :: inserted rest else []
  | _ => []
  end.

(** The exception of an update, if it fails. *)
Fixpoint seq_error (items : list (result (value * value))) : option exn :=
  match items with
  | [] => None
  | Raise e :: _ => Some e
  | Ok (k, _) :: rest =>
      if Py.hashable k then seq_error rest
      else Some (TypeError "unhashable type")
  end.

(** The pairs the file at [path] contributes to the context. *)
Definition file_pairs (fs : tree) (path : string) : list (value * value) :=
  match read_value json_load fs path with
  | Ok v => inserted (Py.update_seq v)
  | Raise _ => []
  end.

(** The exception that loading the file at [path] runs into, if any. *)
Definition file_error (fs : tree) (path : string) : option exn :=
  match read_value json_load fs path with
  | Ok v => seq_error (Py.update_seq v)
  | Raise e => Some e
  end.

(** The steps of loading the file at [path]. *)
Definition file_trace (fs : tree) (path : string) : list event :=
  OpenRead path ::
  match file_error fs path with
  | Some e =>
      [Print ("Error loading data from " ++ path ++ ": " ++ exn_str e);
       Traceback e]
  | None => [Print ("Loaded data from " ++ path)]
  end.

Definition json_files (fs : tree) : list string :=
  Glob.glob fs json_pattern false.

Definition yaml_files (fs : tree) : list string :=
  Glob.glob fs yaml_pattern false.

(** The order in which [load_data] processes the data files. *)
Definition processing_order (fs : tree) : list string :=
  (json_files fs ++ yaml_files fs)%list.

(** All insertions of a load, in order. *)
Definition assignments (fs : tree) : list (value * value) :=
  flat_map (file_pairs fs) (processing_order fs).

(** Insertion of pairs into a dict, in order. *)
Definition merge (d : dict) (pairs : list (value * value)) : dict :=
  fold_left (fun d kv => Py.dict_set d (fst kv) (snd kv)) pairs d.

(** The value of the last pair of [pairs] whose key equals [k]. *)
Fixpoint last_assigned (k : value) (pairs : list (value * value))
  : option value :=
  match pairs with
  | [] => None
  | (k', v) :: rest =>
      match last_assigned k rest with
      | Some v' => Some v'
      | None => if Py.key_eqb k k' then Some v else None
      end
  end.

(** A dict as a parser builds it: hashable, pairwise different keys. *)
Fixpoint wf_dict (d : dict) : Prop :=
  match d with
  | [] => True
  | (k, _) :: d' =>
      Py.hashable k = true /\ Py.dict_get k d' = None /\ wf_dict d'
  end.

(** The names of the entries of the data directory. *)
Definition data_entries (fs : tree) : tree :=
  match Fs.resolve fs "data" with
  | Some (Dir es) => es
  | _ => []
  end.

(** A name as a directory entry can have it: not empty and without slash. *)
Definition entry_name (name : string) : Prop :=
  name <> EmptyString /\ Str.contains "/" name = false.

(** A data file name, as the two patterns of [load_data] select them. *)
Definition is_json_name (name : string) : bool :=
  negb (Glob.ishidden name) && Fnmatch.fnmatch name "*.[jJ][sS][oO][nN]".

Definition is_yaml_name (name : string) : bool :=
  negb (Glob.ishidden name) && Fnmatch.fnmatch name "*.[yY][aA][mM][lL]".

(** ** Notions used in the statements, and example directories *)

(** After the spec's words, for comparison with [processing_order]:
    one pass over the data files in the enumeration order of the data
    directory, whatever their format. *)
Definition enumeration_order (fs : tree) : list string :=
  map (Path.join "data")
      (filter (fun n => is_json_name n || is_yaml_name n)
              (map fst (data_entries fs))).

(** The context that one pass in enumeration order would build. *)
Definition merge_in_enumeration_order (fs : tree) : dict :=
  merge [] (flat_map (file_pairs fs) (enumeration_order fs)).

(** A YAML file enumerated before a JSON file with the same key. *)
Definition fs_yaml_first : tree :=
  [("data", Dir [("b.yaml", File (Doc (VDict [(VStr "k", VInt 2)])));
                 ("a.json", File (Doc (VDict [(VStr "k", VInt 1)])))])].

(** After the spec's words, for comparison with [assignments]: the
    mapping merged from the files that load without an exception. *)
Definition merged_from_successful (fs : tree) : dict :=
  merge []
    (flat_map (fun p => match file_error fs p with
                        | None => file_pairs fs p
                        | Some _ => []
                        end)
              (processing_order fs)).

(** A JSON file whose top level is the list [[["k", 1], 5]]. *)
Definition fs_partial_update : tree :=
  [("data", Dir [("a.json",
                  File (Doc (VList [VList [VStr "k"; VInt 1]; VInt 5])))])].

(** A data directory with a malformed file between two good ones. *)
Definition fs_one_bad_file : tree :=
  [("data", Dir [("a.json", File (Doc (VDict [(VStr "a", VInt 1)])));
                 ("bad.json", File (Raw "{"));
                 ("c.yaml", File (Doc (VDict [(VStr "c", VInt 3)])))])].

(** The paths a trace opens for reading, in order. *)
Fixpoint opened (tr : list event) : list string :=
  match tr with
  | [] => []
  | OpenRead p :: tr' => p :: opened tr'
  | _ :: tr' => opened tr'
  end.


(** A directory listing without what is below its subdirectories. *)
Definition shallow (es : tree) : tree :=
  map (fun e => (fst e, match snd e with
                        | File c => File c
                        | Dir _ => Dir []
                        end)) es.

(** A data file at top level and one in a subdirectory. *)
Definition fs_nested_data : tree :=
  [("data", Dir [("top.json", File (Doc (VDict [(VStr "a", VInt 1)])));
                 ("sub", Dir [("c.json",
                               File (Doc (VDict [(VStr "c", VInt 1)])))])])].

Definition fs_flat_data : tree :=
  [("data", Dir [("top.json", File (Doc (VDict [(VStr "a", VInt 1)])));
                 ("sub", Dir [])])].

Definition is_data_name (name : string) : bool :=
  is_json_name name || is_yaml_name name.

(** Every data file of the listing holds a mapping. *)
Definition mapping_files (es : tree) : Prop :=
  forall name x,
    In (name, x) es -> is_data_name name = true ->
    exists kvs, x = File (Doc (VDict kvs)) /\ wf_dict kvs.

(** No key is defined by two data files of the listing. *)
Definition disjoint_keys (es : tree) : Prop :=
  forall n1 n2 kvs1 kvs2 k,
    In (n1, File (Doc (VDict kvs1))) es ->
    In (n2, File (Doc (VDict kvs2))) es ->
    is_data_name n1 = true -> is_data_name n2 = true -> n1 <> n2 ->
    Py.dict_get k kvs1 = None \/ Py.dict_get k kvs2 = None.

(** The union of the mappings of the data files maps [k] to [v]. *)
Definition union_maps (es : tree) (k v : value) : Prop :=
  exists name kvs,
    In (name, File (Doc (VDict kvs))) es /\ is_data_name name = true /\
    Py.dict_get k kvs = Some v.

(** Three data files with different keys, in two enumeration orders. *)
Definition fs_disjoint : tree :=
  [("data", Dir [("a.json", File (Doc (VDict [(VStr "a", VInt 1)])));
                 ("b.yaml", File (Doc (VDict [(VStr "b", VInt 2)])));
                 ("c.json", File (Doc (VDict [(VStr "c", VInt 3)])))])].

Definition fs_disjoint_reordered : tree :=
  [("data", Dir [("c.json", File (Doc (VDict [(VStr "c", VInt 3)])));
                 ("b.yaml", File (Doc (VDict [(VStr "b", VInt 2)])));
                 ("a.json", File (Doc (VDict [(VStr "a", VInt 1)])))])].

(** The templates a trace renders, with the context given to each. *)
Fixpoint rendered (tr : list event) : list (string * dict) :=
  match tr with
  | [] => []
  | Render name data :: tr' => (name, data) :: rendered tr'
  | _ :: tr' => rendered tr'
  end.

(** The copies a trace makes. *)
Fixpoint copied (tr : list event) : list (string * string) :=
  match tr with
  | [] => []
  | Copy src dst :: tr' => (src, dst) :: copied tr'
  | _ :: tr' => copied tr'
  end.

(** The files a trace writes. *)
Fixpoint written (tr : list event) : list string :=
  match tr with
  | [] => []
  | Write path _ :: tr' => path :: written tr'
  | _ :: tr' => written tr'
  end.

(** The steps of [load_data]. *)
Definition load_step (e : event) : Prop :=
  match e with
  | Print _ | Traceback _ | Scan _ _ | OpenRead _ => True
  | _ => False
  end.

(** The steps of [copy_html_files]. *)
Definition copy_step (e : event) : Prop :=
  match e with
  | Print _ | Traceback _ | Scan _ _ | Makedirs _ | Remove _ | Copy _ _ => True
  | _ => False
  end.

(** The steps of rendering a template after the call of the environment. *)
Definition output_step (e : event) : Prop :=
  match e with
  | Print _ | Traceback _ | Scan _ _ | Makedirs _ | Write _ _ => True
  | _ => False
  end.

(** Every step of [m] satisfies [P]. *)
Definition emits {A} (P : event -> Prop) (m : M A) : Prop :=
  forall fs, Forall P (trace (m fs)).

(** The line that [render_all_templates] prints for a trigger. *)
Definition trigger_line (t : trigger) : list event :=
  if truthy t
  then [Print (">>> Rebuild triggered by change in: " ++ first_path t)]
  else [].

(** The working directory once [site] exists, and the step that makes it. *)
Definition site_ready (fs : tree) : tree :=
  match Fs.resolve fs "site" with
  | Some _ => fs
  | None => Fs.set_entry "site" (Dir []) fs
  end.

Definition site_trace (fs : tree) : list event :=
  match Fs.resolve fs "site" with
  | Some _ => []
  | None => [Makedirs "site"]
  end.

(** An environment for templates without Jinja syntax: rendering gives the
    text of the template back. *)
Definition plain_engine (fs : tree) (name : string) (data : dict)
  : result string :=
  match Fs.resolve fs (Path.join "templates" name) with
  | Some (File (Raw text)) => Ok text
  | _ => Raise (TemplateError ("template not found: " ++ name))
  end.

(** A page and a template, and no [site] yet. *)
Definition fs_page_and_template : tree :=
  [("templates", Dir [("about.html", File (Raw "about"));
                      ("index.html.j2", File (Raw "hello"))])].

(** A data file and a page. *)
Definition fs_data_and_page : tree :=
  [("data", Dir [("a.json", File (Doc (VDict [(VStr "k", VInt 1)])))]);
   ("templates", Dir [("foo.html", File (Raw "foo"));
                      ("index.j2", File (Raw "hello"))])].

(** A name that [glob] does not skip. *)
Definition visible (name : string) : Prop := Glob.ishidden name = false.

(** [reaches n segs x]: descending from [n] along the names [segs] ends at
    the entry [x]. *)
Inductive reaches : node -> list string -> node -> Prop :=
| reaches_here n : reaches n [] n
| reaches_step es name child segs x :
    In (name, child) es -> reaches child segs x ->
    reaches (Dir es) (name :: segs) x.

Definition below_templates (fs : tree) (segs : list string) (x : node) : Prop :=
  exists t, Fs.resolve fs "templates" = Some t /\ reaches t segs x.

(** The path [glob] builds for an entry below [templates]. *)
Definition template_path (segs : list string) : string :=
  fold_left Path.join segs "templates/".

(** After the spec's words, for comparison with [template_files]:
    every file under the template root, *)
Fixpoint files_below (prefix : string) (n : node) : list string :=
  match n with
  | File _ => []
  | Dir es =>
      flat_map (fun e : string * node =>
                  let (name, child) := e in
                  match child with
                  | File _ => [Path.join prefix name]
                  | Dir _ => files_below (Path.join prefix name) child
                  end) es
  end.

(** with a recognized suffix and without a segment named [partials]. *)
Definition spec_is_template (p : string) : bool :=
  Str.endswith_any p [".j2"; ".jinja"] &&
  negb (existsb (String.eqb "partials") (Str.split "/" p)).

Definition spec_template_files (fs : tree) : list string :=
  match Fs.resolve fs "templates" with
  | Some n => filter spec_is_template (files_below "templates/" n)
  | None => []
  end.

(** A hidden template next to an ordinary one and a partial. *)
Definition fs_hidden_template : tree :=
  [("templates", Dir [(".draft.j2", File (Raw "draft"));
                      ("index.j2", File (Raw "hello"));
                      ("partials", Dir [("_nav.j2", File (Raw "nav"))])])].

Fixpoint node_nested_ind (P : node -> Prop)
    (HF : forall c, P (File c))
    (HD : forall es, Forall (fun e => P (snd e)) es -> P (Dir es))
    (n : node) : P n :=
  match n with
  | File c => HF c
  | Dir es =>
      HD es ((fix all (es : tree) : Forall (fun e => P (snd e)) es :=
                match es with
                | [] => Forall_nil _
                | e :: es' =>
                    Forall_cons e
                      (let (name, child) as e0 return P (snd e0) := e in
                       node_nested_ind P HF HD child)
                      (all es')
                end) es)
  end.

(** A template in a directory whose name holds the text [.j2], and the
    template of the spec's example. *)
Definition fs_dotted_directory : tree :=
  [("templates", Dir [("my.j2files", Dir [("a.j2", File (Raw "A"))]);
                      ("x", Dir [("a.html.j2", File (Raw "B"))])])].

(** ** The change handler *)

Section Watch.

Variable jinja : tree -> string -> dict -> result string.

(** The three methods of [ChangeHandler]; [src_path] and [is_directory] are
    the fields of the event. *)
Definition on_modified (src_path : string) (is_directory : bool) : M unit :=
  print ("Modified: " ++ src_path) ;;
  when (relevant src_path is_directory) (render_all jinja (TStr src_path)).

Definition on_created (src_path : string) (is_directory : bool) : M unit :=
  print ("Created: " ++ src_path) ;;
  when (relevant src_path is_directory) (render_all jinja (TStr src_path)).

Definition on_deleted (src_path : string) (is_directory : bool) : M unit :=
  print ("Deleted: " ++ src_path) ;;
  when (relevant src_path is_directory) (render_all jinja (TStr src_path)).

End Watch.

(** A handler that prints [label] and the path, and rebuilds for the files
    below [templates/] and [data/] only. *)
Definition dispatches (jinja : tree -> string -> dict -> result string)
    (label : string) (handler : string -> bool -> M unit) : Prop :=
  forall src_path is_directory fs,
    (relevant src_path is_directory = false ->
     handler src_path is_directory fs
       = Outcome (Ok tt) fs [Print (label ++ src_path)]) /\
    (relevant src_path is_directory = true ->
     handler src_path is_directory fs
       = Outcome (Ok tt) (fs_after (render_all jinja (TStr src_path) fs))
                 (Print (label ++ src_path)
                  :: trace (render_all jinja (TStr src_path) fs))).

(** The line that reports a template whose rendering raised [e]. *)
Definition render_error_line (template_path : string) (e : exn) : string :=
  (if is_template_error e then "Error rendering "
   else "Unexpected error rendering ") ++ template_path ++ ": " ++ exn_str e.

(** An environment that finds no template. *)
Definition failing_engine (fs : tree) (name : string) (data : dict)
  : result string :=
  Raise (TemplateError ("template not found: " ++ name)).

(** ** Letter case *)

(** [c.lower()] for an ASCII character. *)
Definition lower_char (c : ascii) : ascii :=
  let n := nat_of_ascii c in
  if (65 <=? n)%nat && (n <=? 90)%nat then ascii_of_nat (n + 32) else c.

(** [s.lower()] *)
Fixpoint lower (s : string) : string :=
  match s with
  | EmptyString => EmptyString
  | String c s' => String (lower_char c) (lower s')
  end.

(** A data directory with names in several spellings. *)
Definition fs_data_names : tree :=
  [("data", Dir [("site.JSON", File (Doc (VDict [(VStr "title", VInt 1)])));
                 ("menu.yml", File (Doc (VDict [(VStr "menu", VInt 2)])));
                 (".secret.json", File (Doc (VDict [(VStr "key", VInt 3)])));
                 ("people.Yaml", File (Doc (VDict [(VStr "people", VInt 4)])));
                 ("notes.json.bak", File (Doc (VDict [(VStr "n", VInt 5)])))])].

(** ** Well-formed directories *)

(** The names of a directory are pairwise different, at every level. *)
Fixpoint unique_names (n : node) : Prop :=
  match n with
  | File _ => True
  | Dir es =>
      NoDup (map fst es) /\
      (fix all (es : tree) : Prop :=
         match es with
         | [] => True
         | e :: es' => (let (_, child) := e in unique_names child) /\ all es'
         end) es
  end.

(** A site that already holds an older copy of a page. *)
Definition fs_stale_copy : tree :=
  [("templates", Dir [("about.html", File (Raw "new text"))]);
   ("site", Dir [("about.html", File (Raw "old text"))])].

(** ** Notions used in the further properties *)

Definition nonempty (c : string) : bool := negb (Str.is_empty c).

(** A path whose first component is [site]. *)
Definition site_rooted (p : string) : Prop :=
  exists cs, Path.components p = "site" :: cs.

(** The parts of a relative path are names. *)
Definition part (c : string) : Prop :=
  c <> EmptyString /\ Str.contains "/" c = false.

(** The path that a step passes to [os.makedirs], [os.remove],
    [shutil.copy] (as destination) or [open(..., 'w')], if it is one of
    these. *)
Definition touched (e : event) : option string :=
  match e with
  | Makedirs p | Remove p | Write p _ => Some p
  | Copy _ dst => Some dst
  | _ => None
  end.

(** A step whose path, if it has one, starts with [site]. *)
Definition site_step (e : event) : Prop :=
  match touched e with
  | Some p => site_rooted p
  | None => True
  end.

(** [fs'] differs from [fs] in the entry [site] at most, and still has it
    if [fs] had it. *)
Definition outside_site (fs fs' : tree) : Prop :=
  (forall name, name <> "site" -> Fs.lookup name fs' = Fs.lookup name fs) /\
  (Fs.lookup "site" fs <> None -> Fs.lookup "site" fs' <> None).

(** Every run of [m] relates the working directory before and after. *)
Definition keeps {A} (R : tree -> tree -> Prop) (m : M A) : Prop :=
  forall fs, R fs (fs_after (m fs)).

(** A step that copies nothing but [f], and to its destination. *)
Definition copies_of (f : string) (e : event) : Prop :=
  match e with
  | Copy src dst => src = f /\ dst = destination f
  | _ => True
  end.

(** A document that is [null], a boolean, a number or a non-empty string. *)
Definition scalar (v : value) : Prop :=
  match v with
  | VNone | VBool _ | VInt _ => True
  | VStr s => s <> EmptyString
  | VList _ | VDict _ => False
  end.

(** A data directory with an empty YAML file, which loads as [None]. *)
Definition fs_empty_yaml : tree :=
  [("data", Dir [("a.json", File (Doc (VDict [(VStr "a", VInt 1)])));
                 ("empty.yaml", File (Doc VNone))])].

(** A directory whose name ends in [.html], and an older page of that name
    in the site. *)
Definition fs_directory_page : tree :=
  [("templates", Dir [("docs.html", Dir [("index.j2", File (Raw "docs"))])]);
   ("site", Dir [("docs.html", File (Raw "old text"))])].

(** The output at [p] can be written in [fs]: no file stands where a
    directory of [p] is needed, and [p] itself is not a directory. *)
Definition writable (fs : tree) (p : string) : Prop :=
  Fs.through_file (Path.components p) (Dir fs) = false /\
  forall es, Fs.resolve fs p <> Some (Dir es).

(** The working directory after [site] is there and the render loop has
    done its iterations for the templates [l]. *)
Definition state_after (jinja : tree -> string -> dict -> result string)
    (d : dict) (l : list string) (fs : tree) : tree :=
  fs_after (for_each l (render_one jinja d) (site_ready fs)).

(** Four templates outside [partials]: a hidden one, two whose path holds
    the text [partials], and an ordinary one. *)
Definition fs_mixed_templates : tree :=
  [("templates", Dir [(".draft.j2", File (Raw "draft"));
                      ("nonpartials", Dir [("n.j2", File (Raw "n"))]);
                      ("mypartials.j2", File (Raw "mine"));
                      ("index.j2", File (Raw "hello"))])].

(** A template in a directory, and no [site] yet. *)
Definition fs_nested_template : tree :=
  [("templates", Dir [("blog", Dir [("post.j2", File (Raw "post"))])])].

(** ** Basic facts *)

(** *** The operations on concrete inputs *)

Example replace_all_occurrences :
  Str.replace "a.j2.j2" ".j2" ".html" = "a.html.html".
Proof. reflexivity. Qed.

Example replace_no_overlap : Str.replace "aaa" "aa" "b" = "ba".
Proof. reflexivity. Qed.

Example split_keeps_empty_parts :
  Str.split "/" "templates/x//a.j2/" = ["templates"; "x"; ""; "a.j2"; ""].
Proof. reflexivity. Qed.

Example dirname_nested : Path.dirname "site/x/a.html" = "site/x".
Proof. reflexivity. Qed.

Example dirname_plain : Path.dirname "a.html" = "".
Proof. reflexivity. Qed.

Example relpath_below : Path.relpath "templates/x/a.j2" "templates" = "x/a.j2".
Proof. reflexivity. Qed.

Example relpath_beside : Path.relpath "data/x" "templates" = "../data/x".
Proof. reflexivity. Qed.

Example join_after_slash : Path.join "templates/" "a.j2" = "templates/a.j2".
Proof. reflexivity. Qed.

Example fnmatch_any_case :
  Fnmatch.fnmatch "a.JsOn" "*.[jJ][sS][oO][nN]" = true.
Proof. reflexivity. Qed.

Example fnmatch_whole_name :
  Fnmatch.fnmatch "a.jsonx" "*.[jJ][sS][oO][nN]" = false.
Proof. reflexivity. Qed.

Example glob1_skips_hidden :
  Glob.glob1 [".a.json"; "b.json"; "c.txt"] "*.json" = ["b.json"].
Proof. reflexivity. Qed.

Example update_with_mapping :
  Py.dict_update [(VStr "a", VInt 1)]
                 (VDict [(VStr "a", VInt 2); (VStr "b", VInt 3)])
  = ([(VStr "a", VInt 2); (VStr "b", VInt 3)], None).
Proof. reflexivity. Qed.

Example update_with_pairs :
  Py.dict_update [] (VList [VList [VStr "k"; VInt 1]; VStr "ab"])
  = ([(VStr "k", VInt 1); (VStr "a", VStr "b")], None).
Proof. reflexivity. Qed.

Example update_with_none :
  Py.dict_update [(VStr "a", VInt 1)] VNone
  = ([(VStr "a", VInt 1)], Some (TypeError "object is not iterable")).
Proof. reflexivity. Qed.

Example true_is_one :
  Py.dict_set [(VInt 1, VStr "x")] (VBool true) (VStr "y")
  = [(VInt 1, VStr "y")].
Proof. reflexivity. Qed.

(** [os.makedirs] names the first directory it cannot make; a path that
    exists is [EEXIST]. *)
Example makedirs_stops_at_file :
  res (makedirs "site/a/b" [("site", File (Raw "x"))])
    = Raise (NotADirectoryError "site/a") /\
  res (makedirs "d/f/g/h" [("d", Dir [("f", File (Raw "x"))])])
    = Raise (NotADirectoryError "d/f/g") /\
  res (makedirs "site" [("site", File (Raw "x"))])
    = Raise (FileExistsError "site") /\
  fs_after (makedirs "x/y" []) = [("x", Dir [("y", Dir [])])].
Proof. repeat split; reflexivity. Qed.

(** [open(p, 'w')] below a file is [ENOTDIR], below a missing directory
    [ENOENT]. *)
Example open_write_below_file :
  res (open_write "site/x.html" "t" [("site", File (Raw "x"))])
    = Raise (NotADirectoryError "site/x.html") /\
  res (open_write "nodir/x.html" "t" [])
    = Raise (FileNotFoundError "nodir/x.html").
Proof. split; reflexivity. Qed.

Lemma bind_det {A B} (m : M A) (k : A -> M B) fs a fs' tr :
  m fs = Outcome (Ok a) fs' tr ->
  bind m k fs =
  Outcome (res (k a fs')) (fs_after (k a fs')) (tr ++ trace (k a fs'))%list.
Proof. intros H. unfold bind. rewrite H. reflexivity. Qed.

Lemma bind_raise_det {A B} (m : M A) (k : A -> M B) fs e fs' tr :
  m fs = Outcome (Raise e) fs' tr ->
  bind m k fs = Outcome (Raise e) fs' tr.
Proof. intros H. unfold bind. rewrite H. reflexivity. Qed.

Lemma outcome_eta {A} (o : outcome A) :
  o = Outcome (res o) (fs_after o) (trace o).
Proof. destruct o; reflexivity. Qed.

Module PyFacts.
Import Py.

Lemma hkey_eqb_eq a b : hkey_eqb a b = true <-> a = b.
Proof.
  destruct a, b; simpl; split; intros H; try discriminate; try reflexivity.
  - apply Z.eqb_eq in H. now subst.
  - inversion H. apply Z.eqb_refl.
  - apply String.eqb_eq in H. now subst.
  - inversion H. apply String.eqb_refl.
Qed.

Lemma key_eqb_norm a b :
  key_eqb a b = true <->
  exists h, key_norm a = Some h /\ key_norm b = Some h.
Proof.
  unfold key_eqb. split.
  - destruct (key_norm a) as [x|], (key_norm b) as [y|]; try discriminate.
    intros H. apply hkey_eqb_eq in H. subst. now exists y.
  - intros [h [-> ->]]. now apply hkey_eqb_eq.
Qed.

Lemma key_eqb_sym a b : key_eqb a b = key_eqb b a.
Proof.
  destruct (key_eqb b a) eqn:E.
  - apply key_eqb_norm in E. destruct E as [h [E1 E2]].
    apply key_eqb_norm. now exists h.
  - destruct (key_eqb a b) eqn:E'; [|reflexivity].
    apply key_eqb_norm in E'. destruct E' as [h [E1 E2]].
    assert (key_eqb b a = true) by (apply key_eqb_norm; now exists h).
    congruence.
Qed.

Lemma key_eqb_trans {a b c} :
  key_eqb a b = true -> key_eqb b c = true -> key_eqb a c = true.
Proof.
  intros H1 H2. apply key_eqb_norm in H1, H2.
  destruct H1 as [h [E1 E2]], H2 as [h' [E3 E4]].
  apply key_eqb_norm. exists h. split; congruence.
Qed.

Lemma key_eqb_refl k : hashable k = true -> key_eqb k k = true.
Proof.
  unfold hashable. destruct (key_norm k) eqn:E; [|discriminate].
  intros _. apply key_eqb_norm. now exists h.
Qed.

Lemma key_eqb_hashable a b : key_eqb a b = true -> hashable b = true.
Proof.
  intros H. apply key_eqb_norm in H. destruct H as [h [_ E]].
  unfold hashable. now rewrite E.
Qed.

(** Keys equal to [k] look up the same. *)
Lemma key_eqb_congr a b c :
  key_eqb a b = true -> key_eqb a c = key_eqb b c.
Proof.
  intros H. destruct (key_eqb b c) eqn:E.
  - eapply key_eqb_trans; eauto.
  - destruct (key_eqb a c) eqn:E'; [|reflexivity].
    rewrite key_eqb_sym in H.
    rewrite (key_eqb_trans H E') in E. discriminate.
Qed.

Lemma dict_get_set d k k' v :
  dict_get k (dict_set d k' v) =
  if key_eqb k k' then Some v else dict_get k d.
Proof.
  induction d as [|[k'' v''] d IH]; simpl.
  - reflexivity.
  - destruct (key_eqb k' k'') eqn:E; simpl.
    + assert (Hk : key_eqb k k' = key_eqb k k'').
      { rewrite (key_eqb_sym k k'), (key_eqb_sym k k'').
        apply key_eqb_congr. exact E. }
      rewrite Hk. destruct (key_eqb k k''); reflexivity.
    + rewrite IH. destruct (key_eqb k k'') eqn:E2; [|reflexivity].
      destruct (key_eqb k k') eqn:E3; [|reflexivity].
      rewrite key_eqb_sym in E3.
      rewrite (key_eqb_trans E3 E2) in E. discriminate.
Qed.

End PyFacts.

(** ** The closed form of [load_data] *)

Lemma merge_app d l1 l2 : merge d (l1 ++ l2) = merge (merge d l1) l2.
Proof. unfold merge. apply fold_left_app. Qed.

Lemma last_assigned_app k l1 l2 :
  last_assigned k (l1 ++ l2) =
  match last_assigned k l2 with
  | Some v => Some v
  | None => last_assigned k l1
  end.
Proof.
  induction l1 as [|[k' v'] l1 IH]; simpl.
  - destruct (last_assigned k l2); reflexivity.
  - rewrite IH. destruct (last_assigned k l2); reflexivity.
Qed.

Lemma get_merge k pairs : forall d,
  Py.dict_get k (merge d pairs) =
  match last_assigned k pairs with
  | Some v => Some v
  | None => Py.dict_get k d
  end.
Proof.
  induction pairs as [|[k' v'] pairs IH]; intros d; simpl.
  - reflexivity.
  - change (Py.dict_get k (merge (Py.dict_set d k' v') pairs) =
            match match last_assigned k pairs with
                  | Some v => Some v
                  | None => if Py.key_eqb k k' then Some v' else None
                  end with
            | Some v => Some v
            | None => Py.dict_get k d
            end).
    rewrite IH, PyFacts.dict_get_set.
    destruct (last_assigned k pairs); [reflexivity|].
    destruct (Py.key_eqb k k'); reflexivity.
Qed.

Lemma insert_seq_spec items : forall d,
  Py.insert_seq d items = (merge d (inserted items), seq_error items).
Proof.
  induction items as [|[[k v]|e] items IH]; intros d; simpl.
  - reflexivity.
  - destruct (Py.hashable k); [apply IH | reflexivity].
  - reflexivity.
Qed.

(** Evaluation of the monad's combinators. *)
Ltac run :=
  repeat (cbv beta iota delta
            [bind try_ emit lift print print_exc ret when
             res fs_after trace];
          cbn [app]).

Lemma load_file_spec path data fs :
  load_file json_load path data fs =
  Outcome (Ok (merge data (file_pairs fs path))) fs (file_trace fs path).
Proof.
  unfold load_file, file_pairs, file_trace, file_error, read_value, open_read,
    Py.dict_update.
  run.
  destruct (Fs.resolve fs path) as [[c|es]|]; run; try reflexivity.
  destruct (json_load path c) as [v|e]; run; try reflexivity.
  rewrite insert_seq_spec.
  destruct (seq_error (Py.update_seq v)); reflexivity.
Qed.

Lemma yaml_as_json : yaml_safe_load = json_load.
Proof. reflexivity. Qed.

Lemma load_loop_spec fs files : forall data,
  for_fold files data (load_file json_load) fs =
  Outcome (Ok (merge data (flat_map (file_pairs fs) files))) fs
          (flat_map (file_trace fs) files).
Proof.
  induction files as [|f files IH]; intros data.
  - reflexivity.
  - cbn [for_fold flat_map]. unfold bind.
    rewrite load_file_spec. cbn [res fs_after trace].
    rewrite IH. cbn [res fs_after trace]. rewrite merge_app. reflexivity.
Qed.

Lemma glob_spec pathname recursive fs :
  glob pathname recursive fs =
  Outcome (Ok (Glob.glob fs pathname recursive)) fs [Scan pathname recursive].
Proof. reflexivity. Qed.

Lemma load_data_spec fs :
  load_data fs =
  Outcome (Ok (merge [] (assignments fs))) fs
          (Scan json_pattern false :: flat_map (file_trace fs) (json_files fs)
           ++ Scan yaml_pattern false
              :: flat_map (file_trace fs) (yaml_files fs))%list.
Proof.
  unfold load_data, assignments, processing_order.
  rewrite yaml_as_json.
  unfold bind. rewrite !glob_spec. cbn [res fs_after trace].
  rewrite load_loop_spec. cbn [res fs_after trace].
  rewrite glob_spec. cbn [res fs_after trace].
  rewrite load_loop_spec. cbn [res fs_after trace].
  rewrite flat_map_app, merge_app. unfold json_files, yaml_files.
  cbn [app]. reflexivity.
Qed.

(** ** Paths below the data directory *)

Lemma prefix_empty s : String.prefix "" s = true.
Proof. destruct s; reflexivity. Qed.

Lemma prefix_slash c s :
  String.prefix "/" (String c s) = Ascii.eqb c "/".
Proof.
  cbn [String.prefix]. rewrite prefix_empty.
  destruct (ascii_dec "/" c) as [<-|N].
  - reflexivity.
  - symmetry. apply Ascii.eqb_neq. congruence.
Qed.

Lemma split_no_slash {s} :
  Str.contains "/" s = false -> Str.split "/" s = [s].
Proof.
  induction s as [|c s IH]; intros H.
  - reflexivity.
  - cbn [Str.contains] in H. rewrite prefix_slash in H.
    apply orb_false_iff in H. destruct H as [Hc Hs].
    cbn [Str.split]. rewrite Hc, (IH Hs). reflexivity.
Qed.

Lemma no_slash_not_rooted {s} :
  Str.contains "/" s = false -> Str.startswith s "/" = false.
Proof.
  destruct s as [|c s]; [reflexivity|].
  cbn [Str.contains]. unfold Str.startswith.
  intros H. apply orb_false_iff in H. apply H.
Qed.

Lemma join_data name :
  Str.contains "/" name = false -> Path.join "data" name = "data/" ++ name.
Proof.
  intros H. unfold Path.join. rewrite (no_slash_not_rooted H). reflexivity.
Qed.

Lemma components_data {name} :
  entry_name name -> Path.components ("data/" ++ name) = ["data"; name].
Proof.
  intros [Hne Hs]. unfold Path.components.
  cbn [append Str.split Ascii.eqb Bool.eqb].
  rewrite (split_no_slash Hs). cbn [filter Str.is_empty negb].
  destruct name; [congruence | reflexivity].
Qed.

Lemma resolve_data fs {name} :
  entry_name name ->
  Fs.resolve fs ("data/" ++ name) = Fs.lookup name (data_entries fs).
Proof.
  intros H. unfold Fs.resolve, data_entries, Fs.resolve.
  rewrite (components_data H).
  change (Path.components "data") with ["data"].
  cbn [Fs.walk]. destruct (Fs.lookup "data" fs) as [[c|es]|]; try reflexivity.
  destruct (Fs.lookup name es); reflexivity.
Qed.

Lemma filter_filter {A} (f g : A -> bool) l :
  filter f (filter g l) = filter (fun x => g x && f x) l.
Proof.
  induction l as [|x l IH]; [reflexivity|]. cbn [filter].
  destruct (g x); cbn [filter andb]; rewrite IH; reflexivity.
Qed.

Lemma json_files_spec fs :
  json_files fs =
  map (Path.join "data") (filter is_json_name (map fst (data_entries fs))).
Proof.
  unfold json_files, Glob.glob, json_pattern.
  change (Str.split "/" "data/*.[jJ][sS][oO][nN]")
    with ["data"; "*.[jJ][sS][oO][nN]"].
  cbv iota. unfold Glob.glob1.
  change (Glob.ishidden "*.[jJ][sS][oO][nN]") with false. cbv iota.
  rewrite filter_filter. unfold Fs.listdir, data_entries.
  destruct (Fs.resolve fs "data") as [[c|es]|]; reflexivity.
Qed.

Lemma yaml_files_spec fs :
  yaml_files fs =
  map (Path.join "data") (filter is_yaml_name (map fst (data_entries fs))).
Proof.
  unfold yaml_files, Glob.glob, yaml_pattern.
  change (Str.split "/" "data/*.[yY][aA][mM][lL]")
    with ["data"; "*.[yY][aA][mM][lL]"].
  cbv iota. unfold Glob.glob1.
  change (Glob.ishidden "*.[yY][aA][mM][lL]") with false. cbv iota.
  rewrite filter_filter. unfold Fs.listdir, data_entries.
  destruct (Fs.resolve fs "data") as [[c|es]|]; reflexivity.
Qed.

(** A processed path names an entry of the data directory itself. *)
Lemma processing_order_entry fs p :
  In p (processing_order fs) ->
  exists name,
    In name (map fst (data_entries fs)) /\ p = Path.join "data" name /\
    (is_json_name name || is_yaml_name name) = true.
Proof.
  unfold processing_order. rewrite json_files_spec, yaml_files_spec.
  intros H. apply in_app_or in H.
  destruct H as [H|H]; apply in_map_iff in H; destruct H as [name [<- H]];
    apply filter_In in H; destruct H as [Hin Hm]; exists name;
    rewrite Hm; repeat split; auto using orb_true_r.
Qed.

Lemma in_processing_order fs name :
  In name (map fst (data_entries fs)) ->
  (is_json_name name || is_yaml_name name) = true ->
  In (Path.join "data" name) (processing_order fs).
Proof.
  intros Hin Hm. unfold processing_order.
  rewrite json_files_spec, yaml_files_spec. apply in_or_app.
  apply orb_true_iff in Hm.
  destruct Hm as [Hm|Hm]; [left|right]; apply in_map; apply filter_In; auto.
Qed.

Lemma read_value_data fs name :
  entry_name name ->
  read_value json_load fs ("data/" ++ name) =
  match Fs.lookup name (data_entries fs) with
  | Some (File c) => json_load ("data/" ++ name) c
  | Some (Dir _) => Raise (IsADirectoryError ("data/" ++ name))
  | None => Raise (FileNotFoundError ("data/" ++ name))
  end.
Proof. intros H. unfold read_value. rewrite (resolve_data fs H). reflexivity. Qed.

(** ** Last writer wins (C4) *)

Lemma last_assigned_none_flat_map {A} k (f : A -> list (value * value)) l :
  (forall x, In x l -> last_assigned k (f x) = None) ->
  last_assigned k (flat_map f l) = None.
Proof.
  induction l as [|x l IH]; intros H; [reflexivity|].
  cbn [flat_map]. rewrite last_assigned_app, IH.
  - apply H. now left.
  - intros y Hy. apply H. now right.
Qed.

Lemma load_data_res fs : res (load_data fs) = Ok (merge [] (assignments fs)).
Proof. rewrite load_data_spec. reflexivity. Qed.

(** C4, as the code has it: the enumeration order of the data directory
    orders the files of one format only.  The script processes the JSON
    files in enumeration order and then the YAML files in enumeration order,
    and of the files that assign a key the one processed last gives the
    merged value. *)
Theorem last_writer_wins fs :
  processing_order fs =
    (map (Path.join "data") (filter is_json_name (map fst (data_entries fs)))
     ++ map (Path.join "data")
            (filter is_yaml_name (map fst (data_entries fs))))%list /\
  forall before path after k v,
    processing_order fs = (before ++ path :: after)%list ->
    last_assigned k (file_pairs fs path) = Some v ->
    (forall later, In later after ->
                   last_assigned k (file_pairs fs later) = None) ->
    exists d, res (load_data fs) = Ok d /\ Py.dict_get k d = Some v.
Proof.
  split.
  - unfold processing_order. now rewrite json_files_spec, yaml_files_spec.
  - intros before path after k v Horder Hv Hlater.
    exists (merge [] (assignments fs)). split; [apply load_data_res|].
    rewrite get_merge. unfold assignments. rewrite Horder.
    rewrite flat_map_app. cbn [flat_map].
    rewrite !last_assigned_app.
    rewrite (last_assigned_none_flat_map _ _ _ Hlater), Hv. reflexivity.
Qed.

Lemma last_writer_wins_witness :
  exists d, res (load_data fs_yaml_first) = Ok d /\
            Py.dict_get (VStr "k") d = Some (VInt 2).
Proof.
  apply (proj2 (last_writer_wins fs_yaml_first)
               ["data/a.json"] "data/b.yaml" [] (VStr "k") (VInt 2)).
  - reflexivity.
  - reflexivity.
  - intros later [].
Defined.

(** C4 as stated fails: [b.yaml] is enumerated before [a.json], so one pass
    in enumeration order would leave the value of [a.json]; the script
    returns the value of [b.yaml]. *)
Lemma enumeration_order_counterexample :
  enumeration_order fs_yaml_first = ["data/b.yaml"; "data/a.json"] /\
  processing_order fs_yaml_first = ["data/a.json"; "data/b.yaml"] /\
  Py.dict_get (VStr "k") (merge_in_enumeration_order fs_yaml_first)
    = Some (VInt 1) /\
  res (load_data fs_yaml_first) = Ok [(VStr "k", VInt 2)].
Proof. repeat split; reflexivity. Qed.

(** ** Failing files (C6) *)

Lemma wf_dict_inserted kvs :
  wf_dict kvs -> inserted (map Ok kvs) = kvs /\ seq_error (map Ok kvs) = None.
Proof.
  induction kvs as [|[k v] kvs IH]; cbn [wf_dict map inserted seq_error].
  - now split.
  - intros [Hh [_ Hwf]]. rewrite Hh. destruct (IH Hwf) as [-> ->]. now split.
Qed.

Lemma in_file_trace_open fs l path :
  In path l -> In (OpenRead path) (flat_map (file_trace fs) l).
Proof.
  intros H. apply in_flat_map. exists path. split; [exact H|]. now left.
Qed.

Lemma in_file_trace_error fs l path e :
  In path l -> file_error fs path = Some e ->
  In (Print ("Error loading data from " ++ path ++ ": " ++ exn_str e))
     (flat_map (file_trace fs) l) /\
  In (Traceback e) (flat_map (file_trace fs) l).
Proof.
  intros H He. split; apply in_flat_map; exists path; (split; [exact H|]);
    unfold file_trace; rewrite He; cbn [In]; auto.
Qed.

Lemma data_absent_no_files fs :
  Fs.resolve fs "data" = None -> processing_order fs = [].
Proof.
  intros H. unfold processing_order.
  rewrite json_files_spec, yaml_files_spec. unfold data_entries.
  now rewrite H.
Qed.

(** C6, as the code has it: [load_data] never raises and leaves the file
    system alone; every data file is attempted; a failure is printed with
    the path and the cause, and the traceback follows; the result merges, in
    processing order, what each file inserted.  A file that cannot be opened
    or parsed inserts nothing, a well-formed mapping inserts all its items,
    and an update that fails part-way keeps the pairs inserted before the
    failure.  Without a data directory or without matching files the result
    is empty. *)
Theorem load_data_survives_failures fs :
  exists d tr,
    load_data fs = Outcome (Ok d) fs tr /\
    d = merge [] (flat_map (file_pairs fs) (processing_order fs)) /\
    (forall path, In path (processing_order fs) -> In (OpenRead path) tr) /\
    (forall path e,
        In path (processing_order fs) -> file_error fs path = Some e ->
        In (Print ("Error loading data from " ++ path ++ ": " ++ exn_str e)) tr
        /\ In (Traceback e) tr) /\
    (forall path e,
        read_value json_load fs path = Raise e -> file_pairs fs path = []) /\
    (forall path kvs,
        read_value json_load fs path = Ok (VDict kvs) -> wf_dict kvs ->
        file_error fs path = None /\ file_pairs fs path = kvs) /\
    (Fs.resolve fs "data" = None \/ processing_order fs = [] -> d = []).
Proof.
  eexists. eexists. split; [apply load_data_spec|].
  split; [reflexivity|]. split; [|split; [|split; [|split]]].
  - intros path H. right. apply in_or_app. unfold processing_order in H.
    apply in_app_or in H. destruct H as [H|H].
    + left. now apply in_file_trace_open.
    + right. right. now apply in_file_trace_open.
  - intros path e H He. unfold processing_order in H.
    apply in_app_or in H.
    destruct H as [H|H];
      destruct (in_file_trace_error fs _ _ _ H He) as [H1 H2].
    + split; right; apply in_or_app; left; assumption.
    + split; right; apply in_or_app; right; right; assumption.
  - intros path e H. unfold file_pairs. now rewrite H.
  - intros path kvs H Hwf. unfold file_error, file_pairs. rewrite H.
    cbn [Py.update_seq]. destruct (wf_dict_inserted _ Hwf) as [-> ->].
    now split.
  - intros [H|H]; [apply data_absent_no_files in H|];
      unfold assignments; rewrite H; reflexivity.
Qed.

Lemma load_data_survives_failures_witness :
  res (load_data fs_one_bad_file) = Ok [(VStr "a", VInt 1); (VStr "c", VInt 3)]
  /\ In (Print ("Error loading data from data/bad.json: "
                ++ exn_str (DecodeError "data/bad.json")))
        (trace (load_data fs_one_bad_file))
  /\ merge [] (flat_map (file_pairs []) (processing_order [])) = [].
Proof.
  destruct (load_data_survives_failures fs_one_bad_file)
    as [d [tr [Hrun [Hd [_ [Herr _]]]]]].
  destruct (load_data_survives_failures [])
    as [d0 [tr0 [_ [Hd0 [_ [_ [_ [_ Hempty]]]]]]]].
  rewrite Hrun. cbn [res trace]. split; [|split].
  - rewrite Hd. reflexivity.
  - apply (Herr "data/bad.json" (DecodeError "data/bad.json")).
    + vm_compute. tauto.
    + reflexivity.
  - rewrite <- Hd0. apply Hempty. left. reflexivity.
Defined.

(** C6 as stated fails: the update with [a.json] raises at its second
    element, the failure is logged, and the pair inserted before it stays in
    the result, which is therefore not the merge of the successful files. *)
Lemma partial_update_counterexample :
  file_error fs_partial_update "data/a.json"
    = Some (TypeError
              "cannot convert dictionary update sequence element to a sequence")
  /\ trace (load_data fs_partial_update)
     = [Scan json_pattern false; OpenRead "data/a.json";
        Print "Error loading data from data/a.json: cannot convert dictionary update sequence element to a sequence";
        Traceback (TypeError
              "cannot convert dictionary update sequence element to a sequence");
        Scan yaml_pattern false]
  /\ merged_from_successful fs_partial_update = []
  /\ res (load_data fs_partial_update) = Ok [(VStr "k", VInt 1)].
Proof. repeat split; reflexivity. Qed.

(** ** JSON before YAML (C10) *)

Lemma opened_app t1 t2 : opened (t1 ++ t2) = (opened t1 ++ opened t2)%list.
Proof.
  induction t1 as [|e t1 IH]; [reflexivity|].
  destruct e; cbn [app opened]; rewrite IH; reflexivity.
Qed.

Lemma opened_file_traces fs l : opened (flat_map (file_trace fs) l) = l.
Proof.
  induction l as [|p l IH]; [reflexivity|].
  cbn [flat_map]. rewrite opened_app, IH. unfold file_trace.
  destruct (file_error fs p); reflexivity.
Qed.

Lemma last_assigned_flat_map {A} k v (f : A -> list (value * value)) l :
  last_assigned k (flat_map f l) = Some v ->
  exists x, In x l /\ last_assigned k (f x) = Some v.
Proof.
  induction l as [|x l IH]; [discriminate|].
  cbn [flat_map]. rewrite last_assigned_app.
  destruct (last_assigned k (flat_map f l)) as [v'|] eqn:E.
  - intros H. destruct (IH H) as [y [Hy Hv]]. exists y. split; auto. now right.
  - intros H. exists x. split; auto. now left.
Qed.

Lemma last_assigned_some_flat_map {A} k v (f : A -> list (value * value)) l x :
  In x l -> last_assigned k (f x) = Some v ->
  exists v', last_assigned k (flat_map f l) = Some v'.
Proof.
  induction l as [|y l IH]; [intros []|].
  intros [->|Hin] Hv; cbn [flat_map]; rewrite last_assigned_app.
  - destruct (last_assigned k (flat_map f l)) as [v0|].
    + now exists v0.
    + now exists v.
  - destruct (IH Hin Hv) as [v' ->]. now exists v'.
Qed.

Lemma dict_get_congr a b d :
  Py.key_eqb a b = true -> Py.dict_get a d = Py.dict_get b d.
Proof.
  intros H. induction d as [|[k v] d IH]; [reflexivity|].
  cbn [Py.dict_get]. rewrite (PyFacts.key_eqb_congr a b k H), IH.
  reflexivity.
Qed.

Lemma wf_dict_last_assigned k kvs :
  wf_dict kvs -> last_assigned k kvs = Py.dict_get k kvs.
Proof.
  induction kvs as [|[k' v'] kvs IH]; [reflexivity|].
  cbn [wf_dict last_assigned Py.dict_get]. intros [Hh [Hnot Hwf]].
  rewrite (IH Hwf). destruct (Py.key_eqb k k') eqn:E.
  - rewrite (dict_get_congr k k' kvs E), Hnot. reflexivity.
  - destruct (Py.dict_get k kvs); reflexivity.
Qed.


Lemma opened_load_data fs :
  opened (trace (load_data fs)) = processing_order fs.
Proof.
  rewrite load_data_spec. cbn [trace opened].
  rewrite opened_app. cbn [opened]. now rewrite !opened_file_traces.
Qed.



(** ** Subdirectories of the data directory (C9) *)

Lemma flat_map_ext_in {A B} (f g : A -> list B) l :
  (forall x, In x l -> f x = g x) -> flat_map f l = flat_map g l.
Proof.
  induction l as [|x l IH]; intros H; [reflexivity|].
  cbn [flat_map]. rewrite (H x) by now left.
  rewrite IH; [reflexivity|]. intros y Hy. apply H. now right.
Qed.

Lemma shallow_names es : map fst (shallow es) = map fst es.
Proof. unfold shallow. rewrite map_map. reflexivity. Qed.

Lemma lookup_shallow name es :
  Fs.lookup name (shallow es) =
  match Fs.lookup name es with
  | Some (File c) => Some (File c)
  | Some (Dir _) => Some (Dir [])
  | None => None
  end.
Proof.
  induction es as [|[n x] es IH]; [reflexivity|].
  cbn [shallow map Fs.lookup fst snd].
  destruct (String.eqb name n); [destruct x; reflexivity | exact IH].
Qed.

Lemma read_value_shallow fs fs' name :
  entry_name name ->
  shallow (data_entries fs') = shallow (data_entries fs) ->
  read_value json_load fs' ("data/" ++ name) =
  read_value json_load fs ("data/" ++ name).
Proof.
  intros Hn Hs. rewrite !read_value_data by exact Hn.
  pose proof (lookup_shallow name (data_entries fs')) as H'.
  pose proof (lookup_shallow name (data_entries fs)) as H.
  rewrite Hs, H in H'.
  destruct (Fs.lookup name (data_entries fs')) as [[c'|es']|],
           (Fs.lookup name (data_entries fs)) as [[c|es]|];
    try discriminate; try reflexivity.
  now inversion H'.
Qed.

Lemma in_names_entry (es : tree) name :
  In name (map fst es) -> exists x, In (name, x) es.
Proof.
  intros H. apply in_map_iff in H. destruct H as [[n x] [<- H]]. now exists x.
Qed.

(** C9: [load_data] opens entries of the data directory itself only, and
    its result and its steps do not depend on what the subdirectories of the
    data directory hold; the observer of [data/] is recursive all the same. *)
Theorem data_subdirectories_ignored fs :
  Forall entry_name (map fst (data_entries fs)) ->
  (forall p, In p (opened (trace (load_data fs))) ->
             exists name x,
               In (name, x) (data_entries fs) /\ p = "data/" ++ name) /\
  (forall fs',
      shallow (data_entries fs') = shallow (data_entries fs) ->
      res (load_data fs') = res (load_data fs) /\
      trace (load_data fs') = trace (load_data fs)) /\
  In ("data/", true) observer_schedule.
Proof.
  intros Hnames. rewrite Forall_forall in Hnames.
  assert (Hpath : forall p, In p (processing_order fs) ->
            exists name, In name (map fst (data_entries fs)) /\
                         p = "data/" ++ name).
  { intros p Hp. destruct (processing_order_entry _ _ Hp) as [n [Hn [-> _]]].
    exists n. split; [exact Hn|]. apply join_data. now apply Hnames. }
  split; [|split].
  - intros p Hp.
    rewrite opened_load_data in Hp.
    destruct (Hpath p Hp) as [n [Hn ->]].
    destruct (in_names_entry _ _ Hn) as [x Hx]. now exists n, x.
  - intros fs' Hs.
    assert (Hfiles : json_files fs' = json_files fs /\
                     yaml_files fs' = yaml_files fs).
    { rewrite (json_files_spec fs'), (json_files_spec fs),
        (yaml_files_spec fs'), (yaml_files_spec fs).
      rewrite <- (shallow_names (data_entries fs')), Hs, shallow_names.
      split; reflexivity. }
    destruct Hfiles as [Hj Hy].
    assert (Hread : forall p, In p (processing_order fs) ->
              read_value json_load fs' p = read_value json_load fs p).
    { intros p Hp. destruct (Hpath p Hp) as [n [Hn ->]].
      apply read_value_shallow; auto. }
    assert (Hpairs : forall p, In p (processing_order fs) ->
              file_pairs fs' p = file_pairs fs p).
    { intros p Hp. unfold file_pairs. now rewrite (Hread p Hp). }
    assert (Htrace : forall p, In p (processing_order fs) ->
              file_trace fs' p = file_trace fs p).
    { intros p Hp. unfold file_trace, file_error. now rewrite (Hread p Hp). }
    rewrite !load_data_spec. cbn [res trace].
    unfold assignments, processing_order in *. rewrite Hj, Hy.
    rewrite (flat_map_ext_in _ _ _ Hpairs).
    rewrite (flat_map_ext_in (file_trace fs') (file_trace fs) (json_files fs)),
            (flat_map_ext_in (file_trace fs') (file_trace fs) (yaml_files fs)).
    + now split.
    + intros p Hp. apply Htrace. apply in_or_app. now right.
    + intros p Hp. apply Htrace. apply in_or_app. now left.
  - right. left. reflexivity.
Qed.

Lemma data_subdirectories_ignored_witness :
  res (load_data fs_flat_data) = res (load_data fs_nested_data) /\
  trace (load_data fs_flat_data) = trace (load_data fs_nested_data).
Proof.
  assert (H : Forall entry_name (map fst (data_entries fs_nested_data))).
  { repeat constructor; discriminate. }
  apply (proj1 (proj2 (data_subdirectories_ignored fs_nested_data H))
               fs_flat_data).
  reflexivity.
Defined.

(** ** Disjoint data files (C7) *)

Lemma lookup_in_nodup (es : tree) name x :
  NoDup (map fst es) -> In (name, x) es -> Fs.lookup name es = Some x.
Proof.
  induction es as [|[n y] es IH]; [intros _ []|].
  cbn [map fst Fs.lookup]. intros Hnd Hin. inversion Hnd as [|? ? Hnot Hnd'].
  subst. destruct Hin as [Heq|Hin].
  - inversion Heq. subst. now rewrite String.eqb_refl.
  - destruct (String.eqb name n) eqn:E.
    + apply String.eqb_eq in E. subst. exfalso. apply Hnot.
      apply in_map_iff. now exists (n, x).
    + now apply IH.
Qed.

Section DisjointFiles.

Variable fs : tree.
Hypothesis names_ok : Forall entry_name (map fst (data_entries fs)).
Hypothesis names_unique : NoDup (map fst (data_entries fs)).
Hypothesis all_mappings : mapping_files (data_entries fs).
Hypothesis all_disjoint : disjoint_keys (data_entries fs).

Lemma mapping_file_pairs name kvs :
  In (name, File (Doc (VDict kvs))) (data_entries fs) ->
  is_data_name name = true ->
  wf_dict kvs /\ file_pairs fs (Path.join "data" name) = kvs.
Proof.
  intros Hin Hdata.
  destruct (all_mappings _ _ Hin Hdata) as [kvs' [Heq Hwf]].
  inversion Heq. subst kvs'. split; [exact Hwf|].
  assert (Hn : entry_name name).
  { rewrite Forall_forall in names_ok. apply names_ok.
    apply in_map_iff. now exists (name, File (Doc (VDict kvs))). }
  rewrite join_data by apply Hn.
  unfold file_pairs. rewrite read_value_data by exact Hn.
  rewrite (lookup_in_nodup _ _ _ names_unique Hin).
  cbn [json_load Py.update_seq]. now destruct (wf_dict_inserted _ Hwf).
Qed.

Lemma merged_in_union k v :
  Py.dict_get k (merge [] (assignments fs)) = Some v ->
  union_maps (data_entries fs) k v.
Proof.
  rewrite get_merge. cbn [Py.dict_get].
  destruct (last_assigned k (assignments fs)) as [v'|] eqn:E; [|discriminate].
  intros Hv. inversion Hv. subst v'. unfold assignments in E.
  destruct (last_assigned_flat_map _ _ _ _ E) as [p [Hp Hlast]].
  destruct (processing_order_entry _ _ Hp) as [name [Hname [-> Hdata]]].
  destruct (in_names_entry _ _ Hname) as [x Hx].
  destruct (all_mappings _ _ Hx Hdata) as [kvs [-> Hwf]].
  destruct (mapping_file_pairs _ _ Hx Hdata) as [_ Hpairs].
  exists name, kvs. repeat split; auto.
  rewrite Hpairs, wf_dict_last_assigned in Hlast; auto.
Qed.

Lemma union_maps_functional k v v' :
  union_maps (data_entries fs) k v -> union_maps (data_entries fs) k v' ->
  v = v'.
Proof.
  intros [n1 [kvs1 [Hin1 [Hd1 Hg1]]]] [n2 [kvs2 [Hin2 [Hd2 Hg2]]]].
  destruct (string_dec n1 n2) as [<-|Hne].
  - pose proof (lookup_in_nodup _ _ _ names_unique Hin1) as L1.
    pose proof (lookup_in_nodup _ _ _ names_unique Hin2) as L2.
    rewrite L1 in L2. inversion L2. subst. congruence.
  - destruct (all_disjoint _ _ _ _ k Hin1 Hin2 Hd1 Hd2 Hne); congruence.
Qed.

Lemma union_in_merged k v :
  union_maps (data_entries fs) k v ->
  Py.dict_get k (merge [] (assignments fs)) = Some v.
Proof.
  intros Hu. pose proof Hu as [name [kvs [Hin [Hdata Hget]]]].
  destruct (mapping_file_pairs _ _ Hin Hdata) as [Hwf Hpairs].
  assert (Hp : In (Path.join "data" name) (processing_order fs)).
  { apply in_processing_order; auto.
    apply in_map_iff. now exists (name, File (Doc (VDict kvs))). }
  assert (Hlast : last_assigned k (file_pairs fs (Path.join "data" name))
                  = Some v).
  { now rewrite Hpairs, wf_dict_last_assigned. }
  destruct (last_assigned_some_flat_map _ _ _ _ _ Hp Hlast) as [v' Hv'].
  assert (Hm : Py.dict_get k (merge [] (assignments fs)) = Some v').
  { rewrite get_merge. unfold assignments. now rewrite Hv'. }
  rewrite Hm. f_equal.
  apply (union_maps_functional k v' v); [now apply merged_in_union | exact Hu].
Qed.

End DisjointFiles.

Lemma option_eq_by_values {A} (a b : option A) :
  (forall v, a = Some v <-> b = Some v) -> a = b.
Proof.
  intros H. destruct a as [x|].
  - symmetry. now apply H.
  - destruct b as [y|]; [|reflexivity]. now apply H.
Qed.

(** C7: when every data file holds a mapping and no two of them share a
    key, the result of [load_data] maps a key to a value exactly when one of
    the files does, and any other enumeration order of the data directory
    gives a dict with the same lookups. *)
Theorem disjoint_files_union fs :
  Forall entry_name (map fst (data_entries fs)) ->
  NoDup (map fst (data_entries fs)) ->
  mapping_files (data_entries fs) ->
  disjoint_keys (data_entries fs) ->
  exists d,
    res (load_data fs) = Ok d /\
    (forall k v,
        Py.dict_get k d = Some v <-> union_maps (data_entries fs) k v) /\
    (forall fs',
        Permutation (data_entries fs) (data_entries fs') ->
        exists d',
          res (load_data fs') = Ok d' /\
          forall k, Py.dict_get k d' = Py.dict_get k d).
Proof.
  intros Hnames Hnodup Hmaps Hdisj.
  exists (merge [] (assignments fs)). split; [apply load_data_res|].
  assert (Hiff : forall k v,
             Py.dict_get k (merge [] (assignments fs)) = Some v <->
             union_maps (data_entries fs) k v).
  { intros k v. split.
    - now apply merged_in_union.
    - now apply union_in_merged. }
  split; [exact Hiff|].
  intros fs' Hperm.
  exists (merge [] (assignments fs')). split; [apply load_data_res|].
  assert (Hnames' : Forall entry_name (map fst (data_entries fs'))).
  { eapply Permutation_Forall; [|exact Hnames]. now apply Permutation_map. }
  assert (Hnodup' : NoDup (map fst (data_entries fs'))).
  { eapply Permutation_NoDup; [|exact Hnodup]. now apply Permutation_map. }
  assert (Hin : forall e, In e (data_entries fs') -> In e (data_entries fs)).
  { intros e. apply Permutation_in. now apply Permutation_sym. }
  assert (Hmaps' : mapping_files (data_entries fs')).
  { intros name x Hx. apply Hmaps. now apply Hin. }
  assert (Hdisj' : disjoint_keys (data_entries fs')).
  { intros n1 n2 kvs1 kvs2 k H1 H2. apply Hdisj; now apply Hin. }
  intros k. apply option_eq_by_values. intros v. rewrite Hiff. split.
  - intros H. apply (merged_in_union fs' Hnames' Hnodup' Hmaps') in H.
    destruct H as [n [kvs [H1 H2]]]. exists n, kvs. split; auto.
  - intros [n [kvs [H1 H2]]].
    apply (union_in_merged fs' Hnames' Hnodup' Hmaps' Hdisj').
    exists n, kvs. split; auto. eapply Permutation_in; eauto.
Qed.

Lemma singleton_disjoint a b va vb k :
  Py.key_eqb a b = false ->
  Py.dict_get k [(a, va)] = None \/ Py.dict_get k [(b, vb)] = None.
Proof.
  intros H. cbn [Py.dict_get]. destruct (Py.key_eqb k a) eqn:E.
  - right. rewrite (PyFacts.key_eqb_congr k a b E), H. reflexivity.
  - now left.
Qed.

Lemma disjoint_files_union_witness :
  exists d d',
    res (load_data fs_disjoint) = Ok d /\
    res (load_data fs_disjoint_reordered) = Ok d' /\
    (forall k, Py.dict_get k d' = Py.dict_get k d) /\
    Py.dict_get (VStr "b") d = Some (VInt 2).
Proof.
  assert (Hnames : Forall entry_name (map fst (data_entries fs_disjoint))).
  { repeat constructor; discriminate. }
  assert (Hnodup : NoDup (map fst (data_entries fs_disjoint))).
  { repeat constructor; cbn [In]; intuition discriminate. }
  assert (Hmaps : mapping_files (data_entries fs_disjoint)).
  { intros name x Hin _. cbn in Hin.
    destruct Hin as [H|[H|[H|[]]]]; inversion H; subst;
      eexists; (split; [reflexivity|]); cbn; tauto. }
  assert (Hdisj : disjoint_keys (data_entries fs_disjoint)).
  { intros n1 n2 kvs1 kvs2 k H1 H2 _ _ Hne. cbn in H1, H2.
    destruct H1 as [H1|[H1|[H1|[]]]]; inversion H1; subst;
      destruct H2 as [H2|[H2|[H2|[]]]]; inversion H2; subst;
      try congruence; apply singleton_disjoint; reflexivity. }
  destruct (disjoint_files_union fs_disjoint Hnames Hnodup Hmaps Hdisj)
    as [d [Hd [Hunion Hperm]]].
  destruct (Hperm fs_disjoint_reordered) as [d' [Hd' Hsame]].
  { cbn. apply perm_trans with
      [("c.json", File (Doc (VDict [(VStr "c", VInt 3)])));
       ("a.json", File (Doc (VDict [(VStr "a", VInt 1)])));
       ("b.yaml", File (Doc (VDict [(VStr "b", VInt 2)])))].
    - apply Permutation_sym.
      apply (Permutation_cons_append
               [("a.json", File (Doc (VDict [(VStr "a", VInt 1)])));
                ("b.yaml", File (Doc (VDict [(VStr "b", VInt 2)])))]).
    - apply perm_skip. apply perm_swap. }
  exists d, d'. repeat split; auto.
  apply Hunion. exists "b.yaml", [(VStr "b", VInt 2)].
  repeat split; cbn; auto.
Defined.

(** ** What a trace holds *)

Lemma trace_bind {A B} (m : M A) (k : A -> M B) fs :
  trace (bind m k fs) =
  (trace (m fs) ++
   match res (m fs) with
   | Ok a => trace (k a (fs_after (m fs)))
   | Raise _ => []
   end)%list.
Proof.
  unfold bind. destruct (res (m fs)); cbn [trace]; [reflexivity|].
  now rewrite app_nil_r.
Qed.

Lemma emits_bind {A B} P (m : M A) (k : A -> M B) :
  emits P m -> (forall a, emits P (k a)) -> emits P (bind m k).
Proof.
  intros Hm Hk fs. rewrite trace_bind. apply Forall_app. split; [apply Hm|].
  destruct (res (m fs)); [apply Hk | constructor].
Qed.

Lemma emits_try {A} P (m : M A) : emits P m -> emits P (try_ m).
Proof. intros H fs. apply H. Qed.

Lemma emits_ret {A} P (a : A) : emits P (ret a).
Proof. intros fs. constructor. Qed.

Lemma emits_lift {A} P (r : result A) : emits P (lift r).
Proof. intros fs. constructor. Qed.

Lemma emits_for_each {A} P (l : list A) (body : A -> M unit) :
  (forall x, emits P (body x)) -> emits P (for_each l body).
Proof.
  intros H. induction l as [|x l IH]; cbn [for_each].
  - apply emits_ret.
  - apply emits_bind; [apply H | intros _; exact IH].
Qed.

Lemma total_for_each {A} (l : list A) (body : A -> M unit) :
  (forall x fs, res (body x fs) = Ok tt) ->
  forall fs, res (for_each l body fs) = Ok tt.
Proof.
  intros H. induction l as [|x l IH]; intros fs; [reflexivity|].
  cbn [for_each]. unfold bind. rewrite H. apply IH.
Qed.

(** A [try] with a handler that does not raise. *)
Lemma handled_ok {A} (m : M A) (h : exn -> M unit) fs :
  (forall e fs', res (h e fs') = Ok tt) ->
  res ((r <- try_ m ;;
        match r with
        | Ok _ => ret tt
        | Raise e => h e
        end) fs) = Ok tt.
Proof.
  intros H. unfold bind, try_. cbn [res fs_after].
  destruct (res (m fs)); [reflexivity | apply H].
Qed.

Lemma emits_emit P e : P e -> emits P (emit e).
Proof. intros H fs. now constructor. Qed.

Lemma emits_when P b m : emits P m -> emits P (when b m).
Proof. intros H. destruct b; [exact H | apply emits_ret]. Qed.

Lemma emits_path_exists P p : emits P (path_exists p).
Proof. intros fs. constructor. Qed.

Lemma emits_store P p c : emits P (store p c).
Proof.
  intros fs. unfold store.
  destruct (Fs.resolve fs p) as [[?|?]|];
    try destruct (Fs.put _ _ _) as [[?|?]|]; constructor.
Qed.

Lemma emits_step P e (step : tree -> outcome unit) :
  P e -> (forall fs, trace (step fs) = []) -> emits P (emit e ;; step).
Proof.
  intros He Hs. apply emits_bind; [now apply emits_emit|].
  intros _ fs. rewrite Hs. constructor.
Qed.

Lemma emits_makedirs P p : P (Makedirs p) -> emits P (makedirs p).
Proof.
  intros H. apply emits_step; [exact H|]. intros fs.
  destruct (Fs.resolve fs p); [reflexivity|].
  destruct (Path.components p); [reflexivity|].
  destruct (Fs.mkdirs _ _) as [[?|?]|]; reflexivity.
Qed.

Lemma emits_remove P p : P (Remove p) -> emits P (remove p).
Proof.
  intros H. apply emits_step; [exact H|]. intros fs.
  destruct (Fs.resolve fs p) as [[?|?]|]; try reflexivity.
  destruct (Fs.del _ _) as [[?|?]|]; reflexivity.
Qed.

Lemma emits_copy P src dst : P (Copy src dst) -> emits P (copy src dst).
Proof.
  intros H. unfold copy. apply emits_bind; [now apply emits_emit|].
  intros _ fs. cbv zeta. destruct (same_file fs src _); [constructor|].
  destruct (Fs.resolve fs src) as [[?|?]|]; try constructor.
  apply emits_store.
Qed.

Lemma emits_open_write P p text :
  P (Write p text) -> emits P (open_write p text).
Proof.
  intros H. unfold open_write. apply emits_bind; [now apply emits_emit|].
  intros _. apply emits_store.
Qed.

Lemma emits_glob P pathname recursive :
  P (Scan pathname recursive) -> emits P (glob pathname recursive).
Proof. intros H fs. rewrite glob_spec. now constructor. Qed.

Lemma emits_print P line : P (Print line) -> emits P (print line).
Proof. apply emits_emit. Qed.

Lemma emits_print_exc P e : P (Traceback e) -> emits P (print_exc e).
Proof. apply emits_emit. Qed.

Create HintDb steps.
#[export] Hint Resolve emits_ret emits_lift emits_try emits_when
  emits_path_exists emits_store emits_makedirs emits_remove emits_copy
  emits_open_write emits_glob emits_print emits_print_exc emits_for_each
  : steps.
#[export] Hint Extern 1 (load_step _) => exact I : steps.
#[export] Hint Extern 1 (copy_step _) => exact I : steps.
#[export] Hint Extern 1 (output_step _) => exact I : steps.

(** Steps of a program made of binds, branches and primitives. *)
Ltac steps :=
  repeat first
    [ solve [auto with steps]
    | match goal with
      | |- emits _ (match ?r with Ok _ => _ | Raise _ => _ end) => destruct r
      | |- emits _ (if ?b then _ else _) => destruct b
      | |- emits _ (bind _ _) => apply emits_bind; [|intros ?]
      | |- emits _ (try_ _) => apply emits_try
      | |- emits _ (when _ _) => apply emits_when
      | |- emits _ (for_each _ _) => apply emits_for_each; intros ?
      end ].

Lemma rendered_app t1 t2 : rendered (t1 ++ t2) = (rendered t1 ++ rendered t2)%list.
Proof.
  induction t1 as [|e t1 IH]; [reflexivity|].
  destruct e; cbn [app rendered]; rewrite IH; reflexivity.
Qed.

Lemma copied_app t1 t2 : copied (t1 ++ t2) = (copied t1 ++ copied t2)%list.
Proof.
  induction t1 as [|e t1 IH]; [reflexivity|].
  destruct e; cbn [app copied]; rewrite IH; reflexivity.
Qed.

Lemma written_app t1 t2 : written (t1 ++ t2) = (written t1 ++ written t2)%list.
Proof.
  induction t1 as [|e t1 IH]; [reflexivity|].
  destruct e; cbn [app written]; rewrite IH; reflexivity.
Qed.

Lemma load_steps_quiet tr :
  Forall load_step tr -> rendered tr = [] /\ copied tr = [] /\ written tr = [].
Proof.
  induction 1 as [|e tr He _ IH]; [now repeat split|].
  destruct e; try contradiction; exact IH.
Qed.

Lemma copy_steps_quiet tr :
  Forall copy_step tr -> rendered tr = [] /\ written tr = [] /\ opened tr = [].
Proof.
  induction 1 as [|e tr He _ IH]; [now repeat split|].
  destruct e; try contradiction; exact IH.
Qed.

Lemma output_steps_quiet tr :
  Forall output_step tr -> rendered tr = [] /\ copied tr = [] /\ opened tr = [].
Proof.
  induction 1 as [|e tr He _ IH]; [now repeat split|].
  destruct e; try contradiction; exact IH.
Qed.

(** ** The phases of a build *)

Lemma load_data_steps : emits load_step load_data.
Proof.
  intros fs. rewrite load_data_spec. cbn [trace].
  assert (H : forall l, Forall load_step (flat_map (file_trace fs) l)).
  { induction l as [|p l IH]; [constructor|]. cbn [flat_map].
    apply Forall_app. split; [|exact IH]. unfold file_trace.
    destruct (file_error fs p); repeat constructor. }
  constructor; [exact I|]. apply Forall_app. split; [apply H|].
  constructor; [exact I | apply H].
Qed.

Lemma makedirs_site fs :
  Fs.resolve fs "site" = None ->
  makedirs "site" fs =
  Outcome (Ok tt) (Fs.set_entry "site" (Dir []) fs) [Makedirs "site"].
Proof.
  intros H. unfold makedirs, bind, emit. cbn [res fs_after trace].
  rewrite H. change (Path.components "site") with ["site"].
  unfold Fs.resolve in H. change (Path.components "site") with ["site"] in H.
  cbn [Fs.walk] in H. cbn [Fs.mkdirs].
  destruct (Fs.lookup "site" fs); [discriminate|]. reflexivity.
Qed.

Lemma path_exists_spec p fs :
  path_exists p fs =
  Outcome (Ok (match Fs.resolve fs p with Some _ => true | None => false end))
          fs [].
Proof. reflexivity. Qed.

(** The first two lines of [copy_html_files] and of the rendering. *)
Lemma site_prefix {A} (k : M A) fs :
  (ex <- path_exists "site" ;; when (negb ex) (makedirs "site") ;; k) fs =
  Outcome (res (k (site_ready fs))) (fs_after (k (site_ready fs)))
          (site_trace fs ++ trace (k (site_ready fs)))%list.
Proof.
  unfold site_ready, site_trace.
  unfold bind at 1. rewrite path_exists_spec. cbn [res fs_after trace app].
  destruct (Fs.resolve fs "site") as [n|] eqn:E; cbn [negb when].
  - unfold bind, ret. cbn [res fs_after trace app]. reflexivity.
  - unfold bind. rewrite (makedirs_site _ E). cbn [res fs_after trace].
    reflexivity.
Qed.

Lemma lookup_set_entry_other name n x es :
  name <> n -> Fs.lookup name (Fs.set_entry n x es) = Fs.lookup name es.
Proof.
  intros Hne. induction es as [|[m y] es IH]; cbn [Fs.set_entry Fs.lookup].
  - destruct (String.eqb name n) eqn:E; [|reflexivity].
    apply String.eqb_eq in E. contradiction.
  - destruct (String.eqb n m) eqn:E; cbn [Fs.lookup].
    + apply String.eqb_eq in E. subst m.
      destruct (String.eqb name n) eqn:E'; [|reflexivity].
      apply String.eqb_eq in E'. contradiction.
    + rewrite IH. reflexivity.
Qed.

Lemma resolve_templates_site_ready fs :
  Fs.resolve (site_ready fs) "templates" = Fs.resolve fs "templates".
Proof.
  unfold site_ready. destruct (Fs.resolve fs "site"); [reflexivity|].
  unfold Fs.resolve. change (Path.components "templates") with ["templates"].
  cbn [Fs.walk]. rewrite lookup_set_entry_other; [reflexivity | discriminate].
Qed.

Lemma glob_templates_spec fs pat :
  Glob.glob fs ("templates/**/" ++ pat) true =
  match Str.split "/" pat with
  | [p] =>
      match Fs.resolve fs "templates" with
      | Some n => Glob.rglob p "templates/" n
      | None => []
      end
  | _ => Glob.glob fs ("templates/**/" ++ pat) true
  end.
Proof.
  destruct (Str.split "/" pat) as [|p [|q l]] eqn:E; try reflexivity.
  unfold Glob.glob. cbn [append Str.split Ascii.eqb Bool.eqb].
  rewrite E. reflexivity.
Qed.

Lemma html_files_spec fs :
  Glob.glob fs html_pattern true =
  match Fs.resolve fs "templates" with
  | Some n => Glob.rglob "*.html" "templates/" n
  | None => []
  end.
Proof. apply (glob_templates_spec fs "*.html"). Qed.

Lemma all_templates_spec fs :
  Glob.glob fs template_pattern true =
  match Fs.resolve fs "templates" with
  | Some n => Glob.rglob "*.*" "templates/" n
  | None => []
  end.
Proof. apply (glob_templates_spec fs "*.*"). Qed.

Lemma template_files_site_ready fs :
  template_files (site_ready fs) = template_files fs.
Proof.
  unfold template_files.
  now rewrite !all_templates_spec, resolve_templates_site_ready.
Qed.

Lemma copy_one_ok f fs : res (copy_one f fs) = Ok tt.
Proof. unfold copy_one. cbv zeta. apply handled_ok. reflexivity. Qed.

Lemma copy_one_steps f : emits copy_step (copy_one f).
Proof. unfold copy_one. cbv zeta. steps. Qed.

Lemma copy_html_files_ok fs : res (copy_html_files fs) = Ok tt.
Proof.
  unfold copy_html_files. rewrite site_prefix. cbn [res].
  unfold bind. rewrite glob_spec. cbn [res fs_after].
  apply total_for_each. apply copy_one_ok.
Qed.

Lemma copy_html_files_steps : emits copy_step copy_html_files.
Proof. unfold copy_html_files. steps. apply copy_one_steps. Qed.

Lemma falsy_not_html t :
  truthy t = false -> Str.endswith (first_path t) ".html" = false.
Proof.
  destruct t as [|s|l]; cbn [truthy first_path].
  - reflexivity.
  - destruct s; [reflexivity | discriminate].
  - destruct l; [reflexivity | discriminate].
Qed.

Section Build.

Variable jinja : tree -> string -> dict -> result string.

Lemma render_one_ok d f fs : res (render_one jinja d f fs) = Ok tt.
Proof.
  unfold render_one. apply handled_ok. intros e fs'.
  destruct (is_template_error e); reflexivity.
Qed.

Lemma get_and_render_trace name d fs :
  trace (get_and_render jinja name d fs) = [Render name d].
Proof. reflexivity. Qed.

(** One iteration calls the environment once, with the context and the name
    of the template relative to [templates], and then only makes
    directories, writes and prints. *)
Lemma render_one_trace d f fs :
  exists tr,
    trace (render_one jinja d f fs)
      = Render (Path.relpath f "templates") d :: tr /\
    Forall output_step tr.
Proof.
  unfold render_one. rewrite trace_bind.
  unfold try_ at 1 2 3. cbn [res fs_after trace].
  rewrite trace_bind, get_and_render_trace. cbn [app].
  eexists. split; [reflexivity|]. apply Forall_app. split.
  - destruct (res (get_and_render jinja _ d fs)); [|constructor].
    cbv zeta.
    assert (H : forall out, emits output_step
              (ex <- path_exists (Path.dirname (outname f)) ;;
               when (negb ex) (makedirs (Path.dirname (outname f))) ;;
               open_write (outname f) out ;;
               print ("Rendered " ++ f ++ " to " ++ outname f)))
      by (intros out; steps).
    apply H.
  - match goal with |- Forall _ (trace (match ?r with _ => _ end _)) =>
      destruct r end; [constructor|].
    assert (H : emits output_step
              ((if is_template_error e
                then print ("Error rendering " ++ f ++ ": " ++ exn_str e)
                else print ("Unexpected error rendering " ++ f ++ ": "
                            ++ exn_str e)) ;; print_exc e))
      by steps.
    apply H.
Qed.

Lemma render_loop_trace d l : forall fs,
  rendered (trace (for_each l (render_one jinja d) fs))
    = map (fun f => (Path.relpath f "templates", d)) l /\
  copied (trace (for_each l (render_one jinja d) fs)) = [] /\
  opened (trace (for_each l (render_one jinja d) fs)) = [].
Proof.
  induction l as [|f l IH]; intros fs; [now repeat split|].
  cbn [for_each]. rewrite trace_bind, render_one_ok.
  destruct (render_one_trace d f fs) as [tr [-> Htr]].
  destruct (output_steps_quiet _ Htr) as [Hr [Hc Ho]].
  destruct (IH (fs_after (render_one jinja d f fs))) as [IHr [IHc IHo]].
  cbn [app rendered copied opened map].
  rewrite rendered_app, copied_app, opened_app, Hr, Hc, Ho, IHr, IHc, IHo.
  now repeat split.
Qed.

Lemma render_templates_spec d fs :
  render_templates jinja d fs =
  Outcome (Ok tt)
          (fs_after (for_each (template_files fs) (render_one jinja d)
                              (site_ready fs)))
          (site_trace fs ++ Scan template_pattern true
           :: trace (for_each (template_files fs) (render_one jinja d)
                              (site_ready fs)))%list.
Proof.
  unfold render_templates. rewrite site_prefix.
  unfold bind. rewrite glob_spec. cbn [res fs_after trace app].
  fold (template_files (site_ready fs)). rewrite template_files_site_ready.
  rewrite total_for_each by apply render_one_ok. reflexivity.
Qed.

Lemma site_trace_quiet fs :
  rendered (site_trace fs) = [] /\ copied (site_trace fs) = [] /\
  opened (site_trace fs) = [] /\ written (site_trace fs) = [].
Proof. unfold site_trace. destruct (Fs.resolve fs "site"); now repeat split. Qed.

Lemma render_templates_trace d fs :
  rendered (trace (render_templates jinja d fs))
    = map (fun f => (Path.relpath f "templates", d)) (template_files fs) /\
  copied (trace (render_templates jinja d fs)) = [] /\
  opened (trace (render_templates jinja d fs)) = [].
Proof.
  rewrite render_templates_spec. cbn [trace].
  destruct (site_trace_quiet fs) as [Hr [Hc [Ho _]]].
  destruct (render_loop_trace d (template_files fs) (site_ready fs))
    as [Lr [Lc Lo]].
  rewrite rendered_app, copied_app, opened_app. cbn [rendered copied opened].
  rewrite Hr, Hc, Ho, Lr, Lc, Lo. now repeat split.
Qed.

(** [render_all] runs [load_data], prints the trigger if there is one, and
    then takes one of two branches. *)
Lemma render_all_spec t fs :
  let d := merge [] (assignments fs) in
  let phase := if Str.endswith (first_path t) ".html"
               then copy_html_files
               else render_templates jinja d in
  render_all jinja t fs =
  Outcome (res (phase fs)) (fs_after (phase fs))
          (Print ("Calling render_all with trigger_file: " ++ trigger_str t)
           :: trace (load_data fs) ++ trigger_line t ++ trace (phase fs))%list.
Proof.
  cbv zeta. unfold render_all.
  erewrite bind_det by reflexivity.
  erewrite bind_det by apply load_data_spec.
  rewrite load_data_spec.
  unfold render_all_templates, trigger_line.
  destruct (truthy t) eqn:Et.
  - erewrite bind_det by reflexivity. cbn [res fs_after trace app].
    reflexivity.
  - rewrite (falsy_not_html _ Et). cbn [res fs_after trace app].
    reflexivity.
Qed.

End Build.

(** ** A build without a trigger and a build triggered by a page (C1, C2) *)

Section Builds.

Variable jinja : tree -> string -> dict -> result string.

(** C1, as the code has it: without a trigger the run loads the data and
    then renders every file of the template list against the loaded
    context; it copies nothing. *)
Theorem build_without_trigger t fs :
  truthy t = false ->
  exists d tr1 tr2 fs',
    load_data fs = Outcome (Ok d) fs tr1 /\
    opened tr1 = processing_order fs /\
    render_templates jinja d fs = Outcome (Ok tt) fs' tr2 /\
    render_all jinja t fs =
      Outcome (Ok tt) fs'
        (Print ("Calling render_all with trigger_file: " ++ trigger_str t)
         :: tr1 ++ tr2)%list /\
    rendered tr2
      = map (fun f => (Path.relpath f "templates", d)) (template_files fs) /\
    copied (trace (render_all jinja t fs)) = [].
Proof.
  intros Ht.
  exists (merge [] (assignments fs)), (trace (load_data fs)),
    (trace (render_templates jinja (merge [] (assignments fs)) fs)),
    (fs_after (render_templates jinja (merge [] (assignments fs)) fs)).
  assert (Hall : render_all jinja t fs =
            Outcome (Ok tt)
              (fs_after (render_templates jinja (merge [] (assignments fs)) fs))
              (Print ("Calling render_all with trigger_file: "
                      ++ trigger_str t)
               :: trace (load_data fs)
                  ++ trace (render_templates jinja
                              (merge [] (assignments fs)) fs))%list).
  { rewrite render_all_spec. cbv zeta. rewrite (falsy_not_html _ Ht).
    unfold trigger_line. rewrite Ht. cbn [app].
    rewrite render_templates_spec. reflexivity. }
  destruct (render_templates_trace jinja (merge [] (assignments fs)) fs)
    as [Hr [Hc _]].
  destruct (load_steps_quiet _ (load_data_steps fs)) as [_ [Hlc _]].
  repeat split.
  - rewrite load_data_spec. reflexivity.
  - apply opened_load_data.
  - rewrite render_templates_spec. reflexivity.
  - exact Hall.
  - exact Hr.
  - rewrite Hall. cbn [trace copied]. now rewrite copied_app, Hlc, Hc.
Qed.

(** C2, as the code has it: for a trigger that ends in [.html] the run
    loads the data all the same, then copies the pages and returns; it
    renders no template and writes no output file. *)
Theorem html_trigger_copies t fs :
  Str.endswith (first_path t) ".html" = true ->
  exists d tr1 tr2 fs',
    load_data fs = Outcome (Ok d) fs tr1 /\
    opened tr1 = processing_order fs /\
    copy_html_files fs = Outcome (Ok tt) fs' tr2 /\
    render_all jinja t fs =
      Outcome (Ok tt) fs'
        (Print ("Calling render_all with trigger_file: " ++ trigger_str t)
         :: tr1
            ++ Print (">>> Rebuild triggered by change in: " ++ first_path t)
               :: tr2)%list /\
    rendered (trace (render_all jinja t fs)) = [] /\
    written (trace (render_all jinja t fs)) = [].
Proof.
  intros Ht.
  assert (Htruthy : truthy t = true).
  { destruct (truthy t) eqn:E; [reflexivity|].
    rewrite (falsy_not_html _ E) in Ht. discriminate. }
  exists (merge [] (assignments fs)), (trace (load_data fs)),
    (trace (copy_html_files fs)), (fs_after (copy_html_files fs)).
  assert (Hall : render_all jinja t fs =
            Outcome (Ok tt) (fs_after (copy_html_files fs))
              (Print ("Calling render_all with trigger_file: "
                      ++ trigger_str t)
               :: trace (load_data fs)
                  ++ Print (">>> Rebuild triggered by change in: "
                            ++ first_path t)
                     :: trace (copy_html_files fs))%list).
  { rewrite render_all_spec. cbv zeta. rewrite Ht.
    unfold trigger_line. rewrite Htruthy. cbn [app].
    rewrite copy_html_files_ok. reflexivity. }
  destruct (copy_steps_quiet _ (copy_html_files_steps fs)) as [Hr [Hw _]].
  destruct (load_steps_quiet _ (load_data_steps fs)) as [Hlr [_ Hlw]].
  repeat split.
  - rewrite load_data_spec. reflexivity.
  - apply opened_load_data.
  - rewrite (outcome_eta (copy_html_files fs)) at 1.
    now rewrite copy_html_files_ok.
  - exact Hall.
  - rewrite Hall. cbn [trace rendered].
    rewrite rendered_app. cbn [rendered]. now rewrite Hlr, Hr.
  - rewrite Hall. cbn [trace written].
    rewrite written_app. cbn [written]. now rewrite Hlw, Hw.
Qed.

End Builds.

Lemma build_without_trigger_witness :
  exists d tr1 tr2 fs',
    load_data fs_page_and_template = Outcome (Ok d) fs_page_and_template tr1 /\
    opened tr1 = processing_order fs_page_and_template /\
    render_templates plain_engine d fs_page_and_template
      = Outcome (Ok tt) fs' tr2 /\
    render_all plain_engine TNone fs_page_and_template =
      Outcome (Ok tt) fs'
        (Print ("Calling render_all with trigger_file: " ++ trigger_str TNone)
         :: tr1 ++ tr2)%list /\
    rendered tr2
      = map (fun f => (Path.relpath f "templates", d))
            (template_files fs_page_and_template) /\
    copied (trace (render_all plain_engine TNone fs_page_and_template)) = [].
Proof.
  apply (build_without_trigger plain_engine TNone fs_page_and_template).
  reflexivity.
Defined.

(** C1 as stated fails: the initial build leaves the page [about.html] of
    the template tree uncopied; only the template is rendered. *)
Lemma initial_build_counterexample :
  Glob.glob fs_page_and_template html_pattern true = ["templates/about.html"]
  /\ Fs.resolve (fs_after (render_all plain_engine TNone fs_page_and_template))
                "site/about.html" = None
  /\ copied (trace (render_all plain_engine TNone fs_page_and_template)) = []
  /\ Fs.resolve (fs_after (render_all plain_engine TNone fs_page_and_template))
                "site/index.html" = Some (File (Raw "hello")).
Proof. repeat split; reflexivity. Qed.

Lemma html_trigger_copies_witness :
  rendered (trace (render_all plain_engine (TStr "templates/foo.html")
                              fs_data_and_page)) = [] /\
  written (trace (render_all plain_engine (TStr "templates/foo.html")
                             fs_data_and_page)) = [].
Proof.
  destruct (html_trigger_copies plain_engine (TStr "templates/foo.html")
              fs_data_and_page eq_refl)
    as [d [tr1 [tr2 [fs' [_ [_ [_ [_ [Hr Hw]]]]]]]]].
  split; assumption.
Defined.

(** C2 as stated fails: the run triggered by a page opens and loads the
    data file before it copies. *)
Lemma html_trigger_counterexample :
  trace (render_all plain_engine (TStr "templates/foo.html") fs_data_and_page)
  = [Print "Calling render_all with trigger_file: templates/foo.html";
     Scan json_pattern false;
     OpenRead "data/a.json";
     Print "Loaded data from data/a.json";
     Scan yaml_pattern false;
     Print ">>> Rebuild triggered by change in: templates/foo.html";
     Makedirs "site";
     Scan html_pattern true;
     Copy "templates/foo.html" "site/foo.html";
     Print "Copied templates/foo.html to site/foo.html"].
Proof. reflexivity. Qed.

(** ** The template list (C5) *)

Lemma glob1_visible names pat name :
  Glob.ishidden pat = false ->
  (In name (Glob.glob1 names pat) <->
   In name names /\ visible name /\ Fnmatch.fnmatch name pat = true).
Proof.
  intros Hp. unfold Glob.glob1, visible. rewrite Hp, !filter_In.
  rewrite negb_true_iff. tauto.
Qed.

Lemma rglob_sound pat :
  Glob.ishidden pat = false ->
  forall n prefix p,
    In p (Glob.rglob pat prefix n) ->
    exists segs name x,
      reaches n (segs ++ [name]) x /\ Forall visible (segs ++ [name]) /\
      Fnmatch.fnmatch name pat = true /\
      p = fold_left Path.join (segs ++ [name]) prefix.
Proof.
  intros Hp n. induction n as [c|es IH] using node_nested_ind;
    intros prefix p Hin; [contradiction|].
  cbn [Glob.rglob] in Hin. apply in_app_or in Hin. destruct Hin as [Hin|Hin].
  - apply in_map_iff in Hin. destruct Hin as [name [<- Hin]].
    apply (glob1_visible _ _ _ Hp) in Hin. destruct Hin as [Hin [Hv Hm]].
    destruct (in_names_entry _ _ Hin) as [x Hx].
    exists [], name, x. cbn [app fold_left]. repeat split; auto.
    econstructor; [exact Hx | constructor].
  - apply in_flat_map in Hin. destruct Hin as [[name child] [He Hin]].
    destruct (Glob.ishidden name) eqn:Hh; [contradiction|].
    rewrite Forall_forall in IH.
    destruct (IH _ He _ _ Hin) as [segs [name' [x [Hr [Hv [Hm ->]]]]]].
    exists (name :: segs), name', x. cbn [app fold_left].
    repeat split; auto.
    econstructor; eassumption.
Qed.

Lemma rglob_complete pat :
  Glob.ishidden pat = false ->
  forall segs n prefix name x,
    reaches n (segs ++ [name]) x -> Forall visible (segs ++ [name]) ->
    Fnmatch.fnmatch name pat = true ->
    In (fold_left Path.join (segs ++ [name]) prefix)
       (Glob.rglob pat prefix n).
Proof.
  intros Hp segs.
  induction segs as [|s segs IH]; intros n prefix name x Hr Hv Hm;
    cbn [app] in Hr, Hv; inversion Hr as [|es ? child ? ? He Hr']; subst;
    inversion Hv as [|? ? Hs Hv']; subst;
    cbn [app fold_left Glob.rglob]; apply in_or_app.
  - left. apply in_map. apply (glob1_visible _ _ _ Hp). repeat split; auto.
    apply in_map_iff. now exists (name, child).
  - right. apply in_flat_map. exists (s, child). split; [exact He|].
    unfold visible in Hs. rewrite Hs. eapply IH; eassumption.
Qed.

(** A segment of a path is a piece of its text. *)
Lemma split_head_prefix s : forall h t,
  Str.split "/" s = h :: t -> String.prefix h s = true.
Proof.
  induction s as [|c s IH]; intros h t H; cbn [Str.split] in H.
  - inversion H. reflexivity.
  - destruct (Ascii.eqb c "/").
    + inversion H. reflexivity.
    + destruct (Str.split "/" s) as [|h' t'] eqn:E; inversion H; subst.
      * cbn [String.prefix]. destruct (ascii_dec c c); [|congruence].
        apply prefix_empty.
      * cbn [String.prefix]. destruct (ascii_dec c c); [|congruence].
        eapply IH. reflexivity.
Qed.

Lemma segment_contains seg s :
  In seg (Str.split "/" s) -> Str.contains seg s = true.
Proof.
  induction s as [|c s IH]; cbn [Str.split Str.contains].
  - intros [<-|[]]. reflexivity.
  - destruct (Ascii.eqb c "/").
    + intros [<-|H]; [reflexivity|]. rewrite (IH H). apply orb_true_r.
    + destruct (Str.split "/" s) as [|h t] eqn:E.
      * intros [<-|[]]. cbn [String.prefix].
        destruct (ascii_dec c c); [|congruence]. now rewrite prefix_empty.
      * intros [<-|H].
        -- cbn [String.prefix]. destruct (ascii_dec c c); [|congruence].
           now rewrite (split_head_prefix s h t E).
        -- rewrite IH; [apply orb_true_r | now right].
Qed.

Lemma endswith_append a b suf :
  Str.endswith b suf = true -> Str.endswith (a ++ b) suf = true.
Proof.
  intros H. induction a as [|c a IH]; [exact H|].
  cbn [append Str.endswith]. rewrite IH. apply orb_true_r.
Qed.

Lemma endswith_join a b suf :
  Str.endswith b suf = true -> Str.endswith (Path.join a b) suf = true.
Proof.
  intros H. unfold Path.join. destruct (Str.startswith b "/"); [exact H|].
  destruct (Str.is_empty a || Str.endswith a "/").
  - now apply endswith_append.
  - apply endswith_append. now apply (endswith_append "/").
Qed.

Lemma endswith_split s suf :
  Str.endswith s suf = true -> exists pre, s = pre ++ suf.
Proof.
  induction s as [|c s IH]; cbn [Str.endswith]; intros H.
  - rewrite orb_false_r in H. apply String.eqb_eq in H. subst. now exists "".
  - apply orb_true_iff in H. destruct H as [H|H].
    + apply String.eqb_eq in H. subst. now exists "".
    + destruct (IH H) as [pre ->]. now exists (String c pre).
Qed.

Lemma matches_star p s :
  Fnmatch.matches (Fnmatch.Star :: p) s =
  Fnmatch.matches p s ||
  match s with
  | EmptyString => false
  | String _ s' => Fnmatch.matches (Fnmatch.Star :: p) s'
  end.
Proof. destruct s; reflexivity. Qed.

Lemma matches_star_all s : Fnmatch.matches [Fnmatch.Star] s = true.
Proof.
  induction s as [|c s IH]; [reflexivity|].
  rewrite matches_star, IH. apply orb_true_r.
Qed.

Lemma matches_star_skip p pre s :
  Fnmatch.matches p s = true ->
  Fnmatch.matches (Fnmatch.Star :: p) (pre ++ s) = true.
Proof.
  intros H. induction pre as [|c pre IH]; cbn [append];
    rewrite matches_star.
  - now rewrite H.
  - rewrite IH. apply orb_true_r.
Qed.

(** A name with a dotted suffix matches [*.*]. *)
Lemma dotted_suffix_matches name rest :
  Str.endswith name (String "." rest) = true ->
  Fnmatch.fnmatch name "*.*" = true.
Proof.
  intros H. destruct (endswith_split _ _ H) as [pre ->].
  unfold Fnmatch.fnmatch.
  change (Fnmatch.translate "*.*" None)
    with [Fnmatch.Star; Fnmatch.Lit "."; Fnmatch.Star].
  apply matches_star_skip. cbn [Fnmatch.matches].
  change (Ascii.eqb "." ".") with true. cbn [andb].
  apply matches_star_all.
Qed.

Lemma template_suffix_matches name :
  Str.endswith_any name [".j2"; ".jinja"] = true ->
  Fnmatch.fnmatch name "*.*" = true.
Proof.
  unfold Str.endswith_any. cbn [existsb]. rewrite orb_false_r.
  intros H. apply orb_true_iff in H.
  destruct H as [H|H]; eapply dotted_suffix_matches; exact H.
Qed.

Lemma endswith_any_join a name sufs :
  Str.endswith_any name sufs = true ->
  Str.endswith_any (Path.join a name) sufs = true.
Proof.
  unfold Str.endswith_any. rewrite !existsb_exists.
  intros [suf [Hin H]]. exists suf. split; [exact Hin|].
  now apply endswith_join.
Qed.

(** C5, as the code has it: the render loop calls the environment for the
    files of the template list, once each and for nothing else.  A path of
    the list ends in [.j2] or [.jinja], has no segment named [partials], and
    names an entry below [templates] reached through names that do not
    start with a dot.  Conversely an entry reached through such names whose
    name ends in [.j2] or [.jinja] is in the list when its path does not
    hold the text [partials] at all. *)
Theorem template_selection
    (jinja : tree -> string -> dict -> result string) fs d :
  rendered (trace (render_templates jinja d fs))
    = map (fun f => (Path.relpath f "templates", d)) (template_files fs) /\
  (forall p,
      In p (template_files fs) ->
      Str.endswith_any p [".j2"; ".jinja"] = true /\
      ~ In "partials" (Str.split "/" p) /\
      exists segs name x,
        below_templates fs (segs ++ [name]) x /\
        Forall visible (segs ++ [name]) /\
        p = template_path (segs ++ [name])) /\
  (forall segs name x,
      below_templates fs (segs ++ [name]) x ->
      Forall visible (segs ++ [name]) ->
      Str.endswith_any name [".j2"; ".jinja"] = true ->
      Str.contains "partials" (template_path (segs ++ [name])) = false ->
      In (template_path (segs ++ [name])) (template_files fs)).
Proof.
  split; [apply render_templates_trace|]. split.
  - intros p Hp. unfold template_files in Hp. apply filter_In in Hp.
    destruct Hp as [Hg Ht]. unfold is_template in Ht.
    apply andb_true_iff in Ht. destruct Ht as [Hsuf Hpart].
    apply negb_true_iff in Hpart. split; [exact Hsuf|]. split.
    + intros Hseg. apply segment_contains in Hseg. congruence.
    + rewrite all_templates_spec in Hg.
      destruct (Fs.resolve fs "templates") as [t|] eqn:Et; [|contradiction].
      destruct (rglob_sound "*.*" eq_refl _ _ _ Hg)
        as [segs [name [x [Hr [Hv [_ ->]]]]]].
      exists segs, name, x. repeat split; auto. now exists t.
  - intros segs name x [t [Et Hr]] Hv Hsuf Hpart.
    unfold template_files. apply filter_In. split.
    + rewrite all_templates_spec, Et.
      apply (rglob_complete "*.*" eq_refl _ _ _ _ x Hr Hv).
      now apply template_suffix_matches.
    + unfold is_template. rewrite Hpart. cbn [negb]. rewrite andb_true_r.
      unfold template_path. rewrite fold_left_app. cbn [fold_left].
      now apply endswith_any_join.
Qed.

Lemma template_selection_witness :
  In "templates/index.j2" (template_files fs_hidden_template) /\
  ~ In "partials" (Str.split "/" "templates/index.j2").
Proof.
  destruct (template_selection plain_engine fs_hidden_template [])
    as [_ [Hsound Hcomplete]].
  assert (Hin : In (template_path ([] ++ ["index.j2"]))
                   (template_files fs_hidden_template)).
  { apply (Hcomplete [] "index.j2" (File (Raw "hello"))).
    - eexists. split; [reflexivity|].
      econstructor; [right; left; reflexivity | constructor].
    - repeat constructor.
    - reflexivity.
    - reflexivity. }
  split; [exact Hin|]. apply (Hsound _ Hin).
Defined.

(** C5 as stated fails: [.draft.j2] is a file under the template root with a
    recognized suffix and outside [partials], and it is not rendered,
    because [glob] skips the names that start with a dot. *)
Lemma hidden_template_counterexample :
  spec_template_files fs_hidden_template
    = ["templates/.draft.j2"; "templates/index.j2"] /\
  template_files fs_hidden_template = ["templates/index.j2"] /\
  rendered (trace (render_all plain_engine TNone fs_hidden_template))
    = [("index.j2", [])].
Proof. repeat split; reflexivity. Qed.

(** The filter looks for the text [partials] anywhere in the path: a
    template in a directory [nonpartials] is left out as well. *)
Example partials_is_a_substring_test :
  is_template "templates/nonpartials/a.j2" = false /\
  ~ In "partials" (Str.split "/" "templates/nonpartials/a.j2") /\
  template_files
    [("templates", Dir [("nonpartials", Dir [("a.j2", File (Raw "A"))])])]
  = [].
Proof.
  repeat split; try reflexivity.
  cbn. intuition discriminate.
Qed.

(** ** The name of the output file (C8) *)

(** C8 at a failing input: [replace] rewrites every occurrence of [.j2] in
    the relative path, so the output of [templates/my.j2files/a.j2] goes to
    the directory [site/my.htmlfiles], which mirrors no directory of the
    template tree; the template of the example, [templates/x/a.html.j2],
    goes to [site/x/a.html]. *)
Theorem outname_rewrites_directories :
  outname "templates/my.j2files/a.j2" = "site/my.htmlfiles/a.html" /\
  outname "templates/x/a.html.j2" = "site/x/a.html" /\
  written (trace (render_all plain_engine TNone fs_dotted_directory))
    = ["site/my.htmlfiles/a.html"; "site/x/a.html"] /\
  Fs.resolve (fs_after (render_all plain_engine TNone fs_dotted_directory))
             "site/my.j2files" = None /\
  Fs.resolve (fs_after (render_all plain_engine TNone fs_dotted_directory))
             "site/my.htmlfiles/a.html" = Some (File (Raw "A")).
Proof. repeat split; reflexivity. Qed.

(** ** Exceptions inside the loops *)

Lemma prefix_append pre rest : String.prefix pre (pre ++ rest) = true.
Proof.
  induction pre as [|c pre IH]; [apply prefix_empty|].
  cbn [append String.prefix]. destruct (ascii_dec c c); [exact IH|congruence].
Qed.

Lemma prefix_split pre : forall s,
  String.prefix pre s = true -> exists rest, s = pre ++ rest.
Proof.
  induction pre as [|c pre IH]; intros s H.
  - now exists s.
  - destruct s as [|c' s]; [discriminate|]. cbn [String.prefix] in H.
    destruct (ascii_dec c c') as [<-|]; [|discriminate].
    destruct (IH s H) as [rest ->]. now exists rest.
Qed.

Section Robustness.

Variable jinja : tree -> string -> dict -> result string.

Lemma render_all_ok t fs : res (render_all jinja t fs) = Ok tt.
Proof.
  rewrite render_all_spec. cbv zeta. cbn [res].
  destruct (Str.endswith (first_path t) ".html").
  - apply copy_html_files_ok.
  - rewrite render_templates_spec. reflexivity.
Qed.

Lemma handler_body label (handler : string -> bool -> M unit) :
  (forall src_path is_directory,
      handler src_path is_directory =
      (print (label ++ src_path) ;;
       when (relevant src_path is_directory)
            (render_all jinja (TStr src_path)))) ->
  dispatches jinja label handler.
Proof.
  intros Hbody src_path is_directory fs. rewrite Hbody.
  erewrite bind_det by reflexivity.
  split; intros Hrel; rewrite Hrel; cbn [when].
  - reflexivity.
  - rewrite render_all_ok. reflexivity.
Qed.


(** The three handlers do the same: each prints its own label with the
    path; for a directory event, or a path that is neither below
    [templates/] nor below [data/], nothing else happens and the working
    directory stays as it is; otherwise one build runs, triggered by the
    path. *)
Theorem handlers_dispatch :
  dispatches jinja "Modified: " (on_modified jinja) /\
  dispatches jinja "Created: " (on_created jinja) /\
  dispatches jinja "Deleted: " (on_deleted jinja) /\
  forall src_path is_directory,
    relevant src_path is_directory = true <->
    is_directory = false /\
    exists rest, src_path = "templates/" ++ rest \/ src_path = "data/" ++ rest.
Proof.
  repeat split; try (now apply handler_body).
  - unfold relevant in H. apply andb_true_iff in H.
    destruct H as [H _]. now apply negb_true_iff.
  - unfold relevant in H. apply andb_true_iff in H. destruct H as [_ H].
    apply orb_true_iff in H. unfold Str.startswith in H.
    destruct H as [H|H]; destruct (prefix_split _ _ H) as [rest ->];
      exists rest; auto.
  - intros [Hd [rest [Hp | Hp]]]; subst; unfold relevant, Str.startswith;
      rewrite ?prefix_append; cbn [negb andb orb]; auto using orb_true_r.
Qed.

End Robustness.

(** ** The shape of the trigger *)

(** A list as trigger stands for its first path: apart from the first line,
    which prints the trigger as it was passed, the run is that of the first
    path alone.  (An empty first path is excluded: the list that holds it
    counts as a trigger, the empty path does not.) *)
Theorem list_trigger_is_first_path
    (jinja : tree -> string -> dict -> result string) p rest fs :
  p <> EmptyString ->
  res (render_all jinja (TList (p :: rest)) fs)
    = res (render_all jinja (TStr p) fs) /\
  fs_after (render_all jinja (TList (p :: rest)) fs)
    = fs_after (render_all jinja (TStr p) fs) /\
  tl (trace (render_all jinja (TList (p :: rest)) fs))
    = tl (trace (render_all jinja (TStr p) fs)).
Proof.
  intros Hp. rewrite !render_all_spec. cbv zeta.
  cbn [res fs_after trace tl first_path hd]. unfold trigger_line.
  cbn [truthy first_path hd].
  destruct p as [|c p]; [congruence|]. cbn [Str.is_empty negb].
  repeat split.
Qed.

Lemma list_trigger_is_first_path_witness :
  fs_after (render_all plain_engine (TList ["templates/foo.html"; "x"])
                       fs_data_and_page)
  = fs_after (render_all plain_engine (TStr "templates/foo.html")
                         fs_data_and_page).
Proof.
  apply (list_trigger_is_first_path plain_engine "templates/foo.html" ["x"]
           fs_data_and_page).
  discriminate.
Defined.

(** ** A template that fails *)

Lemma get_and_render_spec
    (jinja : tree -> string -> dict -> result string) name d fs :
  get_and_render jinja name d fs = Outcome (jinja fs name d) fs [Render name d].
Proof. reflexivity. Qed.

Lemma render_one_failure
    (jinja : tree -> string -> dict -> result string) d f fs e :
  jinja fs (Path.relpath f "templates") d = Raise e ->
  render_one jinja d f fs =
  Outcome (Ok tt) fs
          [Render (Path.relpath f "templates") d;
           Print (render_error_line f e); Traceback e].
Proof.
  intros H. unfold render_one.
  erewrite bind_det.
  2:{ unfold try_. rewrite (bind_raise_det _ _ _ _ _ _ (eq_trans
        (get_and_render_spec jinja _ d fs) (f_equal (fun r => Outcome r fs _) H))).
      reflexivity. }
  cbn [res fs_after trace app]. unfold render_error_line.
  destruct (is_template_error e); reflexivity.
Qed.

Lemma for_each_step_in {A} (body : A -> M unit) (ev : event) x l :
  (forall y fs, res (body y fs) = Ok tt) ->
  (forall fs, In ev (trace (body x fs))) ->
  In x l -> forall fs, In ev (trace (for_each l body fs)).
Proof.
  intros Hok Hev. induction l as [|y l IH]; intros Hin fs; [contradiction|].
  cbn [for_each]. rewrite trace_bind, Hok. apply in_or_app.
  destruct Hin as [->|Hin]; [left; apply Hev | right; now apply IH].
Qed.

(** A template on which the environment raises is reported, with its path
    and the exception, as an error of rendering for a [TemplateError] and as
    an unexpected error otherwise; the traceback follows, and the loop goes
    on: the environment is still called for every file of the list. *)
Theorem failing_template_reported
    (jinja : tree -> string -> dict -> result string) d fs f e :
  In f (template_files fs) ->
  (forall fs', jinja fs' (Path.relpath f "templates") d = Raise e) ->
  In (Print (render_error_line f e)) (trace (render_templates jinja d fs)) /\
  In (Traceback e) (trace (render_templates jinja d fs)) /\
  rendered (trace (render_templates jinja d fs))
    = map (fun f => (Path.relpath f "templates", d)) (template_files fs).
Proof.
  intros Hin Hfail. split; [|split].
  - rewrite render_templates_spec. cbn [trace]. apply in_or_app. right. right.
    apply (for_each_step_in (render_one jinja d) _ f); auto.
    + apply render_one_ok.
    + intros fs'. rewrite (render_one_failure _ _ _ _ _ (Hfail fs')).
      right. left. reflexivity.
  - rewrite render_templates_spec. cbn [trace]. apply in_or_app. right. right.
    apply (for_each_step_in (render_one jinja d) _ f); auto.
    + apply render_one_ok.
    + intros fs'. rewrite (render_one_failure _ _ _ _ _ (Hfail fs')).
      right. right. left. reflexivity.
  - apply render_templates_trace.
Qed.

Lemma failing_template_reported_witness :
  In (Print (render_error_line "templates/index.j2"
               (TemplateError "template not found: index.j2")))
     (trace (render_templates failing_engine [] fs_data_and_page)).
Proof.
  apply (failing_template_reported failing_engine [] fs_data_and_page
           "templates/index.j2" (TemplateError "template not found: index.j2")).
  - left. reflexivity.
  - intros fs'. reflexivity.
Defined.

(** ** Output names of ordinary templates *)

Lemma no_dot_head c s :
  Str.contains "." (String c s) = false ->
  c <> "."%char /\ Str.contains "." s = false.
Proof.
  cbn [Str.contains String.prefix]. rewrite prefix_empty.
  destruct (ascii_dec "." c) as [<-|N]; [discriminate|].
  cbn [orb]. intros H. split; [congruence | exact H].
Qed.

(** Text without a dot is copied by the replacement of a dotted suffix. *)
Lemma replace_skips_plain_text old new stem rest :
  Str.contains "." stem = false ->
  Str.replace (stem ++ rest) (String "." old) new
  = stem ++ Str.replace rest (String "." old) new.
Proof.
  cbn [Str.replace]. induction stem as [|c stem IH]; intros H; [reflexivity|].
  destruct (no_dot_head _ _ H) as [Hc Hs].
  cbn [append Str.replace_from String.prefix].
  destruct (ascii_dec "." c) as [E|_]; [congruence|].
  now rewrite (IH Hs).
Qed.

(** For a template whose relative path holds no dot before its suffix, the
    output name is that path below [site] with the suffix, whichever of the
    four it is, turned into [.html]. *)
Theorem outname_strips_suffix f stem suf :
  Path.relpath f "templates" = stem ++ suf ->
  Str.contains "." stem = false ->
  In suf [".j2"; ".jinja"; ".html.j2"; ".html.jinja"] ->
  outname f = Path.join "site" (stem ++ ".html").
Proof.
  intros Hrel Hstem Hsuf. unfold outname. rewrite Hrel.
  cbn [In] in Hsuf.
  destruct Hsuf as [<-|[<-|[<-|[<-|[]]]]];
    repeat (rewrite (replace_skips_plain_text _ _ stem _ Hstem);
            match goal with
            | |- context [Str.replace ?r ?o ?n] =>
                match r with
                | context [stem] => fail 1
                | _ => let v := eval vm_compute in (Str.replace r o n) in
                       change (Str.replace r o n) with v
                end
            end);
    reflexivity.
Qed.

Lemma outname_strips_suffix_witness :
  outname "templates/blog/post.jinja" = Path.join "site" ("blog/post" ++ ".html").
Proof.
  apply (outname_strips_suffix "templates/blog/post.jinja" "blog/post" ".jinja").
  - reflexivity.
  - reflexivity.
  - right. left. reflexivity.
Defined.

(** ** The names of the data files *)

Lemma lower_app a b : lower (a ++ b) = lower a ++ lower b.
Proof. induction a as [|c a IH]; [reflexivity|]. cbn. now rewrite IH. Qed.

Lemma lower_app_inv a b : forall s,
  lower s = a ++ b -> exists s1 s2, s = s1 ++ s2 /\ lower s1 = a /\ lower s2 = b.
Proof.
  induction a as [|c a IH]; intros s H.
  - exists "", s. now repeat split.
  - destruct s as [|c' s]; [discriminate|]. cbn [lower append] in H.
    inversion H as [[Hc Hs]]. destruct (IH s Hs) as [s1 [s2 [-> [H1 H2]]]].
    exists (String c' s1), s2. cbn [lower append]. rewrite H1.
    now repeat split.
Qed.

Lemma endswith_refl s : Str.endswith s s = true.
Proof. destruct s; cbn [Str.endswith]; now rewrite String.eqb_refl. Qed.

Lemma matches_star_iff p s :
  Fnmatch.matches (Fnmatch.Star :: p) s = true <->
  exists pre suf, s = pre ++ suf /\ Fnmatch.matches p suf = true.
Proof.
  split.
  - induction s as [|c s IH]; rewrite matches_star; intros H;
      apply orb_true_iff in H; destruct H as [H|H]; try discriminate.
    + now exists "", "".
    + now exists "", (String c s).
    + destruct (IH H) as [pre [suf [-> Hm]]]. now exists (String c pre), suf.
  - intros [pre [suf [-> H]]]. now apply matches_star_skip.
Qed.

(** A character of a two-letter class is one whose lower case is the lower
    letter of the class. *)
Ltac all_chars c := destruct c as [[] [] [] [] [] [] [] []]; reflexivity.

Lemma dot_lower a : Ascii.eqb "." a = Ascii.eqb (lower_char a) ".".
Proof. all_chars a. Qed.
Lemma class_j a : existsb (Ascii.eqb a) ["j"; "J"]%char = Ascii.eqb (lower_char a) "j".
Proof. all_chars a. Qed.
Lemma class_s a : existsb (Ascii.eqb a) ["s"; "S"]%char = Ascii.eqb (lower_char a) "s".
Proof. all_chars a. Qed.
Lemma class_o a : existsb (Ascii.eqb a) ["o"; "O"]%char = Ascii.eqb (lower_char a) "o".
Proof. all_chars a. Qed.
Lemma class_n a : existsb (Ascii.eqb a) ["n"; "N"]%char = Ascii.eqb (lower_char a) "n".
Proof. all_chars a. Qed.
Lemma class_y a : existsb (Ascii.eqb a) ["y"; "Y"]%char = Ascii.eqb (lower_char a) "y".
Proof. all_chars a. Qed.
Lemma class_a a : existsb (Ascii.eqb a) ["a"; "A"]%char = Ascii.eqb (lower_char a) "a".
Proof. all_chars a. Qed.
Lemma class_m a : existsb (Ascii.eqb a) ["m"; "M"]%char = Ascii.eqb (lower_char a) "m".
Proof. all_chars a. Qed.
Lemma class_l a : existsb (Ascii.eqb a) ["l"; "L"]%char = Ascii.eqb (lower_char a) "l".
Proof. all_chars a. Qed.

Ltac by_letters :=
  repeat match goal with
         | |- context [Ascii.eqb (lower_char ?x) ?y] =>
             destruct (Ascii.eqb (lower_char x) y)
         end;
  reflexivity.

Lemma json_suffix_lower suf :
  Fnmatch.matches
    [Fnmatch.Lit "."; Fnmatch.Class ["j"; "J"]%char;
     Fnmatch.Class ["s"; "S"]%char; Fnmatch.Class ["o"; "O"]%char;
     Fnmatch.Class ["n"; "N"]%char] suf
  = String.eqb (lower suf) ".json".
Proof.
  destruct suf as [|a [|b [|c [|d [|e [|x rest]]]]]];
    cbn [Fnmatch.matches lower String.eqb Str.is_empty];
    rewrite ?dot_lower, ?class_j, ?class_s, ?class_o, ?class_n;
    by_letters.
Qed.

Lemma yaml_suffix_lower suf :
  Fnmatch.matches
    [Fnmatch.Lit "."; Fnmatch.Class ["y"; "Y"]%char;
     Fnmatch.Class ["a"; "A"]%char; Fnmatch.Class ["m"; "M"]%char;
     Fnmatch.Class ["l"; "L"]%char] suf
  = String.eqb (lower suf) ".yaml".
Proof.
  destruct suf as [|a [|b [|c [|d [|e [|x rest]]]]]];
    cbn [Fnmatch.matches lower String.eqb Str.is_empty];
    rewrite ?dot_lower, ?class_y, ?class_a, ?class_m, ?class_l;
    by_letters.
Qed.

Lemma suffix_pattern_lower p ext name :
  (forall suf, Fnmatch.matches p suf = String.eqb (lower suf) ext) ->
  Fnmatch.matches (Fnmatch.Star :: p) name = true <->
  Str.endswith (lower name) ext = true.
Proof.
  intros Hp. rewrite matches_star_iff. split.
  - intros [pre [suf [-> H]]]. rewrite Hp in H. apply String.eqb_eq in H.
    rewrite lower_app, H. apply endswith_append, endswith_refl.
  - intros H. destruct (endswith_split _ _ H) as [pre Hpre].
    destruct (lower_app_inv _ _ _ Hpre) as [s1 [s2 [-> [_ H2]]]].
    exists s1, s2. split; [reflexivity|]. rewrite Hp, H2.
    apply String.eqb_refl.
Qed.

Lemma is_json_name_spec name :
  is_json_name name = true <->
  Glob.ishidden name = false /\ Str.endswith (lower name) ".json" = true.
Proof.
  unfold is_json_name, Fnmatch.fnmatch.
  change (Fnmatch.translate "*.[jJ][sS][oO][nN]" None)
    with [Fnmatch.Star; Fnmatch.Lit "."; Fnmatch.Class ["j"; "J"]%char;
          Fnmatch.Class ["s"; "S"]%char; Fnmatch.Class ["o"; "O"]%char;
          Fnmatch.Class ["n"; "N"]%char].
  rewrite andb_true_iff, negb_true_iff.
  now rewrite (suffix_pattern_lower _ ".json" name json_suffix_lower).
Qed.

Lemma is_yaml_name_spec name :
  is_yaml_name name = true <->
  Glob.ishidden name = false /\ Str.endswith (lower name) ".yaml" = true.
Proof.
  unfold is_yaml_name, Fnmatch.fnmatch.
  change (Fnmatch.translate "*.[yY][aA][mM][lL]" None)
    with [Fnmatch.Star; Fnmatch.Lit "."; Fnmatch.Class ["y"; "Y"]%char;
          Fnmatch.Class ["a"; "A"]%char; Fnmatch.Class ["m"; "M"]%char;
          Fnmatch.Class ["l"; "L"]%char].
  rewrite andb_true_iff, negb_true_iff.
  now rewrite (suffix_pattern_lower _ ".yaml" name yaml_suffix_lower).
Qed.

(** [load_data] opens exactly the entries of the data directory whose name
    does not start with a dot and ends, in any mix of upper and lower case,
    in [.json] or [.yaml]; other spellings such as [.yml] are not data
    files, and neither is a name that starts with a dot. *)
Theorem data_files_by_name fs p :
  In p (opened (trace (load_data fs))) <->
  exists name,
    In name (map fst (data_entries fs)) /\ p = Path.join "data" name /\
    Glob.ishidden name = false /\
    (Str.endswith (lower name) ".json" = true \/
     Str.endswith (lower name) ".yaml" = true).
Proof.
  rewrite opened_load_data. split.
  - intros H. destruct (processing_order_entry _ _ H) as [name [Hin [-> Hm]]].
    exists name. split; [exact Hin|]. split; [reflexivity|].
    apply orb_true_iff in Hm. destruct Hm as [Hm|Hm].
    + apply is_json_name_spec in Hm. tauto.
    + apply is_yaml_name_spec in Hm. tauto.
  - intros [name [Hin [-> [Hv [Hj|Hy]]]]]; apply in_processing_order; auto;
      apply orb_true_iff.
    + left. now apply is_json_name_spec.
    + right. now apply is_yaml_name_spec.
Qed.

Lemma data_files_by_name_witness :
  opened (trace (load_data fs_data_names))
    = ["data/site.JSON"; "data/people.Yaml"] /\
  In "data/people.Yaml" (opened (trace (load_data fs_data_names))).
Proof.
  split; [reflexivity|].
  apply (proj2 (data_files_by_name fs_data_names "data/people.Yaml")).
  exists "people.Yaml". repeat split.
  - cbn. tauto.
  - right. reflexivity.
Defined.

(** ** Paths: splitting, joining and the two derived paths *)

Lemma split_cons s : exists h t, Str.split "/" s = h :: t.
Proof.
  destruct s as [|c s]; cbn [Str.split]; [now exists "", []|].
  destruct (Ascii.eqb c "/"); [now eexists; eexists|].
  destruct (Str.split "/" s); now eexists; eexists.
Qed.

Lemma contains_slash_cons c s :
  Str.contains "/" (String c s) = Ascii.eqb c "/" || Str.contains "/" s.
Proof. cbn [Str.contains]. now rewrite prefix_slash. Qed.

Lemma split_elems_no_slash s :
  Forall (fun c => Str.contains "/" c = false) (Str.split "/" s).
Proof.
  induction s as [|c s IH]; cbn [Str.split]; [repeat constructor|].
  destruct (Ascii.eqb c "/") eqn:E; [constructor; [reflexivity | exact IH]|].
  destruct (Str.split "/" s) as [|h t].
  - repeat constructor. now rewrite contains_slash_cons, E.
  - inversion IH as [|? ? Hh Ht]; subst. constructor; [|exact Ht].
    now rewrite contains_slash_cons, E, Hh.
Qed.

Lemma split_app_slash a b :
  Str.split "/" (a ++ String "/" b)
  = (Str.split "/" a ++ Str.split "/" b)%list.
Proof.
  induction a as [|c a IH]; cbn [append Str.split].
  - reflexivity.
  - rewrite IH. destruct (Ascii.eqb c "/"); [reflexivity|].
    destruct (split_cons a) as [h [t ->]]. reflexivity.
Qed.

Lemma split_join l :
  l <> [] -> Forall (fun c => Str.contains "/" c = false) l ->
  Str.split "/" (Str.join "/" l) = l.
Proof.
  induction l as [|p l IH]; [congruence|]. intros _ H.
  inversion H as [|? ? Hp Hl]; subst. destruct l as [|q l].
  - cbn [Str.join]. now apply split_no_slash.
  - change (Str.join "/" (p :: q :: l))
      with (p ++ String "/" (Str.join "/" (q :: l))).
    rewrite split_app_slash, (split_no_slash Hp), IH; [reflexivity| |exact Hl].
    discriminate.
Qed.

Lemma filter_nonempty_repeat l k :
  filter nonempty (l ++ repeat "" k) = filter nonempty l.
Proof.
  rewrite filter_app. induction k as [|k IH]; [apply app_nil_r|exact IH].
Qed.

(** Stripping trailing slashes drops empty parts at the end only. *)
Lemma rstrip_split s :
  exists k, Str.split "/" s
            = (Str.split "/" (Str.rstrip_slash s) ++ repeat "" k)%list.
Proof.
  induction s as [|c s [k IH]]; [now exists 0|].
  cbn [Str.rstrip_slash Str.split].
  destruct (Ascii.eqb c "/") eqn:E.
  - destruct (Str.rstrip_slash s) as [|c' r] eqn:Er; cbn [Str.is_empty andb].
    + exists (S k). rewrite IH. reflexivity.
    + exists k. cbn [Str.split]. rewrite E, IH. reflexivity.
  - rewrite andb_false_r. exists k. cbn [Str.split]. rewrite E, IH.
    destruct (split_cons (Str.rstrip_slash s)) as [h [t ->]]. reflexivity.
Qed.

Lemma components_rstrip s :
  Path.components (Str.rstrip_slash s) = Path.components s.
Proof.
  unfold Path.components. destruct (rstrip_split s) as [k ->].
  symmetry. apply filter_nonempty_repeat.
Qed.

Lemma components_dirname p :
  Path.components (Path.dirname p)
  = filter nonempty (removelast (Str.split "/" p)).
Proof.
  unfold Path.dirname.
  destruct (split_cons p) as [h [t Hs]].
  assert (Hne : Str.split "/" p <> []) by (rewrite Hs; discriminate).
  pose proof (split_elems_no_slash p) as Hall.
  rewrite (app_removelast_last "" Hne) in Hall |- * at 1.
  rewrite rev_app_distr. cbn [rev app].
  set (front := removelast (Str.split "/" p)) in *.
  apply Forall_app in Hall. destruct Hall as [Hfront _].
  destruct (rev front) as [|x xs] eqn:Er.
  - assert (front = []) as ->.
    { rewrite <- (rev_involutive front), Er. reflexivity. }
    reflexivity.
  - assert (Hf : front <> []).
    { intros ->. discriminate. }
    assert (Hrev : rev (x :: xs) = front).
    { rewrite <- Er. apply rev_involutive. }
    rewrite Hrev. cbv zeta.
    assert (Hhead : Path.components (Str.join "/" front ++ "/")
                    = filter nonempty front).
    { unfold Path.components. rewrite split_app_slash, (split_join _ Hf Hfront).
      apply (filter_nonempty_repeat front 1). }
    destruct (Str.is_empty (Str.rstrip_slash (Str.join "/" front ++ "/")));
      [exact Hhead | now rewrite components_rstrip].
Qed.

Lemma components_site x :
  Path.components ("site/" ++ x) = "site" :: Path.components x.
Proof.
  unfold Path.components. cbn [append Str.split Ascii.eqb Bool.eqb].
  destruct (split_cons x) as [h [t ->]]. reflexivity.
Qed.

Lemma join_site x :
  Str.startswith x "/" = false -> Path.join "site" x = "site/" ++ x.
Proof. intros H. unfold Path.join. rewrite H. reflexivity. Qed.

Lemma dirname_site_rooted x : site_rooted (Path.dirname ("site/" ++ x)).
Proof.
  unfold site_rooted. rewrite components_dirname.
  cbn [append Str.split Ascii.eqb Bool.eqb].
  destruct (split_cons x) as [h [t ->]].
  change (removelast ("site" :: h :: t)) with ("site" :: removelast (h :: t)).
  eexists. reflexivity.
Qed.

Lemma components_parts p : Forall part (Path.components p).
Proof.
  unfold Path.components. apply Forall_forall. intros c Hc.
  apply filter_In in Hc. destruct Hc as [Hin Hne].
  pose proof (split_elems_no_slash p) as H. rewrite Forall_forall in H.
  split; [|now apply H]. intros ->. discriminate.
Qed.

Lemma drop_common_parts p : forall start,
  Forall part p -> Forall part (fst (Path.drop_common p start)).
Proof.
  induction p as [|a p IH]; intros start H; [destruct start; exact H|].
  destruct start as [|b start]; [exact H|]. cbn [Path.drop_common].
  destruct (String.eqb a b); [|exact H].
  apply IH. now inversion H.
Qed.

Lemma join_parts_not_rooted l :
  Forall part l -> Str.startswith (Str.join "/" l) "/" = false.
Proof.
  destruct l as [|p l]; [reflexivity|]. intros H.
  inversion H as [|? ? [Hne Hs] _]; subst.
  destruct p as [|c p]; [congruence|].
  rewrite contains_slash_cons in Hs. apply orb_false_iff in Hs.
  destruct Hs as [Hc _]. unfold Str.startswith.
  destruct l; cbn [Str.join append]; now rewrite prefix_slash.
Qed.

Lemma relpath_shape p start :
  Str.startswith (Path.relpath p start) "/" = false /\
  Path.components (Path.relpath p start) <> [].
Proof.
  unfold Path.relpath.
  pose proof (drop_common_parts (Path.components p) (Path.components start)
                (components_parts p)) as Hrest.
  destruct (Path.drop_common (Path.components p) (Path.components start))
    as [rest up]. cbn [fst] in Hrest.
  assert (Hl : Forall part (map (fun _ : string => "..") up ++ rest)%list).
  { apply Forall_app. split; [|exact Hrest].
    apply Forall_forall. intros c Hc. apply in_map_iff in Hc.
    destruct Hc as [? [<- _]]. split; [discriminate | reflexivity]. }
  destruct (map (fun _ : string => "..") up ++ rest)%list as [|c l] eqn:El.
  - split; [reflexivity | discriminate].
  - split; [now apply join_parts_not_rooted|].
    unfold Path.components. rewrite split_join.
    + inversion Hl as [|? ? [Hne _] _]; subst. cbn [filter].
      destruct c; [congruence | discriminate].
    + discriminate.
    + eapply Forall_impl; [|exact Hl]. now intros ? [_ ?].
Qed.

Lemma destination_spec f :
  destination f = "site/" ++ Path.relpath f "templates" /\
  exists c cs, Path.components (destination f) = "site" :: c :: cs.
Proof.
  destruct (relpath_shape f "templates") as [Hr Hc].
  unfold destination. rewrite (join_site _ Hr). split; [reflexivity|].
  rewrite components_site.
  destruct (Path.components (Path.relpath f "templates")) as [|c cs];
    [congruence|]. now exists c, cs.
Qed.

Lemma replace_not_rooted s o old new :
  Str.startswith s "/" = false ->
  Str.startswith (Str.replace s (String o old) (String "." new)) "/" = false.
Proof.
  unfold Str.startswith. cbn [Str.replace].
  destruct s as [|c s]; [reflexivity|]. cbn [Str.replace_from].
  destruct (String.prefix (String o old) (String c s)); [reflexivity|].
  now rewrite !prefix_slash.
Qed.

Lemma outname_spec f :
  exists x, outname f = "site/" ++ x.
Proof.
  unfold outname. eexists. apply join_site.
  repeat apply replace_not_rooted. apply relpath_shape.
Qed.

(** ** The paths a build writes to *)

Lemma site_rooted_site : site_rooted "site".
Proof. now exists []. Qed.

Lemma site_rooted_destination f : site_rooted (destination f).
Proof.
  destruct (destination_spec f) as [_ [c [cs H]]]. now exists (c :: cs).
Qed.

Lemma site_rooted_destination_dir f : site_rooted (Path.dirname (destination f)).
Proof.
  rewrite (proj1 (destination_spec f)). apply dirname_site_rooted.
Qed.

Lemma site_rooted_outname f : site_rooted (outname f).
Proof.
  destruct (outname_spec f) as [x ->]. unfold site_rooted.
  rewrite components_site. now eexists.
Qed.

Lemma site_rooted_outname_dir f : site_rooted (Path.dirname (outname f)).
Proof. destruct (outname_spec f) as [x ->]. apply dirname_site_rooted. Qed.

Lemma components_templates x :
  Path.components ("templates/" ++ x) = "templates" :: Path.components x.
Proof.
  unfold Path.components. cbn [append Str.split Ascii.eqb Bool.eqb].
  destruct (split_cons x) as [h [t ->]]. reflexivity.
Qed.

Lemma components_data_prefix x :
  Path.components ("data/" ++ x) = "data" :: Path.components x.
Proof.
  unfold Path.components. cbn [append Str.split Ascii.eqb Bool.eqb].
  destruct (split_cons x) as [h [t ->]]. reflexivity.
Qed.

Lemma site_rooted_irrelevant p is_directory :
  site_rooted p -> relevant p is_directory = false.
Proof.
  intros [cs Hp]. destruct (relevant p is_directory) eqn:E; [|reflexivity].
  unfold relevant in E. apply andb_true_iff in E. destruct E as [_ E].
  apply orb_true_iff in E. unfold Str.startswith in E.
  destruct E as [E|E]; destruct (prefix_split _ _ E) as [rest ->].
  - rewrite components_templates in Hp. discriminate.
  - rewrite components_data_prefix in Hp. discriminate.
Qed.

Lemma emits_weaken {A} (P Q : event -> Prop) (m : M A) :
  (forall e, P e -> Q e) -> emits P m -> emits Q m.
Proof. intros H Hm fs. eapply Forall_impl; [exact H | apply Hm]. Qed.

Lemma emits_get_and_render P
    (jinja : tree -> string -> dict -> result string) name d :
  P (Render name d) -> emits P (get_and_render jinja name d).
Proof. intros H fs. rewrite get_and_render_spec. now constructor. Qed.

#[export] Hint Resolve site_rooted_site site_rooted_destination
  site_rooted_destination_dir site_rooted_outname site_rooted_outname_dir
  emits_get_and_render : steps.
#[export] Hint Extern 1 (site_step _) =>
  (unfold site_step; cbn [touched]; first [exact I | solve [auto with steps]])
  : steps.

Lemma load_data_site_steps : emits site_step load_data.
Proof.
  apply (emits_weaken load_step); [|apply load_data_steps].
  intros [] H; try contradiction; exact I.
Qed.

Lemma copy_html_files_site_steps : emits site_step copy_html_files.
Proof. unfold copy_html_files. steps. unfold copy_one. cbv zeta. steps. Qed.

Lemma render_templates_site_steps
    (jinja : tree -> string -> dict -> result string) d :
  emits site_step (render_templates jinja d).
Proof. unfold render_templates. steps. unfold render_one. steps. Qed.

Lemma render_all_site_steps
    (jinja : tree -> string -> dict -> result string) t :
  emits site_step (render_all jinja t).
Proof.
  unfold render_all. apply emits_bind; [steps|]. intros _.
  apply emits_bind; [apply load_data_site_steps|]. intros d.
  unfold render_all_templates. destruct (truthy t).
  - apply emits_bind; [steps|]. intros _.
    destruct (Str.endswith (first_path t) ".html").
    + apply copy_html_files_site_steps.
    + apply render_templates_site_steps.
  - apply render_templates_site_steps.
Qed.

(** Every path that a build passes to [os.makedirs], [os.remove],
    [shutil.copy] (as destination) or [open(..., 'w')] has [site] as its
    first component, and the test of the change handlers, which asks for a
    path that starts with [templates/] or [data/], is false for it.  This
    is a statement about the paths as texts. *)
Theorem build_writes_site_paths
    (jinja : tree -> string -> dict -> result string) t fs e p :
  In e (trace (render_all jinja t fs)) ->
  touched e = Some p ->
  site_rooted p /\ forall is_directory, relevant p is_directory = false.
Proof.
  intros Hin Ht.
  pose proof (render_all_site_steps jinja t fs) as H.
  rewrite Forall_forall in H. specialize (H e Hin).
  unfold site_step in H. rewrite Ht in H. split; [exact H|].
  intros d. now apply site_rooted_irrelevant.
Qed.

Lemma build_writes_site_paths_witness :
  site_rooted "site/foo.html" /\
  forall is_directory, relevant "site/foo.html" is_directory = false.
Proof.
  apply (build_writes_site_paths plain_engine (TStr "templates/foo.html")
           fs_data_and_page (Copy "templates/foo.html" "site/foo.html")).
  - vm_compute. tauto.
  - reflexivity.
Defined.

(** ** The working directory outside [site] *)

Lemma outside_site_refl fs : outside_site fs fs.
Proof. split; auto. Qed.

Lemma outside_site_trans fs1 fs2 fs3 :
  outside_site fs1 fs2 -> outside_site fs2 fs3 -> outside_site fs1 fs3.
Proof.
  intros [H1 S1] [H2 S2]. split.
  - intros name Hn. now rewrite H2, H1.
  - auto.
Qed.

Lemma keeps_bind {A B} (m : M A) (k : A -> M B) :
  keeps outside_site m -> (forall a, keeps outside_site (k a)) ->
  keeps outside_site (bind m k).
Proof.
  intros Hm Hk fs. unfold bind. specialize (Hm fs).
  destruct (res (m fs)); cbn [fs_after]; [|exact Hm].
  eapply outside_site_trans; [exact Hm | apply Hk].
Qed.

Lemma keeps_same {A} (m : M A) :
  (forall fs, fs_after (m fs) = fs) -> keeps outside_site m.
Proof. intros H fs. rewrite H. apply outside_site_refl. Qed.

Lemma keeps_when b m : keeps outside_site m -> keeps outside_site (when b m).
Proof. intros H. destruct b; [exact H | now apply keeps_same]. Qed.

Lemma lookup_set_entry_same name x es :
  Fs.lookup name (Fs.set_entry name x es) = Some x.
Proof.
  induction es as [|[n y] es IH]; cbn [Fs.set_entry Fs.lookup].
  - now rewrite String.eqb_refl.
  - destruct (String.eqb name n) eqn:E; cbn [Fs.lookup]; rewrite E; auto.
Qed.

Lemma lookup_del_entry_other name n es :
  name <> n -> Fs.lookup name (Fs.del_entry n es) = Fs.lookup name es.
Proof.
  intros Hne. induction es as [|[m y] es IH]; [reflexivity|].
  cbn [Fs.del_entry Fs.lookup]. destruct (String.eqb n m) eqn:E.
  - apply String.eqb_eq in E. subst m.
    destruct (String.eqb name n) eqn:E'; [|reflexivity].
    apply String.eqb_eq in E'. contradiction.
  - cbn [Fs.lookup]. now rewrite IH.
Qed.

Lemma outside_site_set_entry x fs :
  outside_site fs (Fs.set_entry "site" x fs).
Proof.
  split.
  - intros name Hn. now apply lookup_set_entry_other.
  - intros _. rewrite lookup_set_entry_same. discriminate.
Qed.

Lemma mkdirs_outside cs fs fs' :
  Fs.mkdirs ("site" :: cs) (Dir fs) = Some (Dir fs') -> outside_site fs fs'.
Proof.
  cbn [Fs.mkdirs]. destruct (Fs.mkdirs cs _) as [child'|]; [|discriminate].
  intros H. inversion H. apply outside_site_set_entry.
Qed.

Lemma put_outside cs x fs fs' :
  Fs.put ("site" :: cs) x (Dir fs) = Some (Dir fs') -> outside_site fs fs'.
Proof.
  cbn [Fs.put]. destruct cs as [|c cs].
  - intros H. inversion H. apply outside_site_set_entry.
  - destruct (Fs.lookup "site" fs) as [child|]; [|discriminate].
    destruct (Fs.put (c :: cs) x child); [|discriminate].
    intros H. inversion H. apply outside_site_set_entry.
Qed.

Lemma del_step a c cs es :
  Fs.del (a :: c :: cs) (Dir es) =
  match Fs.lookup a es with
  | Some child =>
      match Fs.del (c :: cs) child with
      | Some child' => Some (Dir (Fs.set_entry a child' es))
      | None => None
      end
  | None => None
  end.
Proof. reflexivity. Qed.

Lemma del_outside c cs fs fs' :
  Fs.del ("site" :: c :: cs) (Dir fs) = Some (Dir fs') -> outside_site fs fs'.
Proof.
  rewrite del_step. destruct (Fs.lookup "site" fs) as [child|]; [|discriminate].
  destruct (Fs.del (c :: cs) child); [|discriminate].
  intros H. inversion H. apply outside_site_set_entry.
Qed.

Lemma emit_then_same (e : event) (step : tree -> outcome unit) :
  (forall fs, outside_site fs (fs_after (step fs))) ->
  keeps outside_site (emit e ;; step).
Proof.
  intros H. apply keeps_bind; [now apply keeps_same|]. intros _. exact H.
Qed.

Lemma keeps_makedirs p : site_rooted p -> keeps outside_site (makedirs p).
Proof.
  intros [cs Hp]. apply emit_then_same. intros fs. rewrite Hp.
  destruct (Fs.resolve fs p); [apply outside_site_refl|].
  destruct (Fs.mkdirs ("site" :: cs) (Dir fs)) as [[?|fs']|] eqn:E;
    cbn [fs_after]; try apply outside_site_refl.
  now apply (mkdirs_outside cs).
Qed.

Lemma keeps_remove p :
  (exists c cs, Path.components p = "site" :: c :: cs) ->
  keeps outside_site (remove p).
Proof.
  intros [c [cs Hp]]. apply emit_then_same. intros fs. rewrite Hp.
  destruct (Fs.resolve fs p) as [[?|?]|]; try apply outside_site_refl.
  destruct (Fs.del ("site" :: c :: cs) (Dir fs)) as [[?|fs']|] eqn:E;
    cbn [fs_after]; try apply outside_site_refl.
  now apply (del_outside c cs).
Qed.

Lemma store_outside p c fs :
  site_rooted p -> outside_site fs (fs_after (store p c fs)).
Proof.
  intros [cs Hp]. unfold store. rewrite Hp.
  assert (H : outside_site fs
            (fs_after
               match Fs.put ("site" :: cs) (File c) (Dir fs) with
               | Some (Dir fs') => Outcome (Ok tt) fs' []
               | _ =>
                   Outcome (Raise (if Fs.through_file ("site" :: cs) (Dir fs)
                                   then NotADirectoryError p
                                   else FileNotFoundError p)) fs []
               end)).
  { destruct (Fs.put ("site" :: cs) (File c) (Dir fs)) as [[?|fs']|] eqn:E;
      cbn [fs_after]; try apply outside_site_refl.
    now apply (put_outside cs (File c)). }
  destruct (Fs.resolve fs p) as [[?|?]|]; try exact H.
  apply outside_site_refl.
Qed.

Lemma last_in {A} (l : list A) d : l <> [] -> In (last l d) l.
Proof.
  induction l as [|x l IH]; [congruence|]. intros _.
  destruct l as [|y l]; [now left|]. right. apply IH. discriminate.
Qed.

Lemma basename_not_rooted p : Str.startswith (Path.basename p) "/" = false.
Proof.
  unfold Path.basename. apply no_slash_not_rooted.
  pose proof (split_elems_no_slash p) as H. rewrite Forall_forall in H.
  apply H. apply last_in. destruct (split_cons p) as [h [t ->]]. discriminate.
Qed.

Lemma components_app_slash a b :
  Path.components (a ++ String "/" b)
  = (Path.components a ++ Path.components b)%list.
Proof. unfold Path.components. now rewrite split_app_slash, filter_app. Qed.

Lemma append_assoc a b c : (a ++ b) ++ c = a ++ (b ++ c).
Proof. induction a as [|x a IH]; [reflexivity|]. cbn. now rewrite IH. Qed.

Lemma join_site_rooted a b :
  site_rooted a -> Str.startswith b "/" = false -> site_rooted (Path.join a b).
Proof.
  intros [cs Ha] Hb. unfold Path.join. rewrite Hb.
  destruct (Str.is_empty a) eqn:Ea.
  - destruct a; [discriminate Ha | discriminate Ea].
  - cbn [orb]. destruct (Str.endswith a "/") eqn:Es.
    + destruct (endswith_split _ _ Es) as [pre ->].
      rewrite append_assoc. cbn [append].
      unfold site_rooted. rewrite components_app_slash.
      change (pre ++ "/") with (pre ++ String "/" "") in Ha.
      rewrite components_app_slash in Ha.
      change (Path.components "") with (@nil string) in Ha.
      rewrite app_nil_r in Ha. rewrite Ha. now eexists.
    + unfold site_rooted. cbn [append]. rewrite components_app_slash, Ha.
      now eexists.
Qed.

Lemma keeps_copy src dst : site_rooted dst -> keeps outside_site (copy src dst).
Proof.
  intros Hd. apply emit_then_same. intros fs. cbv zeta.
  assert (Hd' : site_rooted
            match Fs.resolve fs dst with
            | Some (Dir _) => Path.join dst (Path.basename src)
            | _ => dst
            end).
  { destruct (Fs.resolve fs dst) as [[?|?]|]; auto.
    apply join_site_rooted; [exact Hd | apply basename_not_rooted]. }
  destruct (same_file fs src _); [apply outside_site_refl|].
  destruct (Fs.resolve fs src) as [[c|?]|]; try apply outside_site_refl.
  now apply store_outside.
Qed.

(** ** What [copy_html_files] copies *)

#[export] Hint Extern 1 (copies_of _ _) => (cbn [copies_of]; auto) : steps.

Lemma copy_one_copies_of f : emits (copies_of f) (copy_one f).
Proof. unfold copy_one. cbv zeta. steps. Qed.

Lemma copied_in tr src dst :
  In (src, dst) (copied tr) -> In (Copy src dst) tr.
Proof.
  induction tr as [|e tr IH]; [intros []|].
  destruct e; cbn [copied]; intros H; try (right; now apply IH).
  destruct H as [H|H]; [inversion H; now left | right; now apply IH].
Qed.

Lemma copy_loop_copies l : forall fs src dst,
  In (src, dst) (copied (trace (for_each l copy_one fs))) ->
  In src l /\ dst = destination src.
Proof.
  induction l as [|f l IH]; intros fs src dst H; [contradiction|].
  cbn [for_each] in H. rewrite trace_bind, copy_one_ok, copied_app in H.
  apply in_app_or in H. destruct H as [H|H].
  - apply copied_in in H.
    pose proof (copy_one_copies_of f fs) as Hf. rewrite Forall_forall in Hf.
    destruct (Hf _ H) as [-> ->]. split; [now left | reflexivity].
  - destruct (IH _ _ _ H) as [Hin ->]. split; [now right | reflexivity].
Qed.

Lemma html_suffix_matches name :
  Fnmatch.fnmatch name "*.html" = true -> Str.endswith name ".html" = true.
Proof.
  unfold Fnmatch.fnmatch.
  change (Fnmatch.translate "*.html" None)
    with [Fnmatch.Star; Fnmatch.Lit "."; Fnmatch.Lit "h"; Fnmatch.Lit "t";
          Fnmatch.Lit "m"; Fnmatch.Lit "l"].
  rewrite matches_star_iff. intros [pre [suf [-> H]]].
  apply endswith_append.
  destruct suf as [|a [|b [|c [|d [|e [|x rest]]]]]];
    cbn [Fnmatch.matches Str.is_empty] in H;
    repeat (apply andb_true_iff in H; destruct H as [? H]);
    try discriminate.
  repeat match goal with
         | H : Ascii.eqb _ _ = true |- _ => apply Ascii.eqb_eq in H; subst
         end.
  reflexivity.
Qed.

(** [copy_html_files] copies pages only, and each to its mirror: the source
    of every copy is an entry below [templates], reached through names that
    do not start with a dot, whose name ends in [.html], and the destination
    is the relative path of the source below [site]. *)
Theorem copies_only_pages fs src dst :
  In (src, dst) (copied (trace (copy_html_files fs))) ->
  dst = "site/" ++ Path.relpath src "templates" /\
  exists segs name x,
    below_templates fs (segs ++ [name]) x /\
    Forall visible (segs ++ [name]) /\
    Str.endswith name ".html" = true /\
    src = template_path (segs ++ [name]).
Proof.
  unfold copy_html_files. rewrite site_prefix. cbn [trace].
  rewrite copied_app. destruct (site_trace_quiet fs) as [_ [-> _]].
  cbn [app]. unfold bind at 1. rewrite glob_spec. cbn [res fs_after trace].
  cbn [app copied]. intros H.
  destruct (copy_loop_copies _ _ _ _ H) as [Hin ->].
  split; [apply destination_spec|].
  rewrite html_files_spec, resolve_templates_site_ready in Hin.
  destruct (Fs.resolve fs "templates") as [t|] eqn:Et; [|contradiction].
  destruct (rglob_sound "*.html" eq_refl _ _ _ Hin)
    as [segs [name [x [Hr [Hv [Hm ->]]]]]].
  exists segs, name, x. repeat split; auto.
  - now exists t.
  - now apply html_suffix_matches.
Qed.

Lemma copies_only_pages_witness :
  "site/foo.html" = "site/" ++ Path.relpath "templates/foo.html" "templates".
Proof.
  apply (copies_only_pages fs_data_and_page "templates/foo.html"
           "site/foo.html").
  vm_compute. tauto.
Defined.

(** ** What the lines [Rendered] and [Copied] say *)

Lemma in_bind_inv {A B} (m : M A) (k : A -> M B) fs ev :
  In ev (trace (bind m k fs)) ->
  In ev (trace (m fs)) \/
  exists a, res (m fs) = Ok a /\ In ev (trace (k a (fs_after (m fs)))).
Proof.
  rewrite trace_bind. intros H. apply in_app_or in H.
  destruct H as [H|H]; [now left|].
  destruct (res (m fs)) as [a|e]; [right; now exists a | contradiction].
Qed.

Lemma bind_ok_after {A B} (m : M A) (k : A -> M B) fs a :
  res (m fs) = Ok a ->
  fs_after (bind m k fs) = fs_after (k a (fs_after (m fs))) /\
  res (bind m k fs) = res (k a (fs_after (m fs))).
Proof. intros H. unfold bind. rewrite H. now split. Qed.

Lemma put_one c x es :
  Fs.put [c] x (Dir es) = Some (Dir (Fs.set_entry c x es)).
Proof. reflexivity. Qed.

Lemma put_step a c cs x es :
  Fs.put (a :: c :: cs) x (Dir es) =
  match Fs.lookup a es with
  | Some child =>
      match Fs.put (c :: cs) x child with
      | Some child' => Some (Dir (Fs.set_entry a child' es))
      | None => None
      end
  | None => None
  end.
Proof. reflexivity. Qed.

Lemma put_file comps x c : Fs.put comps x (File c) = None.
Proof. destruct comps as [|? [|? ?]]; reflexivity. Qed.

(** What was put at a path is what the path resolves to. *)
Lemma put_walk comps x : forall n n',
  Fs.put comps x n = Some n' -> Fs.walk n' comps = Some x.
Proof.
  induction comps as [|a comps IH]; intros n n' H; [discriminate|].
  destruct n as [c|es]; [now rewrite put_file in H|].
  destruct comps as [|c cs].
  - rewrite put_one in H. inversion H. cbn [Fs.walk].
    now rewrite lookup_set_entry_same.
  - rewrite put_step in H.
    destruct (Fs.lookup a es) as [child|]; [|discriminate].
    destruct (Fs.put (c :: cs) x child) as [child'|] eqn:E; [|discriminate].
    inversion H. cbn [Fs.walk]. rewrite lookup_set_entry_same.
    apply (IH child child' E).
Qed.

Lemma store_ok p c fs :
  res (store p c fs) = Ok tt ->
  Fs.resolve (fs_after (store p c fs)) p = Some (File c).
Proof.
  unfold store.
  destruct (Fs.resolve fs p) as [[?|?]|]; try discriminate;
    (destruct (Fs.put (Path.components p) (File c) (Dir fs))
       as [[?|fs']|] eqn:E; try discriminate;
     intros _; cbn [fs_after]; unfold Fs.resolve;
     now apply (put_walk _ _ _ _ E)).
Qed.

Lemma open_write_spec p text fs :
  open_write p text fs =
  Outcome (res (store p (Raw text) fs)) (fs_after (store p (Raw text) fs))
          (Write p text :: trace (store p (Raw text) fs)).
Proof. reflexivity. Qed.

Lemma store_trace p c fs : trace (store p c fs) = [].
Proof.
  unfold store. destruct (Fs.resolve fs p) as [[?|?]|];
    try destruct (Fs.put _ _ _) as [[?|?]|]; reflexivity.
Qed.

Lemma makedirs_trace p fs : trace (makedirs p fs) = [Makedirs p].
Proof.
  unfold makedirs. rewrite trace_bind. cbn [emit res fs_after trace app].
  destruct (Fs.resolve fs p); [reflexivity|].
  destruct (Path.components p); [reflexivity|].
  destruct (Fs.mkdirs _ _) as [[?|?]|]; reflexivity.
Qed.

Lemma when_makedirs_no_print b p fs line :
  ~ In (Print line) (trace (when b (makedirs p) fs)).
Proof.
  destruct b; cbn [when]; [|intros []].
  rewrite makedirs_trace. intros [H|[]]. discriminate.
Qed.

Lemma trace_try {A} (m : M A) fs : trace (try_ m fs) = trace (m fs).
Proof. reflexivity. Qed.

Lemma res_try {A} (m : M A) fs : res (try_ m fs) = Ok (res (m fs)).
Proof. reflexivity. Qed.

Lemma fs_after_try {A} (m : M A) fs : fs_after (try_ m fs) = fs_after (m fs).
Proof. reflexivity. Qed.

(** When an iteration of the render loop prints that it rendered a template,
    the environment has returned a text for it and the output file holds
    exactly that text. *)
Theorem rendered_line_is_true
    (jinja : tree -> string -> dict -> result string) d f fs :
  In (Print ("Rendered " ++ f ++ " to " ++ outname f))
     (trace (render_one jinja d f fs)) ->
  exists output,
    jinja fs (Path.relpath f "templates") d = Ok output /\
    Fs.resolve (fs_after (render_one jinja d f fs)) (outname f)
      = Some (File (Raw output)).
Proof.
  unfold render_one.
  match goal with |- context [try_ ?body] => set (BODY := body) end.
  intros H. apply in_bind_inv in H. destruct H as [H|[r [Hr H]]].
  - (* the line comes from the body of the [try] *)
    rewrite trace_try in H. unfold BODY in H.
    apply in_bind_inv in H. destruct H as [H|[output [HG H]]].
    { rewrite get_and_render_trace in H. destruct H as [H|[]]. discriminate. }
    apply in_bind_inv in H. destruct H as [H|[ex [HP H]]].
    { rewrite path_exists_spec in H. destruct H. }
    apply in_bind_inv in H. destruct H as [H|[u [HW H]]].
    { now apply when_makedirs_no_print in H. }
    apply in_bind_inv in H. destruct H as [H|[u' [HS H]]].
    { rewrite open_write_spec in H. cbn [trace] in H.
      rewrite store_trace in H. destruct H as [H|[]]. discriminate. }
    exists output. split.
    { rewrite get_and_render_spec in HG. exact HG. }
    assert (Hres : res (BODY fs) = Ok tt).
    { unfold BODY.
      rewrite (proj2 (bind_ok_after _ _ _ _ HG)),
        (proj2 (bind_ok_after _ _ _ _ HP)),
        (proj2 (bind_ok_after _ _ _ _ HW)),
        (proj2 (bind_ok_after _ _ _ _ HS)).
      reflexivity. }
    assert (HT : res (try_ BODY fs) = Ok (Ok tt)).
    { now rewrite res_try, Hres. }
    rewrite (proj1 (bind_ok_after _ _ _ _ HT)). cbn [ret fs_after].
    rewrite fs_after_try. unfold BODY.
    rewrite (proj1 (bind_ok_after _ _ _ _ HG)),
      (proj1 (bind_ok_after _ _ _ _ HP)),
      (proj1 (bind_ok_after _ _ _ _ HW)),
      (proj1 (bind_ok_after _ _ _ _ HS)).
    change (fs_after (print ?line ?x)) with x.
    rewrite open_write_spec in HS |- *. cbn [res fs_after] in HS |- *.
    destruct u'. now apply store_ok.
  - (* the handlers print other lines *)
    exfalso. destruct r as [u|e]; [destruct H|].
    apply in_bind_inv in H.
    destruct H as [H|[u [_ [H|[]]]]]; [|discriminate].
    destruct (is_template_error e); destruct H as [H|[]]; discriminate.
Qed.

Lemma rendered_line_is_true_witness :
  exists output,
    plain_engine fs_data_and_page (Path.relpath "templates/index.j2" "templates")
                 [] = Ok output /\
    Fs.resolve (fs_after (render_one plain_engine [] "templates/index.j2"
                                     fs_data_and_page))
               (outname "templates/index.j2")
      = Some (File (Raw output)).
Proof.
  apply (rendered_line_is_true plain_engine [] "templates/index.j2"
           fs_data_and_page).
  vm_compute. tauto.
Defined.

Lemma unique_names_dir es :
  unique_names (Dir es) <->
  NoDup (map fst es) /\ Forall (fun e => unique_names (snd e)) es.
Proof.
  cbn [unique_names]. split; intros [H1 H2]; (split; [exact H1|]).
  - induction es as [|[n x] es IH]; [constructor|].
    destruct H2 as [Hx Hes]. constructor; [exact Hx|].
    apply IH; [now inversion H1 | exact Hes].
  - induction es as [|[n x] es IH]; [exact I|].
    inversion H2 as [|? ? Hx Hes]; subst. split; [exact Hx|].
    apply IH; [now inversion H1 | exact Hes].
Qed.

Lemma lookup_in name x es : Fs.lookup name es = Some x -> In (name, x) es.
Proof.
  induction es as [|[n y] es IH]; [discriminate|]. cbn [Fs.lookup].
  destruct (String.eqb name n) eqn:E.
  - apply String.eqb_eq in E. intros H. inversion H. subst. now left.
  - intros H. right. now apply IH.
Qed.

Lemma lookup_none name es :
  Fs.lookup name es = None <-> ~ In name (map fst es).
Proof.
  induction es as [|[n y] es IH]; cbn [Fs.lookup map fst In]; [tauto|].
  destruct (String.eqb name n) eqn:E.
  - apply String.eqb_eq in E. subst. split; [discriminate | tauto].
  - apply String.eqb_neq in E. rewrite IH. split; intros H; [|tauto].
    intros [Hn|Hin]; [congruence | tauto].
Qed.

Lemma set_entry_names name x es :
  map fst (Fs.set_entry name x es) =
  match Fs.lookup name es with
  | Some _ => map fst es
  | None => (map fst es ++ [name])%list
  end.
Proof.
  induction es as [|[n y] es IH]; [reflexivity|].
  cbn [Fs.set_entry Fs.lookup]. destruct (String.eqb name n); [reflexivity|].
  cbn [map fst]. rewrite IH. now destruct (Fs.lookup name es).
Qed.

Lemma set_entry_children (P : node -> Prop) name x es :
  P x -> Forall (fun e => P (snd e)) es ->
  Forall (fun e => P (snd e)) (Fs.set_entry name x es).
Proof.
  intros Hx. induction 1 as [|[n y] es Hy Hes IH]; cbn [Fs.set_entry].
  - now repeat constructor.
  - destruct (String.eqb name n); constructor; auto.
Qed.

Lemma set_entry_unique name x es :
  unique_names (Dir es) -> unique_names x ->
  unique_names (Dir (Fs.set_entry name x es)).
Proof.
  rewrite !unique_names_dir. intros [Hnd Hall] Hx. split.
  - rewrite set_entry_names. destruct (Fs.lookup name es) eqn:E; [exact Hnd|].
    apply lookup_none in E. apply NoDup_app; [exact Hnd | repeat constructor; auto |].
    intros a Ha [<-|[]]. contradiction.
  - now apply set_entry_children.
Qed.

Lemma unique_child name child es :
  unique_names (Dir es) -> Fs.lookup name es = Some child ->
  unique_names child.
Proof.
  rewrite unique_names_dir. intros [_ Hall] Hl. apply lookup_in in Hl.
  rewrite Forall_forall in Hall. apply (Hall (name, child) Hl).
Qed.

Lemma mkdirs_step c cs es :
  Fs.mkdirs (c :: cs) (Dir es) =
  match Fs.mkdirs cs (match Fs.lookup c es with
                      | Some child => child
                      | None => Dir []
                      end) with
  | Some child' => Some (Dir (Fs.set_entry c child' es))
  | None => None
  end.
Proof. reflexivity. Qed.

Lemma mkdirs_unique comps : forall n n',
  unique_names n -> Fs.mkdirs comps n = Some n' -> unique_names n'.
Proof.
  induction comps as [|c cs IH]; intros n n' Hu H.
  - destruct n; inversion H; subst; exact Hu.
  - destruct n as [?|es]; [discriminate|]. rewrite mkdirs_step in H.
    destruct (Fs.mkdirs cs _) as [child'|] eqn:E; [|discriminate].
    inversion H. apply set_entry_unique; [exact Hu|].
    apply (IH (match Fs.lookup c es with
               | Some child => child
               | None => Dir []
               end) child'); [|exact E].
    destruct (Fs.lookup c es) as [child|] eqn:El.
    + eapply unique_child; eassumption.
    + apply unique_names_dir. split; constructor.
Qed.

Lemma lookup_del_entry_same name es :
  NoDup (map fst es) -> Fs.lookup name (Fs.del_entry name es) = None.
Proof.
  induction es as [|[n y] es IH]; [reflexivity|]. cbn [map fst Fs.del_entry].
  intros Hnd. inversion Hnd as [|? ? Hnot Hnd']; subst.
  destruct (String.eqb name n) eqn:E.
  - apply String.eqb_eq in E. subst. now apply lookup_none.
  - cbn [Fs.lookup]. rewrite E. now apply IH.
Qed.

Lemma del_walk comps : forall n n',
  unique_names n -> Fs.del comps n = Some n' -> Fs.walk n' comps = None.
Proof.
  induction comps as [|a comps IH]; intros n n' Hu H; [discriminate|].
  destruct n as [?|es]; [destruct comps; discriminate|].
  destruct comps as [|c cs].
  - inversion H. cbn [Fs.walk].
    rewrite lookup_del_entry_same; [reflexivity|].
    now apply unique_names_dir in Hu.
  - rewrite del_step in H.
    destruct (Fs.lookup a es) as [child|] eqn:El; [|discriminate].
    destruct (Fs.del (c :: cs) child) as [child'|] eqn:E; [|discriminate].
    inversion H. cbn [Fs.walk]. rewrite lookup_set_entry_same.
    apply (IH child child'); [|exact E]. eapply unique_child; eassumption.
Qed.

Lemma when_makedirs_unique b p fs :
  unique_names (Dir fs) ->
  unique_names (Dir (fs_after (when b (makedirs p) fs))).
Proof.
  intros Hu. destruct b; [|exact Hu]. cbn [when]. unfold makedirs.
  erewrite bind_det by reflexivity. cbn [fs_after].
  destruct (Fs.resolve fs p); [exact Hu|].
  destruct (Path.components p) as [|c cs]; [exact Hu|].
  destruct (Fs.mkdirs (c :: cs) (Dir fs)) as [[?|fs']|] eqn:E; try exact Hu.
  cbn [fs_after]. now apply (mkdirs_unique _ _ _ Hu E).
Qed.

Lemma remove_trace p fs : trace (remove p fs) = [Remove p].
Proof.
  unfold remove. rewrite trace_bind. cbn [emit res fs_after trace app].
  destruct (Fs.resolve fs p) as [[?|?]|]; try reflexivity.
  destruct (Fs.del _ _) as [[?|?]|]; reflexivity.
Qed.

Lemma remove_ok p fs :
  unique_names (Dir fs) -> res (remove p fs) = Ok tt ->
  Fs.resolve (fs_after (remove p fs)) p = None.
Proof.
  intros Hu. unfold remove. erewrite bind_det by reflexivity.
  cbn [res fs_after].
  destruct (Fs.resolve fs p) as [[?|?]|]; try discriminate.
  destruct (Fs.del (Path.components p) (Dir fs)) as [[?|fs']|] eqn:E;
    try discriminate.
  intros _. cbn [fs_after]. unfold Fs.resolve.
  now apply (del_walk _ _ _ Hu E).
Qed.

Lemma copy_trace src dst fs : trace (copy src dst fs) = [Copy src dst].
Proof.
  unfold copy. rewrite trace_bind. cbn [emit res fs_after trace app]. cbv zeta.
  destruct (same_file fs src _); [reflexivity|].
  destruct (Fs.resolve fs src) as [[?|?]|]; try reflexivity.
  now rewrite store_trace.
Qed.

Lemma copy_ok src dst fs :
  Fs.resolve fs dst = None -> res (copy src dst fs) = Ok tt ->
  exists c, Fs.resolve fs src = Some (File c) /\
            Fs.resolve (fs_after (copy src dst fs)) dst = Some (File c).
Proof.
  intros Hnone. unfold copy. erewrite bind_det by reflexivity.
  cbn [res fs_after]. cbv zeta. rewrite Hnone.
  destruct (same_file fs src dst); [discriminate|].
  destruct (Fs.resolve fs src) as [[c|?]|]; try discriminate.
  intros H. exists c. split; [reflexivity|]. now apply store_ok.
Qed.

Lemma resolve_outside fs fs' p c cs :
  outside_site fs fs' -> Path.components p = c :: cs -> c <> "site" ->
  Fs.resolve fs' p = Fs.resolve fs p.
Proof.
  intros [H _] Hp Hc. unfold Fs.resolve. rewrite Hp. cbn [Fs.walk].
  now rewrite (H c Hc).
Qed.

Lemma when_remove_no_print b p fs line :
  ~ In (Print line) (trace (when b (remove p) fs)).
Proof.
  destruct b; cbn [when]; [|intros []].
  rewrite remove_trace. intros [H|[]]. discriminate.
Qed.

(** When an iteration of the copy loop prints that it copied a page, the
    destination holds the content of the page, whether or not an older copy
    was there before, and the page itself is still in place.  The names of
    each directory are taken to be pairwise different, as a file system has
    them, and the page to lie below [templates]. *)
Theorem copied_line_is_true f rest fs :
  unique_names (Dir fs) ->
  Path.components f = "templates" :: rest ->
  In (Print ("Copied " ++ f ++ " to " ++ destination f))
     (trace (copy_one f fs)) ->
  exists c,
    Fs.resolve fs f = Some (File c) /\
    Fs.resolve (fs_after (copy_one f fs)) (destination f) = Some (File c) /\
    Fs.resolve (fs_after (copy_one f fs)) f = Some (File c).
Proof.
  intros Hu Hf. unfold copy_one. cbv zeta.
  match goal with |- context [try_ ?body] => set (BODY := body) end.
  intros H. apply in_bind_inv in H. destruct H as [H|[r [Hr H]]].
  - rewrite trace_try in H. unfold BODY in H.
    apply in_bind_inv in H. destruct H as [H|[ex [HP1 H]]].
    { rewrite path_exists_spec in H. destruct H. }
    apply in_bind_inv in H. destruct H as [H|[u1 [HW1 H]]].
    { now apply when_makedirs_no_print in H. }
    apply in_bind_inv in H. destruct H as [H|[ex' [HP2 H]]].
    { rewrite path_exists_spec in H. destruct H. }
    apply in_bind_inv in H. destruct H as [H|[u2 [HW2 H]]].
    { now apply when_remove_no_print in H. }
    apply in_bind_inv in H. destruct H as [H|[u3 [HC H]]].
    { rewrite copy_trace in H. destruct H as [H|[]]. discriminate. }
    clear H.
    assert (Hres : res (BODY fs) = Ok tt).
    { unfold BODY.
      rewrite (proj2 (bind_ok_after _ _ _ _ HP1)),
        (proj2 (bind_ok_after _ _ _ _ HW1)),
        (proj2 (bind_ok_after _ _ _ _ HP2)),
        (proj2 (bind_ok_after _ _ _ _ HW2)),
        (proj2 (bind_ok_after _ _ _ _ HC)).
      reflexivity. }
    assert (HT : res (try_ BODY fs) = Ok (Ok tt)).
    { now rewrite res_try, Hres. }
    rewrite (proj1 (bind_ok_after _ _ _ _ HT)). cbn [ret fs_after].
    rewrite fs_after_try. unfold BODY.
    rewrite (proj1 (bind_ok_after _ _ _ _ HP1)),
      (proj1 (bind_ok_after _ _ _ _ HW1)),
      (proj1 (bind_ok_after _ _ _ _ HP2)),
      (proj1 (bind_ok_after _ _ _ _ HW2)),
      (proj1 (bind_ok_after _ _ _ _ HC)).
    change (fs_after (print ?line ?x)) with x.
    clear Hres HT BODY.
    (* the working directory step by step *)
    rewrite path_exists_spec in HP1, HW1, HP2, HW2, HC |- *.
    cbn [res fs_after] in HP1, HW1, HP2, HW2, HC |- *.
    set (fs1 := fs_after (when (negb ex)
                            (makedirs (Path.dirname (destination f))) fs))
      in *.
    rewrite path_exists_spec in HP2, HW2, HC |- *.
    cbn [res fs_after] in HP2, HW2, HC |- *.
    set (fs2 := fs_after (when ex' (remove (destination f)) fs1)) in *.
    assert (H01 : outside_site fs fs1).
    { apply (keeps_when _ _ (keeps_makedirs _ (site_rooted_destination_dir f))). }
    assert (H12 : outside_site fs1 fs2).
    { apply keeps_when, keeps_remove. apply destination_spec. }
    assert (H23 : outside_site fs2 (fs_after (copy f (destination f) fs2))).
    { apply keeps_copy, site_rooted_destination. }
    assert (Hu1 : unique_names (Dir fs1)) by now apply when_makedirs_unique.
    assert (Hgone : Fs.resolve fs2 (destination f) = None).
    { unfold fs2. destruct ex'; cbn [when] in HW2 |- *.
      - destruct u2. now apply remove_ok.
      - cbn [ret fs_after]. inversion HP2 as [Hex]. unfold fs1 in *.
        destruct (Fs.resolve _ (destination f)); [discriminate | reflexivity]. }
    destruct u3. destruct (copy_ok _ _ _ Hgone HC) as [c [Hsrc Hdst]].
    assert (Hc : "templates" <> "site") by discriminate.
    assert (Hsrc0 : Fs.resolve fs f = Some (File c)).
    { rewrite <- Hsrc.
      rewrite (resolve_outside _ _ _ _ _ H12 Hf Hc).
      now rewrite (resolve_outside _ _ _ _ _ H01 Hf Hc). }
    exists c. split; [exact Hsrc0|]. split; [exact Hdst|].
    change (Fs.resolve (fs_after (copy f (destination f) fs2)) f
            = Some (File c)).
    rewrite (resolve_outside _ _ _ _ _ H23 Hf Hc). exact Hsrc.
  - exfalso. destruct r as [u|e]; [destruct H|].
    apply in_bind_inv in H.
    destruct H as [[H|[]]|[u [_ [H|[]]]]]; discriminate.
Qed.

Lemma copied_line_is_true_witness :
  exists c,
    Fs.resolve fs_stale_copy "templates/about.html" = Some (File c) /\
    Fs.resolve (fs_after (copy_one "templates/about.html" fs_stale_copy))
               (destination "templates/about.html") = Some (File c) /\
    Fs.resolve (fs_after (copy_one "templates/about.html" fs_stale_copy))
               "templates/about.html" = Some (File c).
Proof.
  apply (copied_line_is_true "templates/about.html" ["about.html"]
           fs_stale_copy).
  - apply unique_names_dir. cbn. repeat constructor; cbn;
      try (apply unique_names_dir; cbn; repeat constructor; cbn; tauto);
      intuition discriminate.
  - reflexivity.
  - vm_compute. tauto.
Defined.

(** ** What the render loop writes *)

Lemma render_one_writes
    (jinja : tree -> string -> dict -> result string) d f fs p text :
  In (Write p text) (trace (render_one jinja d f fs)) ->
  p = outname f /\ jinja fs (Path.relpath f "templates") d = Ok text.
Proof.
  unfold render_one. intros H.
  apply in_bind_inv in H. destruct H as [H|[r [Hr H]]].
  - rewrite trace_try in H.
    apply in_bind_inv in H. destruct H as [H|[output [HG H]]].
    { rewrite get_and_render_trace in H. destruct H as [H|[]]. discriminate. }
    apply in_bind_inv in H. destruct H as [H|[ex [HP H]]].
    { rewrite path_exists_spec in H. destruct H. }
    apply in_bind_inv in H. destruct H as [H|[u [HW H]]].
    { destruct (negb ex); cbn [when] in H; [|destruct H].
      rewrite makedirs_trace in H. destruct H as [H|[]]. discriminate. }
    apply in_bind_inv in H. destruct H as [H|[u' [HS H]]].
    + rewrite open_write_spec in H. cbn [trace] in H.
      rewrite store_trace in H. destruct H as [H|[]].
      inversion H. subst. split; [reflexivity|].
      rewrite get_and_render_spec in HG. exact HG.
    + destruct H as [H|[]]. discriminate.
  - exfalso. destruct r as [u|e]; [destruct H|].
    apply in_bind_inv in H.
    destruct H as [H|[u [_ [H|[]]]]]; [|discriminate].
    destruct (is_template_error e); destruct H as [H|[]]; discriminate.
Qed.

Lemma render_loop_writes
    (jinja : tree -> string -> dict -> result string) d l p text : forall fs,
  In (Write p text) (trace (for_each l (render_one jinja d) fs)) ->
  exists f fs',
    In f l /\ p = outname f /\
    jinja fs' (Path.relpath f "templates") d = Ok text.
Proof.
  induction l as [|f l IH]; intros fs H; [contradiction|].
  cbn [for_each] in H. apply in_bind_inv in H. destruct H as [H|[u [_ H]]].
  - destruct (render_one_writes _ _ _ _ _ _ H) as [-> Hj].
    exists f, fs. split; [now left | now split].
  - destruct (IH _ H) as [g [fs' [Hin Hg]]]. exists g, fs'.
    split; [now right | exact Hg].
Qed.

(** The render loop writes nothing but outputs: every file it writes is the
    output file of a template of the list, and the text written is what the
    environment returned for that template. *)
Theorem writes_only_outputs
    (jinja : tree -> string -> dict -> result string) d fs p text :
  In (Write p text) (trace (render_templates jinja d fs)) ->
  exists f fs',
    In f (template_files fs) /\ p = outname f /\
    jinja fs' (Path.relpath f "templates") d = Ok text.
Proof.
  rewrite render_templates_spec. cbn [trace]. intros H.
  apply in_app_or in H. destruct H as [H|[H|H]].
  - unfold site_trace in H.
    destruct (Fs.resolve fs "site"); [destruct H | destruct H as [H|[]]];
      discriminate.
  - discriminate.
  - now apply (render_loop_writes jinja d _ _ _ (site_ready fs)).
Qed.

Lemma writes_only_outputs_witness :
  exists f fs',
    In f (template_files fs_data_and_page) /\
    "site/index.html" = outname f /\
    plain_engine fs' (Path.relpath f "templates") [] = Ok "hello".
Proof.
  apply (writes_only_outputs plain_engine [] fs_data_and_page
           "site/index.html" "hello").
  vm_compute. tauto.
Defined.

(** ** Documents that are not mappings *)

(** A data file that [load_data] opens and whose document is a scalar, such
    as an empty YAML file, is reported as an error with its path, and
    loading it leaves the context as it was. *)
Theorem scalar_document_rejected fs path v :
  In path (opened (trace (load_data fs))) ->
  Fs.resolve fs path = Some (File (Doc v)) ->
  scalar v ->
  (forall data,
      res (load_file json_load path data fs) = Ok data /\
      res (load_file yaml_safe_load path data fs) = Ok data) /\
  exists e,
    In (Print ("Error loading data from " ++ path ++ ": " ++ exn_str e))
       (trace (load_data fs)) /\
    In (Traceback e) (trace (load_data fs)).
Proof.
  intros Hin Hfile Hv. rewrite opened_load_data in Hin.
  assert (H : file_pairs fs path = [] /\ exists e, file_error fs path = Some e).
  { unfold file_pairs, file_error, read_value. rewrite Hfile.
    cbn [json_load].
    destruct v as [| | |s| |]; try contradiction; cbn [Py.update_seq];
      try (split; [reflexivity | eexists; reflexivity]).
    destruct s; [now contradiction Hv|].
    split; [reflexivity | eexists; reflexivity]. }
  destruct H as [Hpairs [e He]]. split.
  - intros data. rewrite yaml_as_json, load_file_spec, Hpairs.
    split; reflexivity.
  - exists e.
    rewrite load_data_spec. cbn [trace]. unfold processing_order in Hin.
    apply in_app_or in Hin.
    destruct Hin as [Hin|Hin];
      destruct (in_file_trace_error fs _ _ _ Hin He) as [H1 H2].
    + split; right; apply in_or_app; left; assumption.
    + split; right; apply in_or_app; right; right; assumption.
Qed.

Lemma scalar_document_rejected_witness :
  (forall data,
      res (load_file json_load "data/empty.yaml" data fs_empty_yaml)
        = Ok data /\
      res (load_file yaml_safe_load "data/empty.yaml" data fs_empty_yaml)
        = Ok data) /\
  exists e,
    In (Print ("Error loading data from " ++ "data/empty.yaml" ++ ": "
               ++ exn_str e))
       (trace (load_data fs_empty_yaml)) /\
    In (Traceback e) (trace (load_data fs_empty_yaml)).
Proof.
  apply (scalar_document_rejected fs_empty_yaml "data/empty.yaml" VNone).
  - vm_compute. tauto.
  - reflexivity.
  - exact I.
Defined.

(** ** A copy that fails *)

Lemma walk_prefix l1 : forall n l2 x,
  Fs.walk n (l1 ++ l2)%list = Some x -> exists d, Fs.walk n l1 = Some d.
Proof.
  induction l1 as [|c l1 IH]; intros n l2 x H; [now exists n|].
  cbn [app Fs.walk] in H |- *. destruct n as [?|es]; [discriminate|].
  destruct (Fs.lookup c es) as [child|]; [|discriminate].
  exact (IH _ _ _ H).
Qed.

(** What exists lies in a directory that exists. *)
Lemma resolve_dirname fs p x :
  Fs.resolve fs p = Some x -> Fs.resolve fs (Path.dirname p) <> None.
Proof.
  unfold Fs.resolve. rewrite components_dirname. unfold Path.components.
  destruct (split_cons p) as [h [t Hs]].
  assert (Hne : Str.split "/" p <> []) by (rewrite Hs; discriminate).
  rewrite (app_removelast_last "" Hne) at 1. rewrite filter_app.
  intros H. destruct (walk_prefix _ _ _ _ H) as [d Hd].
  unfold nonempty. rewrite Hd. discriminate.
Qed.

Lemma del_file comps : forall es c,
  Fs.walk (Dir es) comps = Some (File c) ->
  exists es', Fs.del comps (Dir es) = Some (Dir es').
Proof.
  induction comps as [|a comps IH]; intros es c H; [discriminate|].
  cbn [Fs.walk] in H.
  destruct (Fs.lookup a es) as [child|] eqn:El; [|discriminate].
  destruct comps as [|b cs]; [eexists; reflexivity|].
  destruct child as [?|es2]; [discriminate|].
  destruct (IH _ _ H) as [es2' E].
  rewrite del_step, El, E. eexists. reflexivity.
Qed.

Lemma remove_file fs p c :
  Fs.resolve fs p = Some (File c) ->
  exists fs', remove p fs = Outcome (Ok tt) fs' [Remove p].
Proof.
  intros H. unfold remove. destruct (del_file _ _ _ H) as [fs' E].
  exists fs'. erewrite bind_det by reflexivity. rewrite H, E. reflexivity.
Qed.

Lemma copy_not_file src dst fs :
  Fs.resolve fs dst = None ->
  Path.components src <> Path.components dst ->
  (forall c, Fs.resolve fs src <> Some (File c)) ->
  exists e, copy src dst fs = Outcome (Raise e) fs [Copy src dst].
Proof.
  intros Hd Hne Hs.
  assert (Hsame : same_file fs src dst = false).
  { unfold same_file. destruct (Fs.resolve fs src); [|reflexivity].
    now destruct (list_eq_dec string_dec _ _). }
  unfold copy. erewrite bind_det by reflexivity. cbv beta zeta.
  rewrite Hd, Hsame.
  destruct (Fs.resolve fs src) as [[c|es]|] eqn:E.
  - now contradiction (Hs c).
  - eexists. reflexivity.
  - eexists. reflexivity.
Qed.

(** The older copy of a page is removed before the page is copied.  When
    the copy then fails because the source is not a file, as for a
    directory whose name ends in [.html], the error is reported and the
    older copy is gone.  The names of each directory are taken to be
    pairwise different, and the source to lie below [templates]. *)
Theorem failed_copy_removes_old_copy f rest fs old :
  unique_names (Dir fs) ->
  Path.components f = "templates" :: rest ->
  Fs.resolve fs (destination f) = Some (File old) ->
  (forall c, Fs.resolve fs f <> Some (File c)) ->
  Fs.resolve (fs_after (copy_one f fs)) (destination f) = None /\
  exists e,
    trace (copy_one f fs) =
    [Remove (destination f); Copy f (destination f);
     Print ("Error copying " ++ f ++ " to " ++ destination f ++ ": "
            ++ exn_str e);
     Traceback e].
Proof.
  intros Hu Hf Hold Hsrc.
  pose proof (resolve_dirname _ _ _ Hold) as Hdir.
  destruct (remove_file _ _ _ Hold) as [fs2 Hrm].
  assert (Hgone : Fs.resolve fs2 (destination f) = None).
  { pose proof (remove_ok (destination f) fs Hu) as H. rewrite Hrm in H.
    now apply H. }
  assert (H12 : outside_site fs fs2).
  { pose proof (keeps_remove _ (proj2 (destination_spec f)) fs) as H.
    now rewrite Hrm in H. }
  assert (Hsrc2 : Fs.resolve fs2 f = Fs.resolve fs f).
  { apply (resolve_outside _ _ _ _ _ H12 Hf). discriminate. }
  assert (Hne : Path.components f <> Path.components (destination f)).
  { destruct (site_rooted_destination f) as [cs Hd]. rewrite Hf, Hd.
    discriminate. }
  destruct (copy_not_file f (destination f) fs2 Hgone Hne) as [e Hcp].
  { intros c. rewrite Hsrc2. apply Hsrc. }
  assert (Hex1 : path_exists (Path.dirname (destination f)) fs
                 = Outcome (Ok true) fs []).
  { rewrite path_exists_spec.
    destruct (Fs.resolve fs (Path.dirname (destination f)));
      [reflexivity | contradiction]. }
  assert (Hex2 : path_exists (destination f) fs = Outcome (Ok true) fs []).
  { rewrite path_exists_spec, Hold. reflexivity. }
  unfold copy_one. cbv zeta.
  match goal with |- context [try_ ?body] => set (BODY := body) end.
  assert (HB : BODY fs = Outcome (Raise e) fs2
                           [Remove (destination f); Copy f (destination f)]).
  { unfold BODY.
    rewrite (bind_det _ _ _ _ _ _ Hex1). cbn [negb when].
    erewrite (bind_det (ret tt)) by reflexivity.
    rewrite (bind_det _ _ _ _ _ _ Hex2). cbn [when].
    rewrite (bind_det _ _ _ _ _ _ Hrm).
    rewrite (bind_raise_det _ _ _ _ _ _ Hcp). reflexivity. }
  assert (HT : try_ BODY fs = Outcome (Ok (Raise e)) fs2
                 [Remove (destination f); Copy f (destination f)]).
  { unfold try_. rewrite HB. reflexivity. }
  rewrite (bind_det _ _ _ _ _ _ HT). cbn [fs_after trace].
  split; [exact Hgone|]. exists e. reflexivity.
Qed.

Lemma failed_copy_removes_old_copy_witness :
  Fs.resolve (fs_after (copy_one "templates/docs.html" fs_directory_page))
             (destination "templates/docs.html") = None /\
  exists e,
    trace (copy_one "templates/docs.html" fs_directory_page) =
    [Remove (destination "templates/docs.html");
     Copy "templates/docs.html" (destination "templates/docs.html");
     Print ("Error copying " ++ "templates/docs.html" ++ " to "
            ++ destination "templates/docs.html" ++ ": " ++ exn_str e);
     Traceback e].
Proof.
  apply (failed_copy_removes_old_copy "templates/docs.html" ["docs.html"]
           fs_directory_page (Raw "old text")).
  - apply unique_names_dir. cbn. repeat constructor; cbn;
      try (apply unique_names_dir; cbn; repeat constructor; cbn;
           try (apply unique_names_dir; cbn; repeat constructor; cbn);
           tauto);
      intuition discriminate.
  - reflexivity.
  - reflexivity.
  - intros c. vm_compute. discriminate.
Defined.

(** ** Output names end in a name *)

Lemma endswith_slash_cons c s :
  Str.endswith (String c s) "/" =
  match s with
  | EmptyString => Ascii.eqb c "/"
  | String _ _ => Str.endswith s "/"
  end.
Proof.
  cbn [Str.endswith]. destruct s as [|c' s'].
  - cbn [String.eqb Str.endswith]. destruct (Ascii.eqb c "/"); reflexivity.
  - cbn [String.eqb]. destruct (Ascii.eqb c "/"); reflexivity.
Qed.

Lemma endswith_slash_app a b :
  Str.endswith (a ++ b) "/" =
  match b with
  | EmptyString => Str.endswith a "/"
  | String _ _ => Str.endswith b "/"
  end.
Proof.
  induction a as [|c a IH]; [now destruct b|].
  change (String c a ++ b) with (String c (a ++ b)).
  rewrite !endswith_slash_cons, IH.
  destruct b as [|c' b'].
  - destruct a; reflexivity.
  - destruct a; reflexivity.
Qed.

Lemma no_slash_no_end s :
  Str.contains "/" s = false -> Str.endswith s "/" = false.
Proof.
  induction s as [|c s IH]; [reflexivity|].
  rewrite contains_slash_cons, endswith_slash_cons. intros H.
  apply orb_false_iff in H. destruct H as [Hc Hs].
  destruct s; [exact Hc | now apply IH].
Qed.

Lemma last_split_name s :
  s <> EmptyString -> Str.endswith s "/" = false ->
  last (Str.split "/" s) EmptyString <> EmptyString.
Proof.
  induction s as [|c s IH]; [congruence|]. intros _.
  rewrite endswith_slash_cons. cbn [Str.split]. destruct s as [|c' s'].
  - intros ->. cbn. discriminate.
  - intros H. specialize (IH ltac:(discriminate) H).
    destruct (split_cons (String c' s')) as [h [t Hs]].
    rewrite Hs in IH |- *.
    destruct (Ascii.eqb c "/"); [exact IH|].
    destruct t as [|h' t]; [discriminate | exact IH].
Qed.

Lemma replace_from_empty old new s :
  new <> EmptyString -> Str.replace_from old new 0 s = EmptyString ->
  s = EmptyString.
Proof.
  intros Hn. destruct s as [|c s]; [reflexivity|]. cbn [Str.replace_from].
  destruct (String.prefix old (String c s)); [|discriminate].
  destruct new; [congruence | discriminate].
Qed.

Lemma replace_from_end old new :
  new <> EmptyString -> Str.endswith new "/" = false ->
  forall s k,
    Str.endswith s "/" = false ->
    Str.endswith (Str.replace_from old new k s) "/" = false.
Proof.
  intros Hn He. induction s as [|c s IH]; intros k Hs; [reflexivity|].
  assert (Hs' : Str.endswith s "/" = false).
  { rewrite endswith_slash_cons in Hs. destruct s; [reflexivity | exact Hs]. }
  cbn [Str.replace_from]. destruct k as [|k]; [|now apply IH].
  destruct (String.prefix old (String c s)).
  - rewrite endswith_slash_app.
    destruct (Str.replace_from old new (String.length old - 1) s) eqn:E;
      [exact He|]. rewrite <- E. now apply IH.
  - rewrite endswith_slash_cons.
    destruct (Str.replace_from old new 0 s) eqn:E.
    + apply (replace_from_empty _ _ _ Hn) in E. subst s.
      now rewrite endswith_slash_cons in Hs.
    + rewrite <- E. now apply IH.
Qed.

Lemma replace_end s o old n new :
  s <> EmptyString -> Str.endswith s "/" = false ->
  Str.endswith (String n new) "/" = false ->
  Str.replace s (String o old) (String n new) <> EmptyString /\
  Str.endswith (Str.replace s (String o old) (String n new)) "/" = false.
Proof.
  intros Hs He Hn. cbn [Str.replace]. split.
  - intros H. apply replace_from_empty in H; [contradiction | discriminate].
  - apply replace_from_end; [discriminate | exact Hn | exact He].
Qed.

Lemma join_parts_end l :
  l <> [] -> Forall part l ->
  Str.join "/" l <> EmptyString /\ Str.endswith (Str.join "/" l) "/" = false.
Proof.
  induction l as [|p l IH]; [congruence|]. intros _ H.
  inversion H as [|? ? [Hne Hns] Hl]; subst. destruct l as [|q l].
  - cbn [Str.join]. split; [exact Hne | now apply no_slash_no_end].
  - change (Str.join "/" (p :: q :: l))
      with (p ++ String "/" (Str.join "/" (q :: l))).
    destruct (IH ltac:(discriminate) Hl) as [Hj He]. split.
    + destruct p; [congruence | discriminate].
    + rewrite endswith_slash_app, endswith_slash_cons.
      destruct (Str.join "/" (q :: l)); [congruence | exact He].
Qed.

Lemma relpath_end p start :
  Path.relpath p start <> EmptyString /\
  Str.endswith (Path.relpath p start) "/" = false.
Proof.
  unfold Path.relpath.
  pose proof (drop_common_parts (Path.components p) (Path.components start)
                (components_parts p)) as Hrest.
  destruct (Path.drop_common (Path.components p) (Path.components start))
    as [rest up]. cbn [fst] in Hrest.
  assert (Hl : Forall part (map (fun _ : string => "..") up ++ rest)%list).
  { apply Forall_app. split; [|exact Hrest].
    apply Forall_forall. intros c Hc. apply in_map_iff in Hc.
    destruct Hc as [? [<- _]]. split; [discriminate | reflexivity]. }
  destruct (map (fun _ : string => "..") up ++ rest)%list as [|c l] eqn:El.
  - split; [discriminate | reflexivity].
  - apply join_parts_end; [discriminate | exact Hl].
Qed.

(** The output name of a template ends in a name, not in a slash. *)
Lemma basename_outname f : Path.basename (outname f) <> EmptyString.
Proof.
  destruct (relpath_end f "templates") as [H0 E0].
  destruct (replace_end _ "." "html.j2" "." "html" H0 E0 eq_refl) as [H1 E1].
  destruct (replace_end _ "." "j2" "." "html" H1 E1 eq_refl) as [H2 E2].
  destruct (replace_end _ "." "html.jinja" "." "html" H2 E2 eq_refl)
    as [H3 E3].
  destruct (replace_end _ "." "jinja" "." "html" H3 E3 eq_refl) as [H4 E4].
  unfold outname, Path.basename. rewrite join_site.
  - apply last_split_name; [discriminate|].
    rewrite endswith_slash_app.
    match goal with
    | |- match ?x with _ => _ end = false => destruct x eqn:E
    end; [now contradiction H4 | exact E4].
  - repeat apply replace_not_rooted. apply relpath_shape.
Qed.

Lemma components_last p :
  Path.basename p <> EmptyString ->
  Path.components p
  = (Path.components (Path.dirname p) ++ [Path.basename p])%list.
Proof.
  intros Hb. rewrite components_dirname. unfold Path.components, Path.basename.
  destruct (split_cons p) as [h [t Hs]].
  assert (Hne : Str.split "/" p <> []) by (rewrite Hs; discriminate).
  rewrite (app_removelast_last "" Hne) at 1. rewrite filter_app.
  unfold Path.basename in Hb. cbn [filter].
  destruct (last (Str.split "/" p) ""); [congruence | reflexivity].
Qed.

(** ** An iteration of the render loop that succeeds *)

Lemma walk_app l1 : forall n l2,
  Fs.walk n (l1 ++ l2)%list =
  match Fs.walk n l1 with
  | Some x => Fs.walk x l2
  | None => None
  end.
Proof.
  induction l1 as [|c l1 IH]; intros n l2; [reflexivity|].
  cbn [app Fs.walk]. destruct n as [?|es]; [reflexivity|].
  destruct (Fs.lookup c es); [apply IH | reflexivity].
Qed.

Lemma through_file_walk name : forall parent n x,
  Fs.through_file (parent ++ [name])%list n = false ->
  Fs.walk n parent = Some x -> exists es, x = Dir es.
Proof.
  induction parent as [|c cs IH]; intros n x Ht Hw.
  - inversion Hw; subst. destruct x as [?|es]; [discriminate | now exists es].
  - destruct n as [?|es]; [discriminate|]. cbn [app Fs.through_file] in Ht.
    cbn [Fs.walk] in Hw.
    destruct (Fs.lookup c es) as [child|]; [|discriminate].
    exact (IH _ _ Ht Hw).
Qed.

(** [mkdirs] succeeds when no file is in the way, and a directory it had to
    make is empty. *)
Lemma mkdirs_fresh name : forall comps n,
  Fs.through_file (comps ++ [name])%list n = false ->
  exists n' es1,
    Fs.mkdirs comps n = Some n' /\
    (forall es, n = Dir es -> exists es', n' = Dir es') /\
    Fs.walk n' comps = Some (Dir es1) /\
    (Fs.walk n comps = None -> es1 = []) /\
    (forall es0, Fs.walk n comps = Some (Dir es0) -> es1 = es0).
Proof.
  induction comps as [|c cs IH]; intros n Ht.
  - destruct n as [?|es]; [discriminate|]. exists (Dir es), es.
    repeat split; try reflexivity.
    + intros es0 _. now exists es.
    + discriminate.
    + intros es0 H. now inversion H.
  - destruct n as [?|es]; [discriminate|]. cbn [app Fs.through_file] in Ht.
    rewrite mkdirs_step. cbn [Fs.walk].
    destruct (Fs.lookup c es) as [child|] eqn:El.
    + destruct (IH child Ht) as [child' [es1 [Hm [_ [Hw [Hn Hs]]]]]].
      rewrite Hm. exists (Dir (Fs.set_entry c child' es)), es1.
      repeat split; try assumption.
      * intros ? _. now eexists.
      * cbn [Fs.walk]. now rewrite lookup_set_entry_same.
    + assert (Ht' : Fs.through_file (cs ++ [name])%list (Dir []) = false).
      { destruct cs; reflexivity. }
      destruct (IH (Dir []) Ht') as [child' [es1 [Hm [_ [Hw [Hn Hs]]]]]].
      rewrite Hm. exists (Dir (Fs.set_entry c child' es)), es1.
      repeat split.
      * intros ? _. now eexists.
      * cbn [Fs.walk]. now rewrite lookup_set_entry_same.
      * intros _. destruct cs as [|c' cs'].
        -- now apply Hs.
        -- now apply Hn.
      * discriminate.
Qed.

Lemma put_below_dir name x : forall parent n es,
  Fs.walk n parent = Some (Dir es) ->
  exists n',
    Fs.put (parent ++ [name])%list x n = Some n' /\
    (forall es0, n = Dir es0 -> exists es', n' = Dir es').
Proof.
  induction parent as [|c cs IH]; intros n es Hw.
  - inversion Hw; subst. cbn [app]. rewrite put_one. eexists.
    split; [reflexivity|]. intros ? _. now eexists.
  - destruct n as [?|es0]; [discriminate|]. cbn [Fs.walk] in Hw.
    destruct (Fs.lookup c es0) as [child|] eqn:El; [|discriminate].
    destruct (IH _ _ Hw) as [child' [Hp _]].
    cbn [app].
    destruct (cs ++ [name])%list as [|c' rest] eqn:E;
      [now destruct cs|].
    rewrite put_step, El, Hp. eexists. split; [reflexivity|].
    intros ? _. now eexists.
Qed.

Lemma open_write_below_dir fs p text es name :
  Path.components p = (Path.components (Path.dirname p) ++ [name])%list ->
  Fs.resolve fs (Path.dirname p) = Some (Dir es) ->
  (forall es', Fs.resolve fs p <> Some (Dir es')) ->
  exists fs',
    open_write p text fs = Outcome (Ok tt) fs' [Write p text] /\
    Fs.resolve fs' p = Some (File (Raw text)).
Proof.
  intros Hc Hd Hn.
  destruct (put_below_dir name (File (Raw text)) _ _ _ Hd) as [n' [Hp Hs]].
  destruct (Hs fs eq_refl) as [fs' ->]. rewrite <- Hc in Hp.
  assert (Hst : store p (Raw text) fs = Outcome (Ok tt) fs' []).
  { unfold store. rewrite Hp.
    destruct (Fs.resolve fs p) as [[?|es']|] eqn:E; try reflexivity.
    now contradiction (Hn es'). }
  exists fs'. split.
  - rewrite open_write_spec, Hst. reflexivity.
  - pose proof (store_ok p (Raw text) fs) as H. rewrite Hst in H.
    now apply H.
Qed.

(** With a text from the environment and a writable output, an iteration
    makes the output directory if it is missing, writes the text and prints
    the line. *)
Lemma render_one_success
    (jinja : tree -> string -> dict -> result string) d f fs output :
  jinja fs (Path.relpath f "templates") d = Ok output ->
  writable fs (outname f) ->
  exists fs' made,
    render_one jinja d f fs =
    Outcome (Ok tt) fs'
      (Render (Path.relpath f "templates") d
       :: made ++ [Write (outname f) output;
                   Print ("Rendered " ++ f ++ " to " ++ outname f)])%list /\
    Fs.resolve fs' (outname f) = Some (File (Raw output)).
Proof.
  intros Hj [Ht Hn].
  pose proof (components_last _ (basename_outname f)) as Hc.
  rewrite Hc in Ht.
  set (outdir := Path.dirname (outname f)) in *.
  set (there := match Fs.resolve fs outdir with
                | Some _ => true
                | None => false
                end).
  assert (Hmk : exists fs1 made es1,
             when (negb there) (makedirs outdir) fs
             = Outcome (Ok tt) fs1 made /\
             Fs.resolve fs1 outdir = Some (Dir es1) /\
             forall es', Fs.resolve fs1 (outname f) <> Some (Dir es')).
  { unfold there. destruct (Fs.resolve fs outdir) as [x|] eqn:E.
    - destruct (through_file_walk _ _ _ _ Ht E) as [es ->].
      exists fs, [], es. split; [reflexivity | now split].
    - destruct (mkdirs_fresh _ _ _ Ht) as [n' [es1 [Hm [Hd [Hw [Hnone _]]]]]].
      destruct (Hd fs eq_refl) as [fs1 ->].
      specialize (Hnone E). subst es1.
      exists fs1, [Makedirs outdir], [].
      split; [|split].
      + cbn [negb when]. unfold makedirs.
        erewrite bind_det by reflexivity. cbv beta. rewrite E.
        destruct (Path.components outdir) as [|c cs] eqn:Ec.
        { unfold Fs.resolve in E. rewrite Ec in E. discriminate. }
        rewrite Hm. reflexivity.
      + exact Hw.
      + intros es'. unfold Fs.resolve. rewrite Hc, walk_app.
        unfold Fs.resolve in Hw. rewrite Hw. discriminate. }
  destruct Hmk as [fs1 [made [es1 [Hmk [Hdir Hn1]]]]].
  destruct (open_write_below_dir fs1 (outname f) output es1 _ Hc Hdir Hn1)
    as [fs2 [Hw Hr]].
  exists fs2, made. split; [|exact Hr].
  assert (HK : (ex <- path_exists outdir ;;
                when (negb ex) (makedirs outdir) ;;
                open_write (outname f) output ;;
                print ("Rendered " ++ f ++ " to " ++ outname f)) fs
               = Outcome (Ok tt) fs2
                   (made ++ [Write (outname f) output;
                             Print ("Rendered " ++ f ++ " to "
                                    ++ outname f)])%list).
  { rewrite (bind_det _ _ _ _ _ _ (path_exists_spec outdir fs)). cbv beta.
    fold there.
    rewrite (bind_det _ _ _ _ _ _ Hmk). cbv beta.
    rewrite (bind_det _ _ _ _ _ _ Hw). reflexivity. }
  unfold render_one.
  match goal with |- context [try_ ?body] => set (BODY := body) end.
  assert (HT : try_ BODY fs = Outcome (Ok (Ok tt)) fs2
                 (Render (Path.relpath f "templates") d
                  :: made ++ [Write (outname f) output;
                              Print ("Rendered " ++ f ++ " to "
                                     ++ outname f)])%list).
  { unfold try_, BODY.
    erewrite bind_det
      by (rewrite get_and_render_spec, Hj; reflexivity).
    cbv zeta. fold outdir. rewrite HK. reflexivity. }
  rewrite (bind_det _ _ _ _ _ _ HT). cbn [ret res fs_after trace].
  now rewrite app_nil_r.
Qed.

(** ** A build triggered by a template or a data file (C3) *)

Lemma for_each_app {A} (body : A -> M unit) :
  (forall x fs, res (body x fs) = Ok tt) ->
  forall l1 l2 fs,
    for_each (l1 ++ l2)%list body fs =
    Outcome (Ok tt)
      (fs_after (for_each l2 body (fs_after (for_each l1 body fs))))
      (trace (for_each l1 body fs)
       ++ trace (for_each l2 body (fs_after (for_each l1 body fs))))%list.
Proof.
  intros Hok. induction l1 as [|x l1 IH]; intros l2 fs.
  - cbn [app for_each ret fs_after trace].
    rewrite (outcome_eta (for_each l2 body fs)) at 1.
    now rewrite total_for_each.
  - cbn [app for_each].
    destruct (bind_ok_after (body x) (fun _ => for_each l1 body) fs tt
                (Hok x fs)) as [Hfs _].
    rewrite Hfs, (trace_bind (body x) (fun _ => for_each l1 body)), Hok.
    unfold bind at 1. rewrite Hok, IH. cbn [res fs_after trace].
    now rewrite app_assoc.
Qed.

Lemma state_after_step
    (jinja : tree -> string -> dict -> result string) d l f fs :
  state_after jinja d (l ++ [f]) fs
  = fs_after (render_one jinja d f (state_after jinja d l fs)).
Proof.
  unfold state_after.
  rewrite (for_each_app _ (render_one_ok jinja d)). cbn [fs_after for_each].
  now destruct (bind_ok_after (render_one jinja d f) (fun _ => ret tt)
                  (fs_after (for_each l (render_one jinja d) (site_ready fs)))
                  tt (render_one_ok jinja d f _)) as [-> _].
Qed.

(** What an iteration of the render loop does is part of what the run
    does. *)
Lemma iteration_in_trace
    (jinja : tree -> string -> dict -> result string) d fs l1 f l2 e :
  template_files fs = (l1 ++ f :: l2)%list ->
  In e (trace (render_one jinja d f (state_after jinja d l1 fs))) ->
  In e (trace (render_templates jinja d fs)).
Proof.
  intros Hl He. rewrite render_templates_spec. cbn [trace]. rewrite Hl.
  apply in_or_app. right. right.
  rewrite (for_each_app _ (render_one_ok jinja d)). cbn [trace].
  apply in_or_app. right. cbn [for_each].
  rewrite trace_bind. apply in_or_app. left. exact He.
Qed.

(** C3, as the code has it: for a trigger that does not end in [.html] the
    run loads the data and then goes through the template list with the
    context just loaded, calling the environment once for every file of
    the list.  When the environment returns a text and the output is
    writable, the iteration writes the text to the output file and prints
    the line, and the file holds the text when the iteration is over (a
    later template with the same output name may overwrite it); when the
    environment raises, the iteration prints the error and changes
    nothing.  The run copies nothing. *)
Theorem other_trigger_renders
    (jinja : tree -> string -> dict -> result string) t fs :
  Str.endswith (first_path t) ".html" = false ->
  exists d tr1 tr2 fs',
    load_data fs = Outcome (Ok d) fs tr1 /\
    opened tr1 = processing_order fs /\
    render_templates jinja d fs = Outcome (Ok tt) fs' tr2 /\
    render_all jinja t fs =
      Outcome (Ok tt) fs'
        (Print ("Calling render_all with trigger_file: " ++ trigger_str t)
         :: tr1 ++ trigger_line t ++ tr2)%list /\
    rendered tr2
      = map (fun f => (Path.relpath f "templates", d)) (template_files fs) /\
    copied (trace (render_all jinja t fs)) = [] /\
    fs' = state_after jinja d (template_files fs) fs /\
    forall l1 f l2,
      template_files fs = (l1 ++ f :: l2)%list ->
      match jinja (state_after jinja d l1 fs) (Path.relpath f "templates") d
      with
      | Ok output =>
          writable (state_after jinja d l1 fs) (outname f) ->
          In (Write (outname f) output) tr2 /\
          In (Print ("Rendered " ++ f ++ " to " ++ outname f)) tr2 /\
          Fs.resolve (state_after jinja d (l1 ++ [f]) fs) (outname f)
            = Some (File (Raw output))
      | Raise e =>
          In (Print (render_error_line f e)) tr2 /\
          In (Traceback e) tr2 /\
          state_after jinja d (l1 ++ [f]) fs = state_after jinja d l1 fs
      end.
Proof.
  intros Ht.
  exists (merge [] (assignments fs)), (trace (load_data fs)),
    (trace (render_templates jinja (merge [] (assignments fs)) fs)),
    (fs_after (render_templates jinja (merge [] (assignments fs)) fs)).
  assert (Hall : render_all jinja t fs =
            Outcome (Ok tt)
              (fs_after (render_templates jinja (merge [] (assignments fs)) fs))
              (Print ("Calling render_all with trigger_file: "
                      ++ trigger_str t)
               :: trace (load_data fs) ++ trigger_line t
                  ++ trace (render_templates jinja
                              (merge [] (assignments fs)) fs))%list).
  { rewrite render_all_spec. cbv zeta. rewrite Ht.
    rewrite render_templates_spec. reflexivity. }
  destruct (render_templates_trace jinja (merge [] (assignments fs)) fs)
    as [Hr [Hc _]].
  destruct (load_steps_quiet _ (load_data_steps fs)) as [_ [Hlc _]].
  split; [rewrite load_data_spec; reflexivity|].
  split; [apply opened_load_data|].
  split; [rewrite render_templates_spec; reflexivity|].
  split; [exact Hall|].
  split; [exact Hr|].
  split.
  { rewrite Hall. cbn [trace copied]. rewrite !copied_app, Hlc, Hc.
    unfold trigger_line. destruct (truthy t); reflexivity. }
  split; [rewrite render_templates_spec; reflexivity|].
  intros l1 f l2 Hl.
  set (d := merge [] (assignments fs)).
  set (fs_i := state_after jinja d l1 fs).
  destruct (jinja fs_i (Path.relpath f "templates") d) as [output|e] eqn:Ej.
  - intros Hw.
    destruct (render_one_success jinja d f fs_i output Ej Hw)
      as [fs2 [made [Hone Hres]]].
    assert (Hin : forall e,
               In e (trace (render_one jinja d f fs_i)) ->
               In e (trace (render_templates jinja d fs))).
    { intros e. apply (iteration_in_trace jinja d fs l1 f l2 e Hl). }
    split; [|split].
    + apply Hin. rewrite Hone. cbn [trace]. right.
      apply in_or_app. right. now left.
    + apply Hin. rewrite Hone. cbn [trace]. right.
      apply in_or_app. right. right. now left.
    + rewrite state_after_step. fold fs_i. rewrite Hone. exact Hres.
  - pose proof (render_one_failure jinja d f fs_i e Ej) as Hone.
    assert (Hin : forall ev,
               In ev (trace (render_one jinja d f fs_i)) ->
               In ev (trace (render_templates jinja d fs))).
    { intros ev. apply (iteration_in_trace jinja d fs l1 f l2 ev Hl). }
    split; [|split].
    + apply Hin. rewrite Hone. cbn [trace]. right. now left.
    + apply Hin. rewrite Hone. cbn [trace]. right. right. now left.
    + rewrite state_after_step. fold fs_i. now rewrite Hone.
Qed.

Lemma other_trigger_renders_witness :
  exists d tr1 tr2 fs',
    load_data fs_nested_template = Outcome (Ok d) fs_nested_template tr1 /\
    render_all plain_engine (TStr "data/x.json") fs_nested_template =
      Outcome (Ok tt) fs'
        (Print ("Calling render_all with trigger_file: "
                ++ trigger_str (TStr "data/x.json"))
         :: tr1 ++ trigger_line (TStr "data/x.json") ++ tr2)%list /\
    rendered tr2 = [("blog/post.j2", d)] /\
    In (Write "site/blog/post.html" "post") tr2 /\
    In (Print "Rendered templates/blog/post.j2 to site/blog/post.html") tr2 /\
    Fs.resolve fs' "site/blog/post.html" = Some (File (Raw "post")).
Proof.
  destruct (other_trigger_renders plain_engine (TStr "data/x.json")
              fs_nested_template eq_refl)
    as [d [tr1 [tr2 [fs' [H1 [_ [_ [H4 [H5 [_ [H7 H8]]]]]]]]]]].
  specialize (H8 [] "templates/blog/post.j2" [] eq_refl).
  change (plain_engine (state_after plain_engine d [] fs_nested_template)
            (Path.relpath "templates/blog/post.j2" "templates") d)
    with (Ok (A:=string) "post") in H8.
  assert (Hw : writable (state_after plain_engine d [] fs_nested_template)
                 (outname "templates/blog/post.j2")).
  { split; [reflexivity|]. intros es. discriminate. }
  destruct (H8 Hw) as [Hwrite [Hline Hfile]].
  exists d, tr1, tr2, fs'.
  split; [exact H1|]. split; [exact H4|]. split; [exact H5|].
  split; [exact Hwrite|]. split; [exact Hline|].
  rewrite H7. exact Hfile.
Defined.

(** C3 as stated fails: of the four templates outside [partials] the run
    triggered by a data file renders one.  [glob] skips the hidden
    template, and the filter drops the two whose path holds the text
    [partials]. *)
Lemma data_trigger_counterexample :
  spec_template_files fs_mixed_templates
    = ["templates/.draft.j2"; "templates/nonpartials/n.j2";
       "templates/mypartials.j2"; "templates/index.j2"] /\
  rendered (trace (render_all plain_engine (TStr "data/x.json")
                     fs_mixed_templates))
    = [("index.j2", [])] /\
  written (trace (render_all plain_engine (TStr "data/x.json")
                    fs_mixed_templates))
    = ["site/index.html"].
Proof. repeat split; reflexivity. Qed.
